(** * LibLine editor core: a shallow embedding and its checked properties

    The development follows [Editor.cpp] of LibLine (namespace [Line]):
    the style model ([Style::unify_with]), the anchored-span tables and
    their relocation pass ([Editor::stylize],
    [Editor::readjust_anchored_styles]), the editing primitives
    ([Editor::insert], [Editor::remove_at_index]), history search
    ([Editor::search]), the input state machine of
    [Editor::handle_read_event], mode detection in [Editor::initialize]
    and the VT length parser ([Editor::actual_rendered_string_metrics]);
    further, the history buffer ([Editor::add_to_history]),
    [Editor::strip_styles], [Editor::find_applicable_style], the
    conversion of byte ranges to code-point ranges and
    [StringMetrics::lines_with_addition].

    Conventions.
    - [u32] and [size_t] are 32 bits wide on the target (i686); values of
      these types are integers in [Z] and every operation of the source
      that can leave the range has its wrap-around written out ([wrap32]).
    - Quantities that index the buffer or the history ([m_cursor],
      [m_history_cursor], ...) are bounded by the size of a vector held in
      memory and are kept in [nat]; they are injected into [Z] where the
      source hands them to 32-bit arithmetic.
    - An [AK::String] is its sequence of bytes, a [Vector<u32>] its
      sequence of code points; both are [list Z].
    - What is written to [stderr] by the modelled functions is collected,
      byte by byte, in the field [m_stderr]. *)

From Stdlib Require Import ZArith Lia Ascii String.
From stdpp Require Import base option list gmap.

Local Open Scope Z_scope.

(** ** Machine integers and byte strings *)

Definition wrap32 (z : Z) : Z := z mod 2 ^ 32.

(** [constexpr u32 ctrl(char c) { return c & 0x3f; }] *)
Definition ctrl (c : Z) : Z := Z.land c 63.

Definition bytes_of (s : string) : list Z :=
  map (fun a => Z.of_nat (nat_of_ascii a)) (list_ascii_of_string s).

Arguments bytes_of : simpl never.

Definition ESC : Z := 27.
Definition BEL : Z := 7.

(** [String::starts_with(StringView)]: byte-wise prefix test; the empty
    phrase is a prefix of every string. *)
Fixpoint starts_with (s phrase : list Z) : bool :=
  match phrase, s with
  | [], _ => true
  | _ :: _, [] => false
  | p :: phrase', c :: s' => (c =? p) && starts_with s' phrase'
  end.

(** [String::contains(String)]: the phrase occurs at some position. *)
Fixpoint contains (s phrase : list Z) : bool :=
  starts_with s phrase ||
  match s with
  | [] => false
  | _ :: s' => contains s' phrase
  end.

(** [code_point_length_in_utf8] *)
Definition code_point_length_in_utf8 (code_point : Z) : Z :=
  if code_point <=? 127 then 1
  else if code_point <=? 2047 then 2
  else if code_point <=? 65535 then 3
  else if code_point <=? 1114111 then 4
  else 3.

(** ** Style *)

(** Modelled from the spec: the declaration of [Style] ([Style.h]) is not
    part of the sources at hand. A colour is default, one of the palette
    entries, or a 24-bit RGB triple; a style carries background and
    foreground, the three graphic-rendition flags, an optional hyperlink,
    and the two marks the editor asks for with [is_anchored()] and
    [is_empty()]. *)
Inductive Color : Type :=
| ColorDefault
| ColorXterm (index : Z)
| ColorRGB (r g b : Z).

Definition Color_is_default (c : Color) : bool :=
  match c with
  | ColorDefault => true
  | _ => false
  end.

Record Style : Type := mkStyle {
  m_underline : bool;
  m_bold : bool;
  m_italic : bool;
  m_background : Color;
  m_foreground : Color;
  m_hyperlink : option (list Z);
  m_is_anchored : bool;
  m_is_empty : bool
}.

Definition bold (s : Style) : bool := m_bold s.
Definition italic (s : Style) : bool := m_italic s.
Definition underline (s : Style) : bool := m_underline s.
Definition background (s : Style) : Color := m_background s.
Definition foreground (s : Style) : Color := m_foreground s.
Definition hyperlink (s : Style) : option (list Z) := m_hyperlink s.
Definition is_anchored (s : Style) : bool := m_is_anchored s.
Definition is_empty (s : Style) : bool := m_is_empty s.
Definition Hyperlink_is_empty (h : option (list Z)) : bool :=
  match h with
  | None => true
  | Some _ => false
  end.

(** Modelled from the spec: the overloads of [Style::set], one per tag
    ([Bold], [Italic], [Underline]); each raises its flag. *)
Definition set_Bold (s : Style) : Style :=
  mkStyle (m_underline s) true (m_italic s) (m_background s)
          (m_foreground s) (m_hyperlink s) (m_is_anchored s) (m_is_empty s).
Definition set_Italic (s : Style) : Style :=
  mkStyle (m_underline s) (m_bold s) true (m_background s)
          (m_foreground s) (m_hyperlink s) (m_is_anchored s) (m_is_empty s).
Definition set_Underline (s : Style) : Style :=
  mkStyle true (m_bold s) (m_italic s) (m_background s)
          (m_foreground s) (m_hyperlink s) (m_is_anchored s) (m_is_empty s).
Definition with_background (c : Color) (s : Style) : Style :=
  mkStyle (m_underline s) (m_bold s) (m_italic s) c
          (m_foreground s) (m_hyperlink s) (m_is_anchored s) (m_is_empty s).
Definition with_foreground (c : Color) (s : Style) : Style :=
  mkStyle (m_underline s) (m_bold s) (m_italic s) (m_background s)
          c (m_hyperlink s) (m_is_anchored s) (m_is_empty s).
Definition with_hyperlink (h : option (list Z)) (s : Style) : Style :=
  mkStyle (m_underline s) (m_bold s) (m_italic s) (m_background s)
          (m_foreground s) h (m_is_anchored s) (m_is_empty s).

(** [Style::unify_with(const Style& other, bool prefer_other)]; the
    receiver is the first argument and the updated receiver is returned. *)
Definition unify_with (self other : Style) (prefer_other : bool) : Style :=
  (* Unify colors. *)
  let s1 :=
    if prefer_other || Color_is_default (m_background self)
    then with_background (background other) self else self in
  let s2 :=
    if prefer_other || Color_is_default (m_foreground s1)
    then with_foreground (foreground other) s1 else s1 in
  (* Unify graphic renditions. *)
  let s3 := if bold other then set_Bold s2 else s2 in
  let s4 := if italic other then set_Italic s3 else s3 in
  let s5 := if underline other then set_Underline s4 else s4 in
  (* Unify links. *)
  if prefer_other || Hyperlink_is_empty (m_hyperlink s5)
  then with_hyperlink (hyperlink other) s5 else s5.

(** ** Configuration and terminal attributes *)

(** Modelled from the spec: [Configuration] is declared in [Editor.h];
    its two options and their values are those of the configuration
    section. *)
Inductive OperationMode : Type := Unset | Full | NoEscapeSequences | NonInteractive.
Inductive RefreshBehaviour : Type := Lazy | Eager.

Record Configuration : Type := mkConfiguration {
  refresh_behaviour : RefreshBehaviour;
  operation_mode : OperationMode
}.

Definition Configuration_set (mode : OperationMode) (c : Configuration) : Configuration :=
  mkConfiguration (refresh_behaviour c) mode.

(** The part of [struct termios] the editor reads: the local-mode flags
    and the four control characters it compares code points with. *)
Record Termios : Type := mkTermios {
  c_lflag : Z;
  c_cc_VEOF : Z;
  c_cc_VERASE : Z;
  c_cc_VWERASE : Z;
  c_cc_VKILL : Z
}.

(** Modelled from the spec: the termios constants come from the C library
    headers; these are the values of the target's [termios.h]. *)
Definition ICANON : Z := 2.
Definition ECHO : Z := 8.

(** The usual control characters: ^D, DEL, ^W, ^U. *)
Definition default_termios : Termios := mkTermios (Z.lor ECHO ICANON) 4 127 23 21.

(** What [initialize] asks of its surroundings. *)
Record Environment : Type := mkEnvironment {
  isatty_STDIN : bool;
  isatty_STDERR : bool;
  getenv_TERM : option (list Z);
  tcgetattr_0 : Termios
}.

(** ** Spans *)

Inductive SpanMode : Type := ByteOriented | CodepointOriented.

Record Span : Type := mkSpan {
  beginning : Z;
  Span_end : Z;
  Span_mode : SpanMode
}.

Inductive ModificationKind : Type := Insertion | Removal | ForcedOverlapRemoval.

#[global] Instance ModificationKind_eq_dec : EqDecision ModificationKind.
Proof. solve_decision. Defined.

(** ** The editor *)

Module InputState.
Inductive t : Type := Free | GotEscape | GotEscapeFollowedByLeftBracket | ExpectTerminator.
End InputState.

Inductive Error : Type := ReadFailure | Empty | Eof.

(** Modelled from the spec: the class declaration ([Editor.h]) is not
    among the sources at hand; the members are those [Editor.cpp] reads or
    writes, with the types its uses imply. The span tables are the four
    [HashMap<u32, HashMap<u32, Style>>]: spans keyed by start then end,
    and keyed by end then start. Members that only serve the display
    reconciliation ([refresh_display], prompt metrics, terminal size) and
    the suggestion manager are left out; no key callback is registered and
    [on_tab_complete] is unset, as in a freshly constructed editor. *)
Record Editor : Type := mkEditor {
  m_buffer : list Z;
  m_cursor : nat;
  m_inline_search_cursor : nat;
  m_pending_chars : list Z;
  m_chars_inserted_in_the_middle : nat;
  m_extra_forward_lines : nat;
  m_refresh_needed : bool;
  m_always_refresh : bool;
  m_history : list (list Z);
  m_history_cursor : nat;
  m_search_offset : Z;
  m_searching_backwards : bool;
  m_is_searching : bool;
  m_state : InputState.t;
  m_finish : bool;
  m_input_error : option Error;
  m_spans_starting : gmap Z (gmap Z Style);
  m_spans_ending : gmap Z (gmap Z Style);
  m_anchored_spans_starting : gmap Z (gmap Z Style);
  m_anchored_spans_ending : gmap Z (gmap Z Style);
  m_configuration : Configuration;
  m_termios : Termios;
  m_default_termios : Termios;
  m_initialized : bool;
  m_origin_row : nat;
  m_origin_column : nat;
  m_stderr : list Z
}.

(** Field updates, one per member the modelled functions assign to. *)
Definition set_m_buffer (v : list Z) (e : Editor) : Editor :=
  mkEditor v (m_cursor e) (m_inline_search_cursor e) (m_pending_chars e)
    (m_chars_inserted_in_the_middle e) (m_extra_forward_lines e)
    (m_refresh_needed e) (m_always_refresh e) (m_history e)
    (m_history_cursor e) (m_search_offset e) (m_searching_backwards e)
    (m_is_searching e) (m_state e) (m_finish e) (m_input_error e)
    (m_spans_starting e) (m_spans_ending e) (m_anchored_spans_starting e)
    (m_anchored_spans_ending e) (m_configuration e) (m_termios e)
    (m_default_termios e) (m_initialized e) (m_origin_row e)
    (m_origin_column e) (m_stderr e).
Definition set_m_cursor (v : nat) (e : Editor) : Editor :=
  mkEditor (m_buffer e) v (m_inline_search_cursor e) (m_pending_chars e)
    (m_chars_inserted_in_the_middle e) (m_extra_forward_lines e)
    (m_refresh_needed e) (m_always_refresh e) (m_history e)
    (m_history_cursor e) (m_search_offset e) (m_searching_backwards e)
    (m_is_searching e) (m_state e) (m_finish e) (m_input_error e)
    (m_spans_starting e) (m_spans_ending e) (m_anchored_spans_starting e)
    (m_anchored_spans_ending e) (m_configuration e) (m_termios e)
    (m_default_termios e) (m_initialized e) (m_origin_row e)
    (m_origin_column e) (m_stderr e).
Definition set_m_inline_search_cursor (v : nat) (e : Editor) : Editor :=
  mkEditor (m_buffer e) (m_cursor e) v (m_pending_chars e)
    (m_chars_inserted_in_the_middle e) (m_extra_forward_lines e)
    (m_refresh_needed e) (m_always_refresh e) (m_history e)
    (m_history_cursor e) (m_search_offset e) (m_searching_backwards e)
    (m_is_searching e) (m_state e) (m_finish e) (m_input_error e)
    (m_spans_starting e) (m_spans_ending e) (m_anchored_spans_starting e)
    (m_anchored_spans_ending e) (m_configuration e) (m_termios e)
    (m_default_termios e) (m_initialized e) (m_origin_row e)
    (m_origin_column e) (m_stderr e).
Definition set_m_pending_chars (v : list Z) (e : Editor) : Editor :=
  mkEditor (m_buffer e) (m_cursor e) (m_inline_search_cursor e) v
    (m_chars_inserted_in_the_middle e) (m_extra_forward_lines e)
    (m_refresh_needed e) (m_always_refresh e) (m_history e)
    (m_history_cursor e) (m_search_offset e) (m_searching_backwards e)
    (m_is_searching e) (m_state e) (m_finish e) (m_input_error e)
    (m_spans_starting e) (m_spans_ending e) (m_anchored_spans_starting e)
    (m_anchored_spans_ending e) (m_configuration e) (m_termios e)
    (m_default_termios e) (m_initialized e) (m_origin_row e)
    (m_origin_column e) (m_stderr e).
Definition set_m_chars_inserted_in_the_middle (v : nat) (e : Editor) : Editor :=
  mkEditor (m_buffer e) (m_cursor e) (m_inline_search_cursor e)
    (m_pending_chars e) v (m_extra_forward_lines e) (m_refresh_needed e)
    (m_always_refresh e) (m_history e) (m_history_cursor e) (m_search_offset
    e) (m_searching_backwards e) (m_is_searching e) (m_state e) (m_finish e)
    (m_input_error e) (m_spans_starting e) (m_spans_ending e)
    (m_anchored_spans_starting e) (m_anchored_spans_ending e)
    (m_configuration e) (m_termios e) (m_default_termios e) (m_initialized
    e) (m_origin_row e) (m_origin_column e) (m_stderr e).
Definition set_m_extra_forward_lines (v : nat) (e : Editor) : Editor :=
  mkEditor (m_buffer e) (m_cursor e) (m_inline_search_cursor e)
    (m_pending_chars e) (m_chars_inserted_in_the_middle e) v
    (m_refresh_needed e) (m_always_refresh e) (m_history e)
    (m_history_cursor e) (m_search_offset e) (m_searching_backwards e)
    (m_is_searching e) (m_state e) (m_finish e) (m_input_error e)
    (m_spans_starting e) (m_spans_ending e) (m_anchored_spans_starting e)
    (m_anchored_spans_ending e) (m_configuration e) (m_termios e)
    (m_default_termios e) (m_initialized e) (m_origin_row e)
    (m_origin_column e) (m_stderr e).
Definition set_m_refresh_needed (v : bool) (e : Editor) : Editor :=
  mkEditor (m_buffer e) (m_cursor e) (m_inline_search_cursor e)
    (m_pending_chars e) (m_chars_inserted_in_the_middle e)
    (m_extra_forward_lines e) v (m_always_refresh e) (m_history e)
    (m_history_cursor e) (m_search_offset e) (m_searching_backwards e)
    (m_is_searching e) (m_state e) (m_finish e) (m_input_error e)
    (m_spans_starting e) (m_spans_ending e) (m_anchored_spans_starting e)
    (m_anchored_spans_ending e) (m_configuration e) (m_termios e)
    (m_default_termios e) (m_initialized e) (m_origin_row e)
    (m_origin_column e) (m_stderr e).
Definition set_m_history_cursor (v : nat) (e : Editor) : Editor :=
  mkEditor (m_buffer e) (m_cursor e) (m_inline_search_cursor e)
    (m_pending_chars e) (m_chars_inserted_in_the_middle e)
    (m_extra_forward_lines e) (m_refresh_needed e) (m_always_refresh e)
    (m_history e) v (m_search_offset e) (m_searching_backwards e)
    (m_is_searching e) (m_state e) (m_finish e) (m_input_error e)
    (m_spans_starting e) (m_spans_ending e) (m_anchored_spans_starting e)
    (m_anchored_spans_ending e) (m_configuration e) (m_termios e)
    (m_default_termios e) (m_initialized e) (m_origin_row e)
    (m_origin_column e) (m_stderr e).
Definition set_m_search_offset (v : Z) (e : Editor) : Editor :=
  mkEditor (m_buffer e) (m_cursor e) (m_inline_search_cursor e)
    (m_pending_chars e) (m_chars_inserted_in_the_middle e)
    (m_extra_forward_lines e) (m_refresh_needed e) (m_always_refresh e)
    (m_history e) (m_history_cursor e) v (m_searching_backwards e)
    (m_is_searching e) (m_state e) (m_finish e) (m_input_error e)
    (m_spans_starting e) (m_spans_ending e) (m_anchored_spans_starting e)
    (m_anchored_spans_ending e) (m_configuration e) (m_termios e)
    (m_default_termios e) (m_initialized e) (m_origin_row e)
    (m_origin_column e) (m_stderr e).
Definition set_m_searching_backwards (v : bool) (e : Editor) : Editor :=
  mkEditor (m_buffer e) (m_cursor e) (m_inline_search_cursor e)
    (m_pending_chars e) (m_chars_inserted_in_the_middle e)
    (m_extra_forward_lines e) (m_refresh_needed e) (m_always_refresh e)
    (m_history e) (m_history_cursor e) (m_search_offset e) v (m_is_searching
    e) (m_state e) (m_finish e) (m_input_error e) (m_spans_starting e)
    (m_spans_ending e) (m_anchored_spans_starting e)
    (m_anchored_spans_ending e) (m_configuration e) (m_termios e)
    (m_default_termios e) (m_initialized e) (m_origin_row e)
    (m_origin_column e) (m_stderr e).
Definition set_m_state (v : InputState.t) (e : Editor) : Editor :=
  mkEditor (m_buffer e) (m_cursor e) (m_inline_search_cursor e)
    (m_pending_chars e) (m_chars_inserted_in_the_middle e)
    (m_extra_forward_lines e) (m_refresh_needed e) (m_always_refresh e)
    (m_history e) (m_history_cursor e) (m_search_offset e)
    (m_searching_backwards e) (m_is_searching e) v (m_finish e)
    (m_input_error e) (m_spans_starting e) (m_spans_ending e)
    (m_anchored_spans_starting e) (m_anchored_spans_ending e)
    (m_configuration e) (m_termios e) (m_default_termios e) (m_initialized
    e) (m_origin_row e) (m_origin_column e) (m_stderr e).
Definition set_m_finish (v : bool) (e : Editor) : Editor :=
  mkEditor (m_buffer e) (m_cursor e) (m_inline_search_cursor e)
    (m_pending_chars e) (m_chars_inserted_in_the_middle e)
    (m_extra_forward_lines e) (m_refresh_needed e) (m_always_refresh e)
    (m_history e) (m_history_cursor e) (m_search_offset e)
    (m_searching_backwards e) (m_is_searching e) (m_state e) v
    (m_input_error e) (m_spans_starting e) (m_spans_ending e)
    (m_anchored_spans_starting e) (m_anchored_spans_ending e)
    (m_configuration e) (m_termios e) (m_default_termios e) (m_initialized
    e) (m_origin_row e) (m_origin_column e) (m_stderr e).
Definition set_m_input_error (v : option Error) (e : Editor) : Editor :=
  mkEditor (m_buffer e) (m_cursor e) (m_inline_search_cursor e)
    (m_pending_chars e) (m_chars_inserted_in_the_middle e)
    (m_extra_forward_lines e) (m_refresh_needed e) (m_always_refresh e)
    (m_history e) (m_history_cursor e) (m_search_offset e)
    (m_searching_backwards e) (m_is_searching e) (m_state e) (m_finish e) v
    (m_spans_starting e) (m_spans_ending e) (m_anchored_spans_starting e)
    (m_anchored_spans_ending e) (m_configuration e) (m_termios e)
    (m_default_termios e) (m_initialized e) (m_origin_row e)
    (m_origin_column e) (m_stderr e).
Definition set_m_spans_starting (v : gmap Z (gmap Z Style)) (e : Editor) : Editor :=
  mkEditor (m_buffer e) (m_cursor e) (m_inline_search_cursor e)
    (m_pending_chars e) (m_chars_inserted_in_the_middle e)
    (m_extra_forward_lines e) (m_refresh_needed e) (m_always_refresh e)
    (m_history e) (m_history_cursor e) (m_search_offset e)
    (m_searching_backwards e) (m_is_searching e) (m_state e) (m_finish e)
    (m_input_error e) v (m_spans_ending e) (m_anchored_spans_starting e)
    (m_anchored_spans_ending e) (m_configuration e) (m_termios e)
    (m_default_termios e) (m_initialized e) (m_origin_row e)
    (m_origin_column e) (m_stderr e).
Definition set_m_spans_ending (v : gmap Z (gmap Z Style)) (e : Editor) : Editor :=
  mkEditor (m_buffer e) (m_cursor e) (m_inline_search_cursor e)
    (m_pending_chars e) (m_chars_inserted_in_the_middle e)
    (m_extra_forward_lines e) (m_refresh_needed e) (m_always_refresh e)
    (m_history e) (m_history_cursor e) (m_search_offset e)
    (m_searching_backwards e) (m_is_searching e) (m_state e) (m_finish e)
    (m_input_error e) (m_spans_starting e) v (m_anchored_spans_starting e)
    (m_anchored_spans_ending e) (m_configuration e) (m_termios e)
    (m_default_termios e) (m_initialized e) (m_origin_row e)
    (m_origin_column e) (m_stderr e).
Definition set_m_anchored_spans_starting (v : gmap Z (gmap Z Style)) (e : Editor) : Editor :=
  mkEditor (m_buffer e) (m_cursor e) (m_inline_search_cursor e)
    (m_pending_chars e) (m_chars_inserted_in_the_middle e)
    (m_extra_forward_lines e) (m_refresh_needed e) (m_always_refresh e)
    (m_history e) (m_history_cursor e) (m_search_offset e)
    (m_searching_backwards e) (m_is_searching e) (m_state e) (m_finish e)
    (m_input_error e) (m_spans_starting e) (m_spans_ending e) v
    (m_anchored_spans_ending e) (m_configuration e) (m_termios e)
    (m_default_termios e) (m_initialized e) (m_origin_row e)
    (m_origin_column e) (m_stderr e).
Definition set_m_anchored_spans_ending (v : gmap Z (gmap Z Style)) (e : Editor) : Editor :=
  mkEditor (m_buffer e) (m_cursor e) (m_inline_search_cursor e)
    (m_pending_chars e) (m_chars_inserted_in_the_middle e)
    (m_extra_forward_lines e) (m_refresh_needed e) (m_always_refresh e)
    (m_history e) (m_history_cursor e) (m_search_offset e)
    (m_searching_backwards e) (m_is_searching e) (m_state e) (m_finish e)
    (m_input_error e) (m_spans_starting e) (m_spans_ending e)
    (m_anchored_spans_starting e) v (m_configuration e) (m_termios e)
    (m_default_termios e) (m_initialized e) (m_origin_row e)
    (m_origin_column e) (m_stderr e).
Definition set_m_configuration (v : Configuration) (e : Editor) : Editor :=
  mkEditor (m_buffer e) (m_cursor e) (m_inline_search_cursor e)
    (m_pending_chars e) (m_chars_inserted_in_the_middle e)
    (m_extra_forward_lines e) (m_refresh_needed e) (m_always_refresh e)
    (m_history e) (m_history_cursor e) (m_search_offset e)
    (m_searching_backwards e) (m_is_searching e) (m_state e) (m_finish e)
    (m_input_error e) (m_spans_starting e) (m_spans_ending e)
    (m_anchored_spans_starting e) (m_anchored_spans_ending e) v (m_termios
    e) (m_default_termios e) (m_initialized e) (m_origin_row e)
    (m_origin_column e) (m_stderr e).
Definition set_m_termios (v : Termios) (e : Editor) : Editor :=
  mkEditor (m_buffer e) (m_cursor e) (m_inline_search_cursor e)
    (m_pending_chars e) (m_chars_inserted_in_the_middle e)
    (m_extra_forward_lines e) (m_refresh_needed e) (m_always_refresh e)
    (m_history e) (m_history_cursor e) (m_search_offset e)
    (m_searching_backwards e) (m_is_searching e) (m_state e) (m_finish e)
    (m_input_error e) (m_spans_starting e) (m_spans_ending e)
    (m_anchored_spans_starting e) (m_anchored_spans_ending e)
    (m_configuration e) v (m_default_termios e) (m_initialized e)
    (m_origin_row e) (m_origin_column e) (m_stderr e).
Definition set_m_default_termios (v : Termios) (e : Editor) : Editor :=
  mkEditor (m_buffer e) (m_cursor e) (m_inline_search_cursor e)
    (m_pending_chars e) (m_chars_inserted_in_the_middle e)
    (m_extra_forward_lines e) (m_refresh_needed e) (m_always_refresh e)
    (m_history e) (m_history_cursor e) (m_search_offset e)
    (m_searching_backwards e) (m_is_searching e) (m_state e) (m_finish e)
    (m_input_error e) (m_spans_starting e) (m_spans_ending e)
    (m_anchored_spans_starting e) (m_anchored_spans_ending e)
    (m_configuration e) (m_termios e) v (m_initialized e) (m_origin_row e)
    (m_origin_column e) (m_stderr e).
Definition set_m_initialized (v : bool) (e : Editor) : Editor :=
  mkEditor (m_buffer e) (m_cursor e) (m_inline_search_cursor e)
    (m_pending_chars e) (m_chars_inserted_in_the_middle e)
    (m_extra_forward_lines e) (m_refresh_needed e) (m_always_refresh e)
    (m_history e) (m_history_cursor e) (m_search_offset e)
    (m_searching_backwards e) (m_is_searching e) (m_state e) (m_finish e)
    (m_input_error e) (m_spans_starting e) (m_spans_ending e)
    (m_anchored_spans_starting e) (m_anchored_spans_ending e)
    (m_configuration e) (m_termios e) (m_default_termios e) v (m_origin_row
    e) (m_origin_column e) (m_stderr e).
Definition set_m_origin_row (v : nat) (e : Editor) : Editor :=
  mkEditor (m_buffer e) (m_cursor e) (m_inline_search_cursor e)
    (m_pending_chars e) (m_chars_inserted_in_the_middle e)
    (m_extra_forward_lines e) (m_refresh_needed e) (m_always_refresh e)
    (m_history e) (m_history_cursor e) (m_search_offset e)
    (m_searching_backwards e) (m_is_searching e) (m_state e) (m_finish e)
    (m_input_error e) (m_spans_starting e) (m_spans_ending e)
    (m_anchored_spans_starting e) (m_anchored_spans_ending e)
    (m_configuration e) (m_termios e) (m_default_termios e) (m_initialized
    e) v (m_origin_column e) (m_stderr e).
Definition set_m_origin_column (v : nat) (e : Editor) : Editor :=
  mkEditor (m_buffer e) (m_cursor e) (m_inline_search_cursor e)
    (m_pending_chars e) (m_chars_inserted_in_the_middle e)
    (m_extra_forward_lines e) (m_refresh_needed e) (m_always_refresh e)
    (m_history e) (m_history_cursor e) (m_search_offset e)
    (m_searching_backwards e) (m_is_searching e) (m_state e) (m_finish e)
    (m_input_error e) (m_spans_starting e) (m_spans_ending e)
    (m_anchored_spans_starting e) (m_anchored_spans_ending e)
    (m_configuration e) (m_termios e) (m_default_termios e) (m_initialized
    e) (m_origin_row e) v (m_stderr e).
Definition set_m_stderr (v : list Z) (e : Editor) : Editor :=
  mkEditor (m_buffer e) (m_cursor e) (m_inline_search_cursor e)
    (m_pending_chars e) (m_chars_inserted_in_the_middle e)
    (m_extra_forward_lines e) (m_refresh_needed e) (m_always_refresh e)
    (m_history e) (m_history_cursor e) (m_search_offset e)
    (m_searching_backwards e) (m_is_searching e) (m_state e) (m_finish e)
    (m_input_error e) (m_spans_starting e) (m_spans_ending e)
    (m_anchored_spans_starting e) (m_anchored_spans_ending e)
    (m_configuration e) (m_termios e) (m_default_termios e) (m_initialized
    e) (m_origin_row e) (m_origin_column e) v.

Definition fputs (bytes : list Z) (e : Editor) : Editor :=
  set_m_stderr (m_stderr e ++ bytes) e.

(** Modelled from the spec: [Editor::finish()] is defined in [Editor.h];
    it sets the latch that the read loop polls. *)
Definition finish (e : Editor) : Editor := set_m_finish true e.

(** Modelled from the spec: [Editor::set_origin(row, col)], defined in
    [Editor.h], records the origin of the prompt. *)
Definition set_origin (row col : nat) (e : Editor) : Editor :=
  set_m_origin_column col (set_m_origin_row row e).

(** ** Byte ranges to code-point ranges *)

(** The loop of [byte_offset_range_to_code_point_offset_range] for
    [reverse = false], over the code points from the scan offset on;
    [range] is the pair [(range.start, range.end)]. *)
Fixpoint byte_offset_scan (code_points : list Z)
    (start_byte_offset end_byte_offset byte_offset : Z) (range : Z * Z) : Z * Z :=
  match code_points with
  | [] => range
  | cp :: rest =>
      if end_byte_offset <? byte_offset then range
      else
        let range1 :=
          if byte_offset <? start_byte_offset then (range.1 + 1, range.2) else range in
        let range2 :=
          if byte_offset <? end_byte_offset then (range1.1, range1.2 + 1) else range1 in
        byte_offset_scan rest start_byte_offset end_byte_offset
          (byte_offset + code_point_length_in_utf8 cp) range2
  end.

Definition byte_offset_range_to_code_point_offset_range (buffer : list Z)
    (start_byte_offset end_byte_offset : Z) (scan_code_point_offset : nat) : Z * Z :=
  byte_offset_scan (drop scan_code_point_offset buffer)
    start_byte_offset end_byte_offset 0 (0, 0).

(** ** Recording and relocating spans *)

(** [Editor::stylize]. The style decides which pair of tables receives
    the span; a span not yet present asks for a refresh. *)
Definition stylize (span : Span) (style : Style) (e : Editor) : Editor :=
  if is_empty style then e
  else
    let '(start, end_) :=
      match Span_mode span with
      | ByteOriented =>
          byte_offset_range_to_code_point_offset_range (m_buffer e)
            (beginning span) (Span_end span) 0
      | CodepointOriented => (beginning span, Span_end span)
      end in
    let spans_starting :=
      if is_anchored style then m_anchored_spans_starting e else m_spans_starting e in
    let spans_ending :=
      if is_anchored style then m_anchored_spans_ending e else m_spans_ending e in
    let starting_map := default ∅ (spans_starting !! start) in
    let refresh1 :=
      match starting_map !! end_ with
      | Some _ => m_refresh_needed e
      | None => true
      end in
    let spans_starting' := <[start := <[end_ := style]> starting_map]> spans_starting in
    let ending_map := default ∅ (spans_ending !! end_) in
    let refresh2 :=
      match ending_map !! start with
      | Some _ => refresh1
      | None => true
      end in
    let spans_ending' := <[end_ := <[start := style]> ending_map]> spans_ending in
    let e1 := set_m_refresh_needed refresh2 e in
    if is_anchored style
    then set_m_anchored_spans_ending spans_ending'
           (set_m_anchored_spans_starting spans_starting' e1)
    else set_m_spans_ending spans_ending' (set_m_spans_starting spans_starting' e1).

Record Anchor : Type := mkAnchor {
  old_span : Span;
  new_span : Span;
  Anchor_style : Style
}.

(** [auto index_shift = modification == Insertion ? 1 : -1;] *)
Definition index_shift (modification : ModificationKind) : Z :=
  match modification with
  | Insertion => 1
  | _ => -1
  end.

(** The body of the two nested loops of [readjust_anchored_styles] for
    the entry [start_key -> end_key -> style]: [None] when the entry is
    skipped, otherwise the anchor appended to [anchors_to_relocate]. The
    keys are [u32], so the shifted keys wrap. *)
Definition relocate_anchor (hint_index : Z) (modification : ModificationKind)
    (start_key end_key : Z) (style : Style) : option Anchor :=
  let forced_removal :=
    match modification with ForcedOverlapRemoval => true | _ => false end in
  let is_removal :=
    match modification with Removal => true | _ => false end in
  let old := mkSpan start_key end_key CodepointOriented in
  let shift := index_shift modification in
  if forced_removal && (start_key <=? hint_index) && (hint_index <? end_key)
  then None (* Remove any overlapping regions. *)
  else if hint_index <=? start_key then
    if (start_key =? hint_index) && (end_key =? wrap32 (hint_index + 1)) && is_removal
    then None (* Remove the anchor, as all its text was wiped. *)
    else (* Shift everything. *)
      Some (mkAnchor old
              (mkSpan (wrap32 (start_key + shift)) (wrap32 (end_key + shift))
                      CodepointOriented) style)
  else if hint_index <? end_key then (* Shift just the end. *)
    Some (mkAnchor old
            (mkSpan start_key (wrap32 (end_key + shift)) CodepointOriented) style)
  else Some (mkAnchor old old style).

(** The entries of a table in the order the nested iteration visits
    them. The source iterates two hash maps, whose order is unspecified;
    the order only matters for the style kept when two relocated spans
    coincide. *)
Definition anchored_entries (table : gmap Z (gmap Z Style)) : list (Z * Z * Style) :=
  '(start_key, ends) ← map_to_list table;
  '(end_key, style) ← map_to_list ends;
  [(start_key, end_key, style)].

(** [Editor::readjust_anchored_styles] *)
Definition readjust_anchored_styles (hint_index : Z) (modification : ModificationKind)
    (e : Editor) : Editor :=
  let anchors_to_relocate :=
    omap (fun '(start_key, end_key, style) =>
            relocate_anchor hint_index modification start_key end_key style)
         (anchored_entries (m_anchored_spans_starting e)) in
  let e1 := set_m_anchored_spans_ending ∅ e in
  let e2 := set_m_anchored_spans_starting ∅ e1 in
  (* Pass over the relocations and update the stale entries. *)
  foldl (fun ed relocation =>
           stylize (new_span relocation) (Anchor_style relocation) ed)
        e2 anchors_to_relocate.

(** ** UTF-8 *)

(** Modelled from the spec: the UTF-8 conversions are those of AK
    ([StringBuilder::append(Utf32View)], iteration of a [Utf8View]),
    external to the editor. The editing functions below take them as
    parameters; the two functions here are the standard encoding (one to
    four bytes for the standard ranges) and are used where a scenario
    needs concrete strings. *)
Definition utf8_bytes_of_code_point (cp : Z) : list Z :=
  if cp <=? 127 then [cp]
  else if cp <=? 2047 then [192 + cp / 64; 128 + cp mod 64]
  else if cp <=? 65535 then
    [224 + cp / 4096; 128 + (cp / 64) mod 64; 128 + cp mod 64]
  else
    [240 + cp / 262144; 128 + (cp / 4096) mod 64; 128 + (cp / 64) mod 64;
     128 + cp mod 64].

Definition standard_utf8_encode (code_points : list Z) : list Z :=
  code_points ≫= utf8_bytes_of_code_point.

Fixpoint standard_utf8_decode (bytes : list Z) : list Z :=
  match bytes with
  | [] => []
  | b0 :: rest =>
      if b0 <? 128 then b0 :: standard_utf8_decode rest
      else if b0 <? 224 then
        match rest with
        | b1 :: rest1 =>
            ((b0 - 192) * 64 + (b1 - 128)) :: standard_utf8_decode rest1
        | _ => []
        end
      else if b0 <? 240 then
        match rest with
        | b1 :: b2 :: rest2 =>
            ((b0 - 224) * 4096 + (b1 - 128) * 64 + (b2 - 128))
              :: standard_utf8_decode rest2
        | _ => []
        end
      else
        match rest with
        | b1 :: b2 :: b3 :: rest3 =>
            ((b0 - 240) * 262144 + (b1 - 128) * 4096 + (b2 - 128) * 64 + (b3 - 128))
              :: standard_utf8_decode rest3
        | _ => []
        end
  end.

(** ** Mode detection *)

(** [Editor::initialize]. The calls to [tcsetattr] and the refresh of the
    terminal size act on the terminal only and leave no trace here. *)
Definition initialize (env : Environment) (e : Editor) : Editor :=
  if m_initialized e then e
  else
    let termios := tcgetattr_0 env in
    let e1 := set_m_default_termios termios e in (* grab a copy to restore *)
    let e2 :=
      match operation_mode (m_configuration e1) with
      | Unset =>
          let istty := isatty_STDIN env && isatty_STDERR env in
          if negb istty
          then set_m_configuration (Configuration_set NonInteractive (m_configuration e1)) e1
          else
            let term := default [] (getenv_TERM env) in
            if starts_with term (bytes_of "xterm")
            then set_m_configuration (Configuration_set Full (m_configuration e1)) e1
            else set_m_configuration
                   (Configuration_set NoEscapeSequences (m_configuration e1)) e1
      | _ => e1
      end in
    (* Because we use our own line discipline which includes echoing,
       we disable ICANON and ECHO. *)
    let termios' :=
      match operation_mode (m_configuration e2) with
      | Full =>
          mkTermios (Z.land (c_lflag termios) (Z.lnot (Z.lor ECHO ICANON)))
            (c_cc_VEOF termios) (c_cc_VERASE termios) (c_cc_VWERASE termios)
            (c_cc_VKILL termios)
      | _ => termios
      end in
    set_m_initialized true (set_m_termios termios' e2).

(** ** Rendered-length metrics *)

Module VTState.
Inductive t : Type := Free | Escape | Bracket | BracketArgsSemi | Title.
End VTState.

Record StringMetrics : Type := mkStringMetrics {
  line_lengths : list nat;
  total_length : nat;
  max_line_length : nat
}.

Definition isdigit (c : Z) : bool := (48 <=? c) && (c <=? 57).

(** [metrics.line_lengths.last() = 0] on a non-empty vector. *)
Definition set_last_zero (l : list nat) : list nat :=
  match l with
  | [] => []
  | _ :: _ => <[pred (length l) := 0%nat]> l
  end.

(** [Editor::actual_rendered_string_length_step]; the two reference
    parameters [metrics] and [length] are returned with the next state. *)
Definition actual_rendered_string_length_step (metrics : StringMetrics) (length : nat)
    (c next_c : Z) (state : VTState.t) : StringMetrics * nat * VTState.t :=
  match state with
  | VTState.Free =>
      if c =? 27 then (metrics, length, VTState.Escape) (* escape *)
      else if c =? 13 then (* carriage return *)
        (mkStringMetrics (set_last_zero (line_lengths metrics))
           (total_length metrics) (max_line_length metrics), 0%nat, state)
      else if c =? 10 then (* return *)
        (mkStringMetrics (line_lengths metrics ++ [length])
           (total_length metrics) (max_line_length metrics), 0%nat, state)
      else
        (mkStringMetrics (line_lengths metrics) (S (total_length metrics))
           (max_line_length metrics), S length, state)
  | VTState.Escape =>
      if c =? 93 (* ']' *) then
        (metrics, length, if next_c =? 48 (* '0' *) then VTState.Title else state)
      else if c =? 91 (* '[' *) then (metrics, length, VTState.Bracket)
      else (metrics, length, state)
  | VTState.Bracket =>
      if isdigit c then (metrics, length, VTState.BracketArgsSemi)
      else (metrics, length, state)
  | VTState.BracketArgsSemi =>
      if c =? 59 (* ';' *) then (metrics, length, VTState.Bracket)
      else if negb (isdigit c) then (metrics, length, VTState.Free)
      else (metrics, length, state)
  | VTState.Title =>
      if c =? 7 then (metrics, length, VTState.Free)
      else (metrics, length, state)
  end.

(** The loop of [actual_rendered_string_metrics]: [next_c] is the code
    point after [c], or 0 at the end of the view. *)
Fixpoint rendered_length_loop (view : list Z) (metrics : StringMetrics) (length : nat)
    (state : VTState.t) : StringMetrics * nat :=
  match view with
  | [] => (metrics, length)
  | c :: rest =>
      let next_c := match rest with n :: _ => n | [] => 0 end in
      let '(metrics', length', state') :=
        actual_rendered_string_length_step metrics length c next_c state in
      rendered_length_loop rest metrics' length' state'
  end.

(** [Editor::actual_rendered_string_metrics(const Utf32View&)]. The
    overload on a [StringView] runs the same loop over the code points
    decoded from the string. *)
Definition actual_rendered_string_metrics (view : list Z) : StringMetrics :=
  let '(metrics, length) :=
    rendered_length_loop view (mkStringMetrics [] 0 0) 0%nat VTState.Free in
  let lines := line_lengths metrics ++ [length] in
  mkStringMetrics lines (total_length metrics)
    (foldl (fun acc line => Nat.max line acc) (max_line_length metrics) lines).

(** The count the metrics are specified to return, written from the
    words of the specification and not from the parser: every code point
    counts except carriage return, newline, the escape character itself,
    and what lies inside an escape sequence. A CSI sequence is [ESC [],
    any run of digits and [;], and one final code point (as in [ESC[K],
    [ESC[1;1H], [ESC[32m]); a set-title sequence is [ESC ] 0] up to and
    including the next BEL. *)
Inductive Region : Type := InText | AtIntroducer (csi : bool) | InParameters | InTitle.

Fixpoint printable_code_points_from (region : Region) (s : list Z) : nat :=
  match s with
  | [] => 0%nat
  | c :: rest =>
      match region with
      | InText =>
          if c =? 27 then
            if starts_with rest [91] (* ESC [ *)
            then printable_code_points_from (AtIntroducer true) rest
            else if starts_with rest [93; 48] (* ESC ] 0 *)
            then printable_code_points_from (AtIntroducer false) rest
            else printable_code_points_from InText rest
          else if (c =? 13) || (c =? 10) then printable_code_points_from InText rest
          else S (printable_code_points_from InText rest)
      | AtIntroducer csi =>
          printable_code_points_from (if csi then InParameters else InTitle) rest
      | InParameters =>
          if isdigit c || (c =? 59)
          then printable_code_points_from InParameters rest
          else printable_code_points_from InText rest
      | InTitle =>
          if c =? 7 then printable_code_points_from InText rest
          else printable_code_points_from InTitle rest
      end
  end.

Definition printable_code_points (s : list Z) : nat :=
  printable_code_points_from InText s.

(** The strings whose escape sequences the parser recognizes, read from
    a parser state on: every escape character is followed by [[] or by
    []0], and the final code point of a CSI sequence comes right after a
    digit. *)
Fixpoint escapes_recognized_from (state : VTState.t) (s : list Z) : bool :=
  match s with
  | [] => true
  | c :: rest =>
      match state with
      | VTState.Free =>
          escapes_recognized_from (if c =? 27 then VTState.Escape else VTState.Free) rest
      | VTState.Escape =>
          if c =? 91 then escapes_recognized_from VTState.Bracket rest
          else if (c =? 93) && starts_with rest [48]
          then escapes_recognized_from VTState.Title rest
          else false
      | VTState.Bracket =>
          if isdigit c then escapes_recognized_from VTState.BracketArgsSemi rest
          else if c =? 59 then escapes_recognized_from VTState.Bracket rest
          else false
      | VTState.BracketArgsSemi =>
          escapes_recognized_from
            (if c =? 59 then VTState.Bracket
             else if isdigit c then VTState.BracketArgsSemi else VTState.Free) rest
      | VTState.Title =>
          escapes_recognized_from (if c =? 7 then VTState.Free else VTState.Title) rest
      end
  end.

(** The region of the specification a parser state stands for, given the
    text still to be read. *)
Definition region_of (state : VTState.t) (s : list Z) : Region :=
  match state with
  | VTState.Free => InText
  | VTState.Escape => AtIntroducer (starts_with s [91])
  | VTState.Bracket | VTState.BracketArgsSemi => InParameters
  | VTState.Title => InTitle
  end.

(** ** Editing primitives, history search and the input state machine *)

Inductive Amount : Type := Character | Word.

(** The locals of [handle_read_event] that live across code points. *)
Record Locals : Type := mkLocals {
  reverse_tab : bool;
  ctrl_held : bool
}.

(** [swap(m_buffer[i], m_buffer[j])]; the vector checks its indices. *)
Definition swap_at (i j : nat) (buffer : list Z) : list Z :=
  match buffer !! i, buffer !! j with
  | Some x, Some y => <[i := y]> (<[j := x]> buffer)
  | _, _ => buffer
  end.

(** What [get_line] hands back once the latch is set. *)
Inductive Outcome : Type :=
| Returned (result : list Z + Error)
| StillEditing (e : Editor)
| OutsideModel.

Section Editor_core.

(** [utf8_encode] is [StringBuilder::append(Utf32View)] followed by
    [build()]; [utf8_decode] lists the code points a [Utf8View] iterates
    over. *)
Variable utf8_encode : list Z -> list Z.
Variable utf8_decode : list Z -> list Z.

(** [Editor::insert(const u32 cp)]. [Vector::insert] checks that the
    index is at most the size, which holds while the cursor is within the
    buffer. *)
Definition insert (cp : Z) (e : Editor) : Editor :=
  let e1 := set_m_pending_chars (m_pending_chars e ++ utf8_encode [cp]) e in
  let e2 := readjust_anchored_styles (Z.of_nat (m_cursor e1)) Insertion e1 in
  if (m_cursor e2 =? length (m_buffer e2))%nat then
    let e3 := set_m_buffer (m_buffer e2 ++ [cp]) e2 in
    let e4 := set_m_cursor (length (m_buffer e3)) e3 in
    set_m_inline_search_cursor (m_cursor e4) e4
  else
    let e3 :=
      set_m_buffer (take (m_cursor e2) (m_buffer e2) ++ cp :: drop (m_cursor e2) (m_buffer e2))
        e2 in
    let e4 :=
      set_m_chars_inserted_in_the_middle (S (m_chars_inserted_in_the_middle e3)) e3 in
    let e5 := set_m_cursor (S (m_cursor e4)) e4 in
    set_m_inline_search_cursor (m_cursor e5) e5.

(** [Editor::insert(const String&)]: one [insert] per code point. *)
Definition insert_string (s : list Z) (e : Editor) : Editor :=
  foldl (fun ed ch => insert ch ed) e (utf8_decode s).

(** [Editor::remove_at_index]; callers pass an index inside the buffer. *)
Definition remove_at_index (index : nat) (e : Editor) : Editor :=
  (* See if we have any anchored styles, and reposition them if needed. *)
  let e1 := readjust_anchored_styles (Z.of_nat index) Removal e in
  let cp := m_buffer e1 !! index in
  let e2 := set_m_buffer (delete index (m_buffer e1)) e1 in
  if decide (cp = Some 10)
  then set_m_extra_forward_lines (S (m_extra_forward_lines e2)) e2
  else e2.

(** [Editor::line()]: the whole buffer as a string. *)
Definition line (e : Editor) : list Z := utf8_encode (m_buffer e).

(** The scan of [Editor::search] over [m_history[i - 1]] for [i] from the
    history cursor down to 1; [last_matching_offset] starts at -1. The
    history cursor never exceeds the size of the history; an index past
    the end, on which the vector would fail its check, is passed over. *)
Fixpoint search_scan (history : list (list Z)) (phrase : list Z) (from_beginning : bool)
    (i : nat) (search_offset : Z) (last_matching_offset : Z) : Z :=
  match i with
  | O => last_matching_offset
  | S i' =>
      let contains_phrase :=
        match history !! i' with
        | Some entry =>
            if from_beginning then starts_with entry phrase else contains entry phrase
        | None => false
        end in
      if contains_phrase then
        if search_offset =? 0 then Z.of_nat i'
        else search_scan history phrase from_beginning i' (search_offset - 1) (Z.of_nat i')
      else search_scan history phrase from_beginning i' search_offset last_matching_offset
  end.

(** [Editor::search]; the result pairs the returned flag with the editor. *)
Definition search (phrase : list Z) (allow_empty from_beginning : bool) (e : Editor)
    : bool * Editor :=
  let '(last_matching_offset, e1) :=
    (* Do not search for empty strings. *)
    if allow_empty || (0 <? length phrase)%nat then
      let last :=
        search_scan (m_history e) phrase from_beginning (m_history_cursor e)
          (m_search_offset e) (-1) in
      (last, if last =? -1 then fputs [BEL] e else e)
    else (-1, e) in
  let e2 := set_m_buffer [] e1 in
  let e3 := set_m_cursor 0%nat e2 in
  let e4 :=
    if 0 <=? last_matching_offset
    then insert_string (default [] (m_history e3 !! Z.to_nat last_matching_offset)) e3
    else e3 in
  (* Always needed, as we have cleared the buffer above. *)
  (0 <=? last_matching_offset, set_m_refresh_needed true e4).

(** The lambdas of [handle_read_event]. Motion and deletion by [Word]
    rest on the C library's character classes and are outside the model:
    the result is [None] there. *)
Definition do_cursor_left (amount : Amount) (e : Editor) : option Editor :=
  match amount with
  | Word => None
  | Character =>
      let e1 := if (0 <? m_cursor e)%nat then set_m_cursor (m_cursor e - 1)%nat e else e in
      Some (set_m_inline_search_cursor (m_cursor e1) e1)
  end.

Definition do_cursor_right (amount : Amount) (e : Editor) : option Editor :=
  match amount with
  | Word => None
  | Character =>
      let e1 :=
        if (m_cursor e <? length (m_buffer e))%nat
        then set_m_cursor (S (m_cursor e)) e else e in
      let e2 := set_m_inline_search_cursor (m_cursor e1) e1 in
      Some (set_m_search_offset 0 e2)
  end.

(** The search phrase is the text before the inline search cursor. *)
Definition do_search_backwards (e : Editor) : Editor :=
  let e1 := set_m_searching_backwards true e in
  let inline_search_cursor := m_inline_search_cursor e1 in
  let search_phrase := utf8_encode (take inline_search_cursor (m_buffer e1)) in
  let '(found, e2) := search search_phrase true true e1 in
  let e3 :=
    if found then set_m_search_offset (wrap32 (m_search_offset e2 + 1)) e2
    else insert_string search_phrase e2 in
  set_m_inline_search_cursor inline_search_cursor e3.

Definition do_search_forwards (e : Editor) : Editor :=
  let inline_search_cursor := m_inline_search_cursor e in
  let search_phrase := utf8_encode (take inline_search_cursor (m_buffer e)) in
  let search_changed_directions := m_searching_backwards e in
  let e1 := set_m_searching_backwards false e in
  let e2 :=
    if 0 <? m_search_offset e1 then
      let e' :=
        set_m_search_offset
          (wrap32 (m_search_offset e1 - (1 + Z.b2z search_changed_directions))) e1 in
      let '(found, e'') := search search_phrase true true e' in
      if found then e'' else insert_string search_phrase e''
    else
      let e' := set_m_search_offset 0 e1 in
      let e'' := set_m_buffer [] (set_m_cursor 0%nat e') in
      set_m_refresh_needed true (insert_string search_phrase e'') in
  set_m_inline_search_cursor inline_search_cursor e2.

Definition do_backspace (e : Editor) : Editor :=
  if m_is_searching e then e
  else if (m_cursor e =? 0)%nat then fputs [BEL] e
  else
    let e1 := remove_at_index (m_cursor e - 1)%nat e in
    let e2 := set_m_cursor (m_cursor e1 - 1)%nat e1 in
    let e3 := set_m_inline_search_cursor (m_cursor e2) e2 in
    (* We will have to redraw :( *)
    set_m_refresh_needed true e3.

Definition do_delete (e : Editor) : Editor :=
  if (m_cursor e =? length (m_buffer e))%nat then fputs [BEL] e
  else set_m_refresh_needed true (remove_at_index (m_cursor e) e).

(** [while (m_cursor < m_buffer.size()) do_delete();] of ^K; every turn
    shortens the buffer, so its length bounds the number of turns. *)
Fixpoint delete_to_end (turns : nat) (e : Editor) : Editor :=
  match turns with
  | O => e
  | S turns' =>
      if (m_cursor e <? length (m_buffer e))%nat
      then delete_to_end turns' (do_delete e) else e
  end.

(** The [switch (m_state)] at the head of the loop body. The flag of the
    result tells whether control leaves the switch by [break] and goes on
    to the key handling ([true]) or moves to the next code point by
    [continue] ([false]). *)
Definition dispatch_state (code_point : Z) (l : Locals) (e : Editor)
    : option (bool * Locals * Editor) :=
  let free := set_m_state InputState.Free in
  let released := mkLocals (reverse_tab l) false in
  match m_state e with
  | InputState.GotEscape =>
      if code_point =? 91 (* '[' *) then
        Some (false, l, set_m_state InputState.GotEscapeFollowedByLeftBracket e)
      else if (code_point =? 46) (* '.' *) || (code_point =? 98) (* 'b' *)
              || (code_point =? 102) (* 'f' *) || (code_point =? 8) (* '\b' *)
              || (code_point =? 100) (* 'd' *) || (code_point =? 99) (* 'c' *)
              || (code_point =? 108) (* 'l' *) || (code_point =? 117) (* 'u' *)
              || (code_point =? 116) (* 't' *)
      then None (* the word commands of the alt key *)
      else Some (false, l, free e)
  | InputState.GotEscapeFollowedByLeftBracket =>
      if code_point =? 79 (* 'O': mod_ctrl *) then
        Some (false, mkLocals (reverse_tab l) true, e)
      else if code_point =? 65 (* 'A': arrow up *) then
        Some (false, released, free (do_search_backwards e))
      else if code_point =? 66 (* 'B': arrow down *) then
        Some (false, released, free (do_search_forwards e))
      else if code_point =? 68 (* 'D': arrow left *) then
        e' ← do_cursor_left (if ctrl_held l then Word else Character) e;
        Some (false, released, free e')
      else if code_point =? 67 (* 'C': arrow right *) then
        e' ← do_cursor_right (if ctrl_held l then Word else Character) e;
        Some (false, released, free e')
      else if code_point =? 72 (* 'H': home *) then
        let e1 := set_m_cursor 0%nat e in
        let e2 := set_m_inline_search_cursor (m_cursor e1) e1 in
        Some (false, released, free (set_m_search_offset 0 e2))
      else if code_point =? 70 (* 'F': end *) then
        let e1 := set_m_cursor (length (m_buffer e)) e in
        let e2 := set_m_inline_search_cursor (m_cursor e1) (free e1) in
        Some (false, released, set_m_search_offset 0 e2)
      else if code_point =? 90 (* 'Z': shift+tab *) then
        Some (true, mkLocals true false, free e)
      else if code_point =? 51 (* '3': delete *) then
        let e1 := set_m_search_offset 0 (do_delete e) in
        Some (false, released, set_m_state InputState.ExpectTerminator e1)
      else Some (false, released, free e)
  | InputState.ExpectTerminator => Some (false, l, free e)
  | InputState.Free =>
      if code_point =? 27 then Some (false, l, set_m_state InputState.GotEscape e)
      else Some (true, l, e)
  end.

(** The rest of the loop body, reached when the switch is left by
    [break]. No key callback is registered and [on_tab_complete] is unset,
    so a tab is passed over and [m_times_tab_pressed] stays 0. Erasing a
    word (VWERASE) and the nested search editor (^R) are outside the
    model. *)
Definition handle_key (code_point : Z) (l : Locals) (e : Editor)
    : option (Locals * Editor) :=
  if code_point =? ctrl 78 (* ^N *) then Some (l, do_search_forwards e)
  else if code_point =? ctrl 80 (* ^P *) then Some (l, do_search_backwards e)
  else
    let e := set_m_search_offset 0 e in (* reset search offset on any key *)
    if (code_point =? 9) (* '\t' *) || reverse_tab l then Some (l, e)
    else if code_point =? c_cc_VWERASE (m_termios e) then None
    else if code_point =? c_cc_VKILL (m_termios e) then
      let e1 := Nat.iter (m_cursor e) (remove_at_index 0) e in
      Some (l, set_m_refresh_needed true (set_m_cursor 0%nat e1))
    else if (code_point =? c_cc_VEOF (m_termios e)) && bool_decide (m_buffer e = []) then
      let e1 := fputs (bytes_of "<EOF>" ++ [10]) e in
      if negb (m_always_refresh e1)
      then Some (l, finish (set_m_input_error (Some Eof) e1))
      else Some (l, e1)
    else if code_point =? ctrl 65 (* ^A *) then Some (l, set_m_cursor 0%nat e)
    else if code_point =? ctrl 66 (* ^B *) then
      e' ← do_cursor_left Character e; Some (l, e')
    else if code_point =? ctrl 68 (* ^D *) then Some (l, do_delete e)
    else if code_point =? ctrl 69 (* ^E *) then
      Some (l, set_m_cursor (length (m_buffer e)) e)
    else if code_point =? ctrl 70 (* ^F *) then
      e' ← do_cursor_right Character e; Some (l, e')
    else if (code_point =? 8) (* '\b' *) || (code_point =? c_cc_VERASE (m_termios e)) then
      Some (l, do_backspace e)
    else if code_point =? ctrl 75 (* ^K *) then
      Some (l, delete_to_end (length (m_buffer e)) e)
    else if code_point =? ctrl 76 (* ^L *) then
      let e1 :=
        fputs ([27] ++ bytes_of "[3J" ++ [27] ++ bytes_of "[H" ++ [27] ++ bytes_of "[2J")
          e in (* Clear screen. *)
      let e2 := fputs ([27] ++ bytes_of "[1;1H") e1 in (* VT::move_absolute(1, 1) *)
      Some (l, set_m_refresh_needed true (set_origin 1 1 e2))
    else if code_point =? ctrl 82 (* ^R *) then None
    else if code_point =? ctrl 84 (* ^T *) then
      if (0 <? m_cursor e)%nat && (2 <=? length (m_buffer e))%nat then
        let e1 :=
          if (m_cursor e <? length (m_buffer e))%nat
          then set_m_cursor (S (m_cursor e)) e else e in
        let e2 :=
          set_m_buffer (swap_at (m_cursor e1 - 1) (m_cursor e1 - 2) (m_buffer e1)) e1 in
        Some (l, set_m_refresh_needed true e2)
      else Some (l, e)
    else if code_point =? 10 (* '\n' *) then Some (l, finish e)
    else Some (l, insert code_point e).

(** One turn of [for (auto code_point : input_view)], past the test of
    the latch. *)
Definition handle_code_point (code_point : Z) (l : Locals) (e : Editor)
    : option (Locals * Editor) :=
  if code_point =? 0 then Some (l, e)
  else
    '(proceed, l', e') ← dispatch_state code_point l e;
    if proceed : bool then handle_key code_point l' e' else Some (l', e').

Fixpoint handle_code_points (input_view : list Z) (l : Locals) (e : Editor)
    : option (Locals * Editor) :=
  match input_view with
  | [] => Some (l, e)
  | code_point :: rest =>
      if m_finish e then Some (l, e)
      else
        '(l', e') ← handle_code_point code_point l e;
        handle_code_points rest l' e'
  end.

(** [Editor::handle_read_event] from the point where the bytes read have
    been decoded into [input_view]; reading and validating the bytes is
    the business of the C library and of AK. *)
Definition handle_read_event (input_view : list Z) (e : Editor) : option Editor :=
  snd <$> handle_code_points input_view (mkLocals false false) e.

(** The event loop of [get_line]: one read event after the other until
    the latch is set; then the line, or the error if one was recorded, is
    returned. The refresh between two events does not touch the members
    kept here, except that its display bookkeeping is not followed. *)
Fixpoint get_line_loop (read_events : list (list Z)) (e : Editor) : Outcome :=
  match read_events with
  | [] => StillEditing e
  | input_view :: rest =>
      match handle_read_event input_view e with
      | None => OutsideModel
      | Some e' =>
          if m_finish e' then
            Returned
              match m_input_error e' with
              | Some error => inr error
              | None => inl (line e')
              end
          else get_line_loop rest e'
      end
  end.

End Editor_core.

(** ** Vocabulary of the statements *)

(** The style recorded for the span [[s, e)] in a table keyed by start. *)
Definition span_style (table : gmap Z (gmap Z Style)) (s e : Z) : option Style :=
  table !! s ≫= fun ends => ends !! e.

Definition has_span (table : gmap Z (gmap Z Style)) (s e : Z) : Prop :=
  is_Some (span_style table s e).

(** What [stylize] guarantees of the anchored tables: every style kept
    there is anchored and not empty. *)
Definition anchored_table_ok (table : gmap Z (gmap Z Style)) : Prop :=
  map_Forall (fun _ ends =>
    map_Forall (fun _ style => is_anchored style = true ∧ is_empty style = false) ends)
    table.

#[global] Instance anchored_table_ok_dec (table : gmap Z (gmap Z Style)) :
  Decision (anchored_table_ok table).
Proof. unfold anchored_table_ok. apply _. Defined.

(** Setting the five members [stylize] may assign to. *)
Definition with_span_tables (refresh : bool) (starting ending anchored_starting
    anchored_ending : gmap Z (gmap Z Style)) (e : Editor) : Editor :=
  set_m_refresh_needed refresh
    (set_m_anchored_spans_ending anchored_ending
       (set_m_anchored_spans_starting anchored_starting
          (set_m_spans_ending ending (set_m_spans_starting starting e)))).

(** The relocation of one span as the specification words it, for an
    insertion or a removal at offset [h]: on removal the span [[h, h+1)]
    is deleted; otherwise, if [s >= h] both endpoints shift, else if
    [e > h] only the end shifts, else the span stays. Offsets are [u32],
    and so is the shifted offset. *)
Definition relocated_span (h : Z) (modification : ModificationKind) (s e : Z)
    : option (Z * Z) :=
  let shift := match modification with Insertion => 1 | _ => -1 end in
  if bool_decide (modification = Removal ∧ s = h ∧ e = h + 1) then None
  else if bool_decide (s >= h) then Some (wrap32 (s + shift), wrap32 (e + shift))
  else if bool_decide (e > h) then Some (s, wrap32 (e + shift))
  else Some (s, e).

(** The cursor lies within the buffer. *)
Definition cursor_in_bounds (e : Editor) : Prop :=
  (m_cursor e <= length (m_buffer e))%nat.

(** The members that neither the span bookkeeping nor the editing of the
    text assigns to. *)
Definition same_session (e e' : Editor) : Prop :=
  m_state e' = m_state e ∧ m_termios e' = m_termios e ∧ m_stderr e' = m_stderr e ∧
  m_finish e' = m_finish e ∧ m_input_error e' = m_input_error e ∧
  m_history e' = m_history e ∧ m_history_cursor e' = m_history_cursor e ∧
  m_search_offset e' = m_search_offset e ∧
  m_searching_backwards e' = m_searching_backwards e ∧
  m_is_searching e' = m_is_searching e ∧ m_always_refresh e' = m_always_refresh e.

(** The control characters of the target, which has no [stty] to change
    them: ^D, DEL, ^W and ^U. *)
Definition default_control_characters (t : Termios) : Prop :=
  c_cc_VEOF t = 4 ∧ c_cc_VERASE t = 127 ∧ c_cc_VWERASE t = 23 ∧ c_cc_VKILL t = 21.

(** The code point is not taken by a test that precedes the one for
    VEOF in the key handling: it is not NUL, escape, ^N, ^P or tab, and
    differs from the word-erase and kill characters. *)
Definition reaches_VEOF_test (t : Termios) (cp : Z) : Prop :=
  cp ≠ 0 ∧ cp ≠ 27 ∧ cp ≠ ctrl 78 ∧ cp ≠ ctrl 80 ∧ cp ≠ 9 ∧
  cp ≠ c_cc_VWERASE t ∧ cp ≠ c_cc_VKILL t.

(** The keys of the cursor invariant and the code points a terminal
    sends for them. *)
Inductive Key : Type :=
| Printable (cp : Z)
| ArrowLeft
| ArrowRight
| Backspace.

Definition key_code_points (t : Termios) (k : Key) : list Z :=
  match k with
  | Printable cp => [cp]
  | ArrowLeft => [27; 91; 68]
  | ArrowRight => [27; 91; 67]
  | Backspace => [c_cc_VERASE t]
  end.

Definition printable_key (k : Key) : Prop :=
  match k with
  | Printable cp => 32 <= cp ∧ cp ≠ 127
  | _ => True
  end.

(** The history entries a search looks at, newest first, that match the
    phrase. *)
Definition matching_entries (history : list (list Z)) (history_cursor : nat)
    (phrase : list Z) (from_beginning : bool) : list (list Z) :=
  List.filter
    (fun entry => if from_beginning then starts_with entry phrase else contains entry phrase)
    (reverse (take history_cursor history)).

(** An editor at the start of an editing session of [get_line], in full
    mode, once [reset], [strip_styles(true)] and the assignment of the
    history cursor have run: empty buffer, cursor at 0, no spans, the
    history cursor past the newest entry. *)
Definition session_start (history : list (list Z)) (always_refresh : bool) : Editor :=
  mkEditor [] 0 0 [] 0 0 true always_refresh history (length history) 0 false false
    InputState.Free false None ∅ ∅ ∅ ∅
    (mkConfiguration (if always_refresh then Eager else Lazy) Full)
    (mkTermios 0 4 127 23 21) default_termios true 0 0 [].

(** An anchored underline, and an editor holding ["abcdef"] with that
    style on the span [[s, e)]. *)
Definition anchored_underline : Style :=
  mkStyle true false false ColorDefault ColorDefault None true false.

Definition underlined (s e : Z) (cursor : nat) : Editor :=
  stylize (mkSpan s e CodepointOriented) anchored_underline
    (set_m_cursor cursor (set_m_buffer (bytes_of "abcdef") (session_start [] false))).

Section Editor_statements.

Variable utf8_encode : list Z -> list Z.
Variable utf8_decode : list Z -> list Z.

(** The editors after each key of a sequence, every key arriving as one
    read event; [None] if a key leads outside the model. *)
Fixpoint type_keys (keys : list Key) (e : Editor) : option (list Editor) :=
  match keys with
  | [] => Some []
  | k :: keys' =>
      e' ← handle_read_event utf8_encode utf8_decode (key_code_points (m_termios e) k) e;
      states ← type_keys keys' e';
      Some (e' :: states)
  end.

(** The reading of the history-search sentence that is put to the test:
    the entry selected is the match at position [m_search_offset] counted
    from the newest, the bell rings exactly when no entry matches, and on
    a hit the buffer holds the entry and a refresh is asked for. *)
Definition search_as_specified (phrase : list Z) (allow_empty from_beginning : bool)
    (e : Editor) : Prop :=
  let matches :=
    matching_entries (m_history e) (m_history_cursor e) phrase from_beginning in
  let '(found, e') := search utf8_encode utf8_decode phrase allow_empty from_beginning e in
  (matches = [] → m_stderr e' = m_stderr e ++ [BEL]) ∧
  match matches !! Z.to_nat (m_search_offset e) with
  | Some entry =>
      found = true ∧ m_buffer e' = utf8_decode entry ∧ m_refresh_needed e' = true
  | None => found = false
  end.

End Editor_statements.

(** ** Further operations *)

Definition set_m_history (v : list (list Z)) (e : Editor) : Editor :=
  mkEditor (m_buffer e) (m_cursor e) (m_inline_search_cursor e)
    (m_pending_chars e) (m_chars_inserted_in_the_middle e)
    (m_extra_forward_lines e) (m_refresh_needed e) (m_always_refresh e) v
    (m_history_cursor e) (m_search_offset e) (m_searching_backwards e)
    (m_is_searching e) (m_state e) (m_finish e) (m_input_error e)
    (m_spans_starting e) (m_spans_ending e) (m_anchored_spans_starting e)
    (m_anchored_spans_ending e) (m_configuration e) (m_termios e)
    (m_default_termios e) (m_initialized e) (m_origin_row e)
    (m_origin_column e) (m_stderr e).

(** [Editor::add_to_history]. The capacity is the member
    [m_history_capacity], declared in [Editor.h] and taken here as a
    parameter. [Vector::take_first] checks that the vector is not empty;
    the result is [None] where that check fails. *)
Definition add_to_history (m_history_capacity : nat) (line : list Z) (e : Editor)
    : option Editor :=
  match line with
  | [] => Some e
  | _ :: _ =>
      if (m_history_capacity <? length (m_history e) + 1)%nat then
        match m_history e with
        | [] => None
        | _ :: rest => Some (set_m_history (rest ++ [line]) e)
        end
      else Some (set_m_history (m_history e ++ [line]) e)
  end.

(** Adding several lines, one call after the other. *)
Definition add_all_to_history (m_history_capacity : nat) (lines : list (list Z))
    (e : Editor) : option Editor :=
  foldl (fun oe line => oe ≫= add_to_history m_history_capacity line) (Some e) lines.

(** [Editor::strip_styles] *)
Definition strip_styles (strip_anchored : bool) (e : Editor) : Editor :=
  let e1 := set_m_spans_ending ∅ (set_m_spans_starting ∅ e) in
  let e2 :=
    if strip_anchored
    then set_m_anchored_spans_ending ∅ (set_m_anchored_spans_starting ∅ e1)
    else e1 in
  set_m_refresh_needed true e2.

(** [StringMetrics::lines_with_addition]. The vectors check their
    accesses and the division traps on a zero width: the result is [None]
    when either list of line lengths is empty or the width is 0. *)
Definition lines_with_addition (self offset : StringMetrics) (column_width : nat)
    : option nat :=
  match last (line_lengths self), line_lengths offset with
  | Some last_length, first_length :: rest =>
      if (column_width =? 0)%nat then None
      else
        let lines :=
          foldl (fun lines length => lines + (length + column_width) / column_width)%nat
            0%nat (take (length (line_lengths self) - 1) (line_lengths self)) in
        let lines := (lines + (last_length + first_length + column_width) / column_width)%nat in
        Some (foldl (fun lines length => lines + (length + column_width) / column_width)%nat
                lines rest)
  | _, _ => None
  end.

(** Modelled from the spec: [Style::reset_style()] is defined in
    [Style.h]; it is the style written at the end of a rendering, with no
    graphic rendition, default colours and an empty link. *)
Definition reset_style : Style :=
  mkStyle false false false ColorDefault ColorDefault (Some []) false false.

(** The inner loop of the lambda of [find_applicable_style]: the styles
    of the spans that start at one offset, merged until an end at or
    before [offset] is met, where the lambda returns. *)
Fixpoint unify_ends (offset : Z) (style : Style) (ends : list (Z * Style)) : Style :=
  match ends with
  | [] => style
  | (end_key, style_value) :: rest =>
      if end_key <=? offset then style
      else unify_ends offset (unify_with style style_value true) rest
  end.

Definition unify_entry (offset : Z) (style : Style) (entry : Z * gmap Z Style) : Style :=
  if offset <=? entry.1 then style
  else unify_ends offset style (map_to_list entry.2).

(** [Editor::find_applicable_style]; the tables are walked in the order
    of their iteration, which the source leaves to the hash maps. *)
Definition find_applicable_style (offset : Z) (e : Editor) : Style :=
  foldl (unify_entry offset)
    (foldl (unify_entry offset) reset_style (map_to_list (m_spans_starting e)))
    (map_to_list (m_anchored_spans_starting e)).

(** ** Further vocabulary *)

(** A table keyed by start and a table keyed by end hold the same spans
    with the same styles. *)
Definition tables_mirror (starting ending : gmap Z (gmap Z Style)) : Prop :=
  ∀ s e, span_style starting s e = span_style ending e s.

(** Every span of the table is not empty and lies within a buffer of [n]
    code points. *)
Definition spans_within (table : gmap Z (gmap Z Style)) (n : Z) : Prop :=
  ∀ s e, has_span table s e → 0 <= s ∧ s < e ∧ e <= n.

(** What [ForcedOverlapRemoval] at [h] does to the span [[s, e)], read
    off the loop body: a span that contains [h] is dropped; a span that
    starts at or after [h] has both ends shifted by -1; any other span
    stays. *)
Definition forced_relocated_span (h s e : Z) : option (Z * Z) :=
  if bool_decide (s <= h ∧ h < e) then None
  else if bool_decide (h <= s) then Some (wrap32 (s - 1), wrap32 (e - 1))
  else Some (s, e).


(** The UTF-8 length of a buffer in bytes, as the byte-range conversion
    sums it. *)
Definition utf8_length (code_points : list Z) : Z :=
  foldr (fun cp n => code_point_length_in_utf8 cp + n) 0 code_points.

(** Both pairs of span tables of an editor are mirrored. *)
Definition editor_tables_mirror (e : Editor) : Prop :=
  tables_mirror (m_spans_starting e) (m_spans_ending e) ∧
  tables_mirror (m_anchored_spans_starting e) (m_anchored_spans_ending e).

(** The offsets of a table are [u32] values that a shift by one keeps in
    range. *)
Definition offsets_in_range (table : gmap Z (gmap Z Style)) : Prop :=
  ∀ s e, has_span table s e → 0 <= s < 2 ^ 32 - 1 ∧ 0 <= e < 2 ^ 32 - 1.

(** A text given by its lines: the first line, then a newline before
    each further line. *)
Definition text_of_lines (first : list Z) (others : list (list Z)) : list Z :=
  first ++ concat (cons 10 <$> others).

(** A line of a text without escapes: no escape character, no carriage
    return, no newline. *)
Definition plain_line (l : list Z) : Prop := (27 ∉ l) ∧ (13 ∉ l) ∧ (10 ∉ l).

(** The terminal rows that lines of the given lengths take at a width,
    as [lines_with_addition] counts them. *)
Definition rows (column_width : nat) (lengths : list nat) : nat :=
  sum_list ((fun length => (length + column_width) / column_width)%nat <$> lengths).

(** A style of the editor's tables covers [offset] strictly inside its
    span and has the flag. *)
Definition covering_style (flag : Style → bool) (offset : Z) (e : Editor) : Prop :=
  ∃ s en style,
    (span_style (m_spans_starting e) s en = Some style ∨
     span_style (m_anchored_spans_starting e) s en = Some style) ∧
    s < offset < en ∧ flag style = true.

(** ** Proof steps *)

(** Replace each relocation pass in the goal by the span tables it
    leaves; [frame] is the lemma stating that the pass assigns to the
    span tables and the refresh flag only. *)
Ltac forget_relocation_by frame :=
  repeat match goal with
  | |- context [readjust_anchored_styles ?h ?k ?e] =>
      let H := fresh in
      destruct (frame h k e) as (?&?&?&?&?&H);
      rewrite H; clear H
  end.

(** A field update other than of the buffer or the cursor is invisible
    to the bound on the cursor. *)
Ltac strip_updates :=
  repeat match goal with
  | |- cursor_in_bounds (?set ?v ?e) => progress change (cursor_in_bounds e)
  end.

(** * Properties *)

(** ** Styles *)

(** C10. For all styles [a] and [b] and both values of [prefer_other],
    after [a.unify_with(b, prefer_other)] each of the bold, italic and
    underline flags of [a] is the logical or of the flag of the original
    [a] and that of [b]; in particular a flag that was set stays set. *)
Theorem unify_with_joins_flags (a b : Style) (prefer_other : bool) :
  bold (unify_with a b prefer_other) = bold a || bold b ∧
  italic (unify_with a b prefer_other) = italic a || italic b ∧
  underline (unify_with a b prefer_other) = underline a || underline b ∧
  implb (bold a) (bold (unify_with a b prefer_other)) = true ∧
  implb (italic a) (italic (unify_with a b prefer_other)) = true ∧
  implb (underline a) (underline (unify_with a b prefer_other)) = true.
Proof.
  unfold unify_with, bold, italic, underline.
  destruct (prefer_other || Color_is_default (m_background a)); cbv zeta;
    (destruct (prefer_other || Color_is_default (m_foreground _)));
    destruct (m_bold b), (m_italic b), (m_underline b);
    (destruct (prefer_other || Hyperlink_is_empty _)); cbn;
    destruct (m_bold a), (m_italic a), (m_underline a); done.
Qed.

(** ** Mode detection *)

Lemma starts_with_prefix_of (s phrase : list Z) :
  starts_with s phrase = true ↔ phrase `prefix_of` s.
Proof.
  revert s. induction phrase as [|p phrase IH]; intros s.
  - split; [intros _; apply prefix_nil | by destruct s].
  - destruct s as [|c s]; cbn.
    + split; [discriminate | intros H; apply prefix_nil_inv in H; discriminate].
    + rewrite andb_true_iff, Z.eqb_eq, IH. split.
      * intros [-> H]. by apply prefix_cons.
      * intros H. split.
        -- symmetry. eapply prefix_cons_inv_1, H.
        -- eapply prefix_cons_inv_2, H.
Qed.

(** C8. When [initialize] runs on an editor whose [operation_mode] is
    unset, the mode becomes [NonInteractive] unless standard input and
    standard error are both terminals; on terminals it becomes [Full] when
    the value of [TERM] starts with "xterm" and [NoEscapeSequences]
    otherwise (also when [TERM] is not set). *)
Theorem initialize_detects_mode (env : Environment) (e : Editor) :
  m_initialized e = false →
  operation_mode (m_configuration e) = Unset →
  operation_mode (m_configuration (initialize env e)) =
    if negb (isatty_STDIN env && isatty_STDERR env) then NonInteractive
    else if bool_decide (bytes_of "xterm" `prefix_of` default [] (getenv_TERM env))
         then Full else NoEscapeSequences.
Proof.
  intros Hinit Hunset. unfold initialize. rewrite Hinit. cbn. rewrite Hunset.
  destruct (negb (isatty_STDIN env && isatty_STDERR env)); [reflexivity|].
  destruct (starts_with (default [] (getenv_TERM env)) (bytes_of "xterm")) eqn:Hsw.
  - rewrite bool_decide_eq_true_2 by (by apply starts_with_prefix_of). reflexivity.
  - rewrite bool_decide_eq_false_2; [reflexivity|].
    intros H%starts_with_prefix_of. congruence.
Qed.

Lemma initialize_detects_mode_witness :
  let env := mkEnvironment true true (Some (bytes_of "xterm-256color")) default_termios in
  let e := set_m_configuration (mkConfiguration Lazy Unset)
             (set_m_initialized false (session_start [] false)) in
  m_initialized e = false ∧
  operation_mode (m_configuration e) = Unset ∧
  operation_mode (m_configuration (initialize env e)) = Full.
Proof.
  split; [reflexivity|]. split; [reflexivity|].
  exact (initialize_detects_mode
           (mkEnvironment true true (Some (bytes_of "xterm-256color")) default_termios)
           (set_m_configuration (mkConfiguration Lazy Unset)
              (set_m_initialized false (session_start [] false)))
           eq_refl eq_refl).
Defined.

(** ** Rendered length *)

(** On text without an escape character the parser counts what the
    specification counts: every code point but carriage return and
    newline. *)
Lemma rendered_length_loop_plain (view : list Z) (metrics : StringMetrics) (length : nat) :
  27 ∉ view →
  total_length (rendered_length_loop view metrics length VTState.Free).1 =
    (total_length metrics + printable_code_points view)%nat.
Proof.
  revert metrics length. induction view as [|c view IH]; intros metrics length Hesc.
  - cbn. lia.
  - apply not_elem_of_cons in Hesc as [Hc Hesc].
    unfold printable_code_points in *. cbn.
    destruct (Z.eqb_spec c 27); [congruence|].
    destruct (Z.eqb_spec c 13); [rewrite IH by done; cbn; lia|].
    destruct (Z.eqb_spec c 10); [rewrite IH by done; cbn; lia|].
    rewrite IH by done. cbn. lia.
Qed.

(** On a string whose escape sequences the parser recognizes, the total
    length is the number of printable code points. *)
Lemma rendered_length_loop_recognized (view : list Z) (state : VTState.t)
    (metrics : StringMetrics) (length : nat) :
  escapes_recognized_from state view = true →
  total_length (rendered_length_loop view metrics length state).1 =
    (total_length metrics + printable_code_points_from (region_of state view) view)%nat.
Proof.
  revert state metrics length.
  induction view as [|c view IH]; intros state metrics length; [cbn; lia|].
  destruct state; cbn [rendered_length_loop actual_rendered_string_length_step
                       escapes_recognized_from printable_code_points_from region_of].
  - destruct (Z.eqb_spec c 27) as [->|Hesc]; intros Hrec.
    + rewrite IH by done. cbn [region_of].
      destruct view as [|c1 view1]; [done|]. cbn [escapes_recognized_from] in Hrec.
      cbn [starts_with]. revert Hrec.
      destruct (Z.eqb_spec c1 91) as [->|H91]; [by destruct view1|].
      destruct (Z.eqb_spec c1 93) as [->|H93]; [|done]. cbn [andb].
      destruct (starts_with view1 [48]) eqn:H48; [|done].
      intros _. cbn [printable_code_points_from]. by destruct view1.
    + destruct (Z.eqb_spec c 13); [rewrite IH by done; cbn; lia|].
      destruct (Z.eqb_spec c 10); [rewrite IH by done; cbn; lia|].
      rewrite IH by done. cbn. lia.
  - destruct (Z.eqb_spec c 91) as [->|H91]; intros Hrec.
    + cbn [Z.eqb Pos.eqb]. rewrite IH by done. by destruct view.
    + revert Hrec. destruct (Z.eqb_spec c 93) as [->|H93]; [|done]. cbn [andb].
      destruct (starts_with view [48]) eqn:H48; [|done]. intros Hrec.
      assert (Hnext : (match view with n :: _ => n | [] => 0 end =? 48) = true).
      { destruct view as [|n view1]; [done|]. cbn in H48.
        by apply andb_true_iff in H48 as [H _]. }
      rewrite Hnext, IH by done. by destruct view.
  - destruct (isdigit c); cbn [orb]; intros Hrec.
    + by rewrite IH.
    + revert Hrec. destruct (Z.eqb_spec c 59); [|done]. intros Hrec. by rewrite IH.
  - destruct (Z.eqb_spec c 59) as [->|H59]; intros Hrec.
    + by rewrite IH.
    + revert Hrec. destruct (isdigit c); cbn [negb orb]; intros Hrec; by rewrite IH.
  - destruct (Z.eqb_spec c 7); intros Hrec; by rewrite IH.
Qed.

Lemma total_length_recognized (view : list Z) :
  escapes_recognized_from VTState.Free view = true →
  total_length (actual_rendered_string_metrics view) = printable_code_points view.
Proof.
  intros Hrec. unfold actual_rendered_string_metrics, printable_code_points.
  pose proof (rendered_length_loop_recognized view VTState.Free
                (mkStringMetrics [] 0 0) 0 Hrec) as H.
  destruct (rendered_length_loop _ _ _ _) as [metrics length].
  cbn [fst total_length region_of] in *. lia.
Qed.

Lemma total_length_plain (view : list Z) :
  27 ∉ view →
  total_length (actual_rendered_string_metrics view) = printable_code_points view.
Proof.
  intros Hesc. unfold actual_rendered_string_metrics.
  pose proof (rendered_length_loop_plain view (mkStringMetrics [] 0 0) 0 Hesc) as H.
  destruct (rendered_length_loop _ _ _ _) as [metrics length]. cbn in *. lia.
Qed.

(** C4. The rendered length diverges from the number of printable code
    points on a CSI sequence without a numeric parameter: after [ESC [ m]
    the parser stays in its bracket state and swallows the text that
    follows. For the prompt [ESC [ m $ ' '] it reports length 0, where two
    code points are printable. The editor's own search prompt, whose
    sequences carry parameters, is among the strings the parser
    recognizes and is measured as specified. *)
Theorem total_length_after_bare_CSI :
  total_length (actual_rendered_string_metrics ([27; 91; 109] ++ bytes_of "$ ")) = 0%nat ∧
  printable_code_points ([27; 91; 109] ++ bytes_of "$ ") = 2%nat ∧
  escapes_recognized_from VTState.Free ([27; 91; 109] ++ bytes_of "$ ") = false ∧
  total_length (actual_rendered_string_metrics
    ([27] ++ bytes_of "[32msearch:" ++ [27] ++ bytes_of "[0m ")) = 8%nat ∧
  printable_code_points ([27] ++ bytes_of "[32msearch:" ++ [27] ++ bytes_of "[0m ") = 8%nat.
Proof. repeat split; vm_compute; reflexivity. Qed.

(** ** History recall, scenario *)

(** C7. With history ["ls /"; "echo hi"] and an empty buffer, arrow-up
    twice and newline return "ls /". Arrow-up, arrow-down and newline
    return "ls /" as well, and not the empty line: arrow-down after a
    change of direction takes 2 from a search offset of 1, the offset
    wraps around, and the search settles on the oldest entry. *)
Theorem history_recall_scenario :
  let history := [bytes_of "ls /"; bytes_of "echo hi"] in
  let up := [27; 91; 65] in
  let down := [27; 91; 66] in
  get_line_loop standard_utf8_encode standard_utf8_decode [up; up; [10]]
    (session_start history false) = Returned (inl (bytes_of "ls /")) ∧
  get_line_loop standard_utf8_encode standard_utf8_decode [up; down; [10]]
    (session_start history false) = Returned (inl (bytes_of "ls /")) ∧
  m_search_offset
    (do_search_forwards standard_utf8_encode standard_utf8_decode
       (do_search_backwards standard_utf8_encode standard_utf8_decode
          (session_start history false))) = 2 ^ 32 - 1.
Proof. repeat split; vm_compute; reflexivity. Qed.

(** ** Span tables *)

Lemma with_span_tables_eta (e : Editor) :
  e = with_span_tables (m_refresh_needed e) (m_spans_starting e) (m_spans_ending e)
        (m_anchored_spans_starting e) (m_anchored_spans_ending e) e.
Proof. by destruct e. Qed.

(** [stylize] assigns to the span tables and the refresh flag only. *)
Lemma stylize_frame (span : Span) (style : Style) (e : Editor) :
  ∃ r a b c d, stylize span style e = with_span_tables r a b c d e.
Proof.
  unfold stylize. destruct (is_empty style).
  { do 5 eexists. apply with_span_tables_eta. }
  destruct (match Span_mode span with
            | ByteOriented => _
            | CodepointOriented => _
            end) as [start end_].
  destruct (is_anchored style); do 5 eexists; by destruct e.
Qed.

Lemma foldl_stylize_frame (relocations : list Anchor) (e : Editor) :
  ∃ r a b c d,
    foldl (fun ed relocation =>
             stylize (new_span relocation) (Anchor_style relocation) ed)
          e relocations = with_span_tables r a b c d e.
Proof.
  revert e. induction relocations as [|x relocations IH]; intros e; cbn.
  { do 5 eexists. apply with_span_tables_eta. }
  destruct (stylize_frame (new_span x) (Anchor_style x) e) as (r&a&b&c&d&->).
  destruct (IH (with_span_tables r a b c d e)) as (r'&a'&b'&c'&d'&->).
  by exists r', a', b', c', d'.
Qed.

Lemma readjust_anchored_styles_frame (h : Z) (k : ModificationKind) (e : Editor) :
  ∃ r a b c d, readjust_anchored_styles h k e = with_span_tables r a b c d e.
Proof.
  unfold readjust_anchored_styles.
  match goal with
  | |- context [foldl ?f ?e0 ?l] => destruct (foldl_stylize_frame l e0) as (r&a&b&c&d&->)
  end.
  by exists r, a, b, c, d.
Qed.

(** Lookup after [table.set(k1, inner)] where [inner] is the map found
    at [k1], or an empty one, with [k2] set. *)
Lemma span_style_insert (table : gmap Z (gmap Z Style)) (k1 k2 : Z) (style : Style)
    (a b : Z) :
  span_style (<[k1 := <[k2 := style]> (default ∅ (table !! k1))]> table) a b =
    if decide (a = k1 ∧ b = k2) then Some style else span_style table a b.
Proof.
  unfold span_style. destruct (decide (a = k1)) as [->|Ha].
  - rewrite lookup_insert_eq. cbn.
    destruct (decide (b = k2)) as [->|Hb].
    + rewrite lookup_insert_eq. by rewrite decide_True.
    + rewrite lookup_insert_ne by done. rewrite decide_False by tauto.
      by destruct (table !! k1).
  - rewrite lookup_insert_ne by done. by rewrite decide_False by tauto.
Qed.

(** The two anchored tables after one [stylize] with an anchored,
    non-empty style on a code-point span. *)
Lemma span_style_stylize (s0 e0 : Z) (style : Style) (ed : Editor) (s e : Z) :
  is_anchored style = true → is_empty style = false →
  span_style
    (m_anchored_spans_starting (stylize (mkSpan s0 e0 CodepointOriented) style ed)) s e =
    (if decide (s = s0 ∧ e = e0) then Some style
     else span_style (m_anchored_spans_starting ed) s e) ∧
  span_style
    (m_anchored_spans_ending (stylize (mkSpan s0 e0 CodepointOriented) style ed)) e s =
    (if decide (e = e0 ∧ s = s0) then Some style
     else span_style (m_anchored_spans_ending ed) e s).
Proof.
  intros Ha He. unfold stylize. rewrite He, Ha. cbn.
  split; apply span_style_insert.
Qed.

Lemma anchored_table_ok_lookup (table : gmap Z (gmap Z Style)) :
  anchored_table_ok table ↔
  ∀ s e style, span_style table s e = Some style →
               is_anchored style = true ∧ is_empty style = false.
Proof.
  unfold anchored_table_ok, span_style. split.
  - intros Hok s e style H.
    destruct (table !! s) as [ends|] eqn:Hs; [|done]. cbn in H.
    exact (Hok s ends Hs e style H).
  - intros H s ends Hs e style He. apply (H s e). by rewrite Hs.
Qed.

(** [stylize] keeps the anchored table to anchored, non-empty styles;
    so does the relocation pass, which rebuilds the table with
    [stylize]. *)
Lemma stylize_anchored_table_ok (span : Span) (style : Style) (e : Editor) :
  anchored_table_ok (m_anchored_spans_starting e) →
  anchored_table_ok (m_anchored_spans_starting (stylize span style e)).
Proof.
  intros Hok. unfold stylize. destruct (is_empty style) eqn:He; [done|].
  destruct (match Span_mode span with
            | ByteOriented => _
            | CodepointOriented => _
            end) as [start end_].
  destruct (is_anchored style) eqn:Ha; [|done]. cbn.
  apply anchored_table_ok_lookup. intros s en st. rewrite span_style_insert.
  case_decide; [by intros [= <-]|]. by apply anchored_table_ok_lookup.
Qed.

Lemma foldl_stylize_anchored_table_ok (relocations : list Anchor) (e : Editor) :
  anchored_table_ok (m_anchored_spans_starting e) →
  anchored_table_ok
    (m_anchored_spans_starting
       (foldl (fun ed relocation =>
                 stylize (new_span relocation) (Anchor_style relocation) ed)
              e relocations)).
Proof.
  revert e. induction relocations as [|x relocations IH]; intros e Hok; cbn; [done|].
  by apply IH, stylize_anchored_table_ok.
Qed.

Lemma readjust_anchored_styles_table_ok (h : Z) (k : ModificationKind) (e : Editor) :
  anchored_table_ok (m_anchored_spans_starting (readjust_anchored_styles h k e)).
Proof.
  unfold readjust_anchored_styles. apply foldl_stylize_anchored_table_ok.
  cbn. apply map_Forall_empty.
Qed.

Lemma elem_of_anchored_entries (table : gmap Z (gmap Z Style)) (s e : Z) (style : Style) :
  (s, e, style) ∈ anchored_entries table ↔ span_style table s e = Some style.
Proof.
  unfold anchored_entries, span_style. rewrite list_elem_of_bind. split.
  - intros ([s1 ends] & Hin & Hs%elem_of_map_to_list).
    apply list_elem_of_bind in Hin as ([e1 st1] & Hin & He%elem_of_map_to_list).
    apply list_elem_of_singleton in Hin. simplify_eq. by rewrite Hs.
  - intros H. destruct (table !! s) as [ends|] eqn:Hs; [|done]. cbn in H.
    exists (s, ends). split; [|by apply elem_of_map_to_list].
    apply list_elem_of_bind. exists (e, style).
    split; [by apply list_elem_of_singleton | by apply elem_of_map_to_list].
Qed.

(** The spans after the rebuilding loop, in the table keyed by start and
    in the table keyed by end: those already there and the new spans of
    the relocations. *)
Lemma has_span_foldl_stylize (relocations : list Anchor) (ed : Editor) (s e : Z) :
  Forall (fun r => is_anchored (Anchor_style r) = true ∧
                   is_empty (Anchor_style r) = false ∧
                   Span_mode (new_span r) = CodepointOriented) relocations →
  let ed' :=
    foldl (fun ed relocation =>
             stylize (new_span relocation) (Anchor_style relocation) ed)
          ed relocations in
  let relocated :=
    ∃ r, r ∈ relocations ∧ beginning (new_span r) = s ∧ Span_end (new_span r) = e in
  (has_span (m_anchored_spans_starting ed') s e ↔
   has_span (m_anchored_spans_starting ed) s e ∨ relocated) ∧
  (has_span (m_anchored_spans_ending ed') e s ↔
   has_span (m_anchored_spans_ending ed) e s ∨ relocated).
Proof.
  intros Hall. cbv zeta. revert ed.
  induction Hall as [|r relocations (Ha & He & Hm) _ IH]; intros ed.
  - cbn. split; (split; [by left|]);
      (intros [H|(r & Hr & _)]; [done|]); by apply elem_of_nil in Hr.
  - cbn [foldl]. destruct (IH (stylize (new_span r) (Anchor_style r) ed)) as [IH1 IH2].
    rewrite IH1, IH2. clear IH IH1 IH2. unfold has_span.
    destruct r as [old [s0 e0 m0] st]. cbn in Ha, He, Hm. subst m0.
    cbn [new_span Anchor_style].
    destruct (span_style_stylize s0 e0 st ed s e Ha He) as [-> ->].
    assert (Hhead :
      (∃ r, r ∈ mkAnchor old (mkSpan s0 e0 CodepointOriented) st :: relocations ∧
            beginning (new_span r) = s ∧ Span_end (new_span r) = e) ↔
      (s = s0 ∧ e = e0) ∨
      (∃ r, r ∈ relocations ∧ beginning (new_span r) = s ∧ Span_end (new_span r) = e)).
    { split.
      - intros (r & [->|Hr]%elem_of_cons & Hs & Hen); [by left|]. right. by exists r.
      - intros [[-> ->]|(r & Hr & Hs)].
        + eexists. split; [apply list_elem_of_here|done].
        + exists r. split; [by apply list_elem_of_further|done]. }
    rewrite Hhead.
    split; (case_decide; [|tauto]); split; try tauto; intros _; left; by eexists.
Qed.

Lemma wrap32_small (z : Z) : 0 <= z < 2 ^ 32 → wrap32 z = z.
Proof. intros H. unfold wrap32. by apply Z.mod_small. Qed.

(** The loop body agrees with the relocation as specified, for an
    insertion or a removal. *)
Lemma relocate_anchor_relocated_span (h : Z) (k : ModificationKind) (s e : Z)
    (style : Style) :
  k ≠ ForcedOverlapRemoval → 0 <= h < 2 ^ 32 - 1 →
  relocate_anchor h k s e style =
    (fun p : Z * Z =>
       mkAnchor (mkSpan s e CodepointOriented) (mkSpan p.1 p.2 CodepointOriented) style)
      <$> relocated_span h k s e.
Proof.
  intros Hk Hh. unfold relocate_anchor, relocated_span, index_shift.
  rewrite (wrap32_small (h + 1)) by lia.
  destruct k; [| |done]; cbn [andb].
  - rewrite bool_decide_eq_false_2 by (intros [? _]; done).
    rewrite andb_false_r.
    destruct (Z.leb_spec h s).
    + by rewrite bool_decide_eq_true_2 by lia.
    + rewrite bool_decide_eq_false_2 by lia.
      destruct (Z.ltb_spec h e).
      * by rewrite bool_decide_eq_true_2 by lia.
      * by rewrite bool_decide_eq_false_2 by lia.
  - rewrite andb_true_r.
    destruct (Z.leb_spec h s).
    + destruct (Z.eqb_spec s h), (Z.eqb_spec e (h + 1)); cbn [andb].
      * by rewrite bool_decide_eq_true_2 by done.
      * rewrite bool_decide_eq_false_2 by tauto.
        by rewrite bool_decide_eq_true_2 by lia.
      * rewrite bool_decide_eq_false_2 by tauto.
        by rewrite bool_decide_eq_true_2 by lia.
      * rewrite bool_decide_eq_false_2 by tauto.
        by rewrite bool_decide_eq_true_2 by lia.
    + rewrite bool_decide_eq_false_2 by lia.
      rewrite bool_decide_eq_false_2 by lia.
      destruct (Z.ltb_spec h e).
      * by rewrite bool_decide_eq_true_2 by lia.
      * by rewrite bool_decide_eq_false_2 by lia.
Qed.

(** The relocations the pass collects: one per old span that the
    relocation keeps, carrying the relocated span. *)
Lemma relocated_anchors (h : Z) (k : ModificationKind) (table : gmap Z (gmap Z Style))
    (s' e' : Z) :
  k ≠ ForcedOverlapRemoval → 0 <= h < 2 ^ 32 - 1 →
  (∃ r, r ∈ omap (fun '(start_key, end_key, style) =>
                    relocate_anchor h k start_key end_key style)
                 (anchored_entries table) ∧
        beginning (new_span r) = s' ∧ Span_end (new_span r) = e') ↔
  ∃ s e, has_span table s e ∧ relocated_span h k s e = Some (s', e').
Proof.
  intros Hk Hh. split.
  - intros (r & Hr & <- & <-).
    apply list_elem_of_omap in Hr as ([[s e] st] & Hin & Hr).
    apply elem_of_anchored_entries in Hin.
    rewrite relocate_anchor_relocated_span in Hr by done.
    destruct (relocated_span h k s e) as [[s1 e1]|] eqn:Hrel; [|done].
    cbn in Hr. simplify_eq. exists s, e. split; [by eexists|done].
  - intros (s & e & [st Hst] & Hrel).
    eexists (mkAnchor _ (mkSpan s' e' CodepointOriented) st).
    split; [|done]. apply list_elem_of_omap. exists (s, e, st).
    split; [by apply elem_of_anchored_entries|].
    rewrite relocate_anchor_relocated_span by done. by rewrite Hrel.
Qed.

(** The anchored spans after the relocation pass, in both tables. *)
Lemma anchored_spans_after_readjust (h : Z) (k : ModificationKind) (ed : Editor)
    (s' e' : Z) :
  k ≠ ForcedOverlapRemoval → 0 <= h < 2 ^ 32 - 1 →
  anchored_table_ok (m_anchored_spans_starting ed) →
  let relocated :=
    ∃ s e, has_span (m_anchored_spans_starting ed) s e ∧
           relocated_span h k s e = Some (s', e') in
  (has_span (m_anchored_spans_starting (readjust_anchored_styles h k ed)) s' e'
   ↔ relocated) ∧
  (has_span (m_anchored_spans_ending (readjust_anchored_styles h k ed)) e' s'
   ↔ relocated).
Proof.
  intros Hk Hh Hok. cbv zeta. unfold readjust_anchored_styles.
  rewrite <- (relocated_anchors h k _ s' e' Hk Hh).
  match goal with
  | |- context [foldl ?f ?e0 ?l] =>
      destruct (has_span_foldl_stylize l e0 s' e') as [H1 H2]
  end.
  - apply Forall_forall. intros r Hr.
    apply list_elem_of_omap in Hr as ([[s e] st] & Hin & Hr).
    apply elem_of_anchored_entries in Hin.
    destruct (proj1 (anchored_table_ok_lookup _) Hok _ _ _ Hin) as [Ha He].
    rewrite relocate_anchor_relocated_span in Hr by done.
    destruct (relocated_span h k s e) as [[s1 e1]|]; [|done].
    cbn in Hr. by simplify_eq.
  - cbv zeta in H1, H2. rewrite H1, H2. cbn.
    split; (split; [intros [[st H]|H]; [done|exact H] | by right]).
Qed.



(** The same scenario through the editing primitives, with the whole
    table: after [remove_at_index 0] the only anchored span is [[1, 4)],
    after an [insert] with the cursor at 3 it is [[1, 5)]. *)
Example anchored_span_follows_edits :
  let e1 := remove_at_index 0 (underlined 2 5 0) in
  let e2 := insert standard_utf8_encode 120 (set_m_cursor 3%nat e1) in
  m_anchored_spans_starting e1 = {[ 1 := {[ 4 := anchored_underline ]} ]} ∧
  m_anchored_spans_ending e1 = {[ 4 := {[ 1 := anchored_underline ]} ]} ∧
  m_anchored_spans_starting e2 = {[ 1 := {[ 5 := anchored_underline ]} ]} ∧
  m_anchored_spans_ending e2 = {[ 5 := {[ 1 := anchored_underline ]} ]}.
Proof. repeat split; vm_compute; reflexivity. Qed.


Section Editor_properties.

Variable utf8_encode : list Z -> list Z.
Variable utf8_decode : list Z -> list Z.

Lemma insert_anchored_spans_starting (cp : Z) (ed : Editor) :
  m_anchored_spans_starting (insert utf8_encode cp ed) =
  m_anchored_spans_starting
    (readjust_anchored_styles (Z.of_nat (m_cursor ed)) Insertion
       (set_m_pending_chars (m_pending_chars ed ++ utf8_encode [cp]) ed)).
Proof. unfold insert. cbv zeta. by destruct (_ =? _)%nat. Qed.


(** ** The cursor stays within the buffer *)

Lemma readjust_anchored_styles_same (h : Z) (k : ModificationKind) (e : Editor) :
  same_session e (readjust_anchored_styles h k e) ∧
  m_buffer (readjust_anchored_styles h k e) = m_buffer e ∧
  m_cursor (readjust_anchored_styles h k e) = m_cursor e.
Proof. forget_relocation_by readjust_anchored_styles_frame. by repeat split. Qed.

Lemma same_session_refl (e : Editor) : same_session e e.
Proof. by repeat split. Qed.

Lemma same_session_trans (e1 e2 e3 : Editor) :
  same_session e1 e2 → same_session e2 e3 → same_session e1 e3.
Proof. unfold same_session. intros H1 H2. destruct_and!. repeat split; congruence. Qed.

Lemma insert_same_session (cp : Z) (e : Editor) : same_session e (insert utf8_encode cp e).
Proof.
  unfold insert. cbv zeta.
  forget_relocation_by readjust_anchored_styles_frame. cbn.
  destruct (_ =? _)%nat; by repeat split.
Qed.

Lemma insert_string_same_session (s : list Z) (e : Editor) :
  same_session e (insert_string utf8_encode utf8_decode s e).
Proof.
  unfold insert_string. generalize (utf8_decode s). intros l. revert e.
  induction l as [|c l IH]; intros e; cbn; [apply same_session_refl|].
  eapply same_session_trans; [apply (insert_same_session c)|apply IH].
Qed.

Lemma remove_at_index_same_session (i : nat) (e : Editor) :
  same_session e (remove_at_index i e).
Proof.
  unfold remove_at_index. cbv zeta.
  forget_relocation_by readjust_anchored_styles_frame. cbn.
  case_decide; by repeat split.
Qed.

(** Inserting at a cursor within the buffer puts the code point at the
    cursor and moves the cursor past it. *)
Lemma insert_text (cp : Z) (e : Editor) :
  cursor_in_bounds e →
  m_buffer (insert utf8_encode cp e) =
    take (m_cursor e) (m_buffer e) ++ cp :: drop (m_cursor e) (m_buffer e) ∧
  m_cursor (insert utf8_encode cp e) = S (m_cursor e).
Proof.
  unfold cursor_in_bounds, insert. intros Hc. cbv zeta.
  forget_relocation_by readjust_anchored_styles_frame. cbn.
  destruct (Nat.eqb_spec (m_cursor e) (length (m_buffer e))) as [Heq|Hne]; cbn.
  - rewrite length_app. cbn. rewrite Heq, firstn_all, drop_all. split; [done|lia].
  - done.
Qed.

Lemma insert_cursor_in_bounds (cp : Z) (e : Editor) :
  cursor_in_bounds e → cursor_in_bounds (insert utf8_encode cp e).
Proof.
  intros Hc. destruct (insert_text cp e Hc) as [Hb Hcur].
  unfold cursor_in_bounds in *. rewrite Hb, Hcur.
  rewrite length_app, length_take. cbn. rewrite length_drop. lia.
Qed.

Lemma insert_string_cursor_in_bounds (s : list Z) (e : Editor) :
  cursor_in_bounds e → cursor_in_bounds (insert_string utf8_encode utf8_decode s e).
Proof.
  unfold insert_string. generalize (utf8_decode s). intros l. revert e.
  induction l as [|c l IH]; intros e Hc; cbn; [done|].
  by apply IH, insert_cursor_in_bounds.
Qed.

(** Typing a string at the end of the buffer appends its code points. *)
Lemma insert_string_at_end (s : list Z) (e : Editor) :
  m_cursor e = length (m_buffer e) →
  m_buffer (insert_string utf8_encode utf8_decode s e) = m_buffer e ++ utf8_decode s ∧
  m_cursor (insert_string utf8_encode utf8_decode s e) =
    length (m_buffer e ++ utf8_decode s).
Proof.
  unfold insert_string. generalize (utf8_decode s). intros l. revert e.
  induction l as [|c l IH]; intros e Hc; cbn [foldl].
  - by rewrite app_nil_r.
  - assert (Hin : cursor_in_bounds e) by (unfold cursor_in_bounds; lia).
    destruct (insert_text c e Hin) as [Hb Hcur].
    rewrite Hc, firstn_all, drop_all in Hb.
    destruct (IH (insert utf8_encode c e)) as [Hb' Hc'].
    { rewrite Hb, Hcur, length_app. cbn. lia. }
    rewrite Hb', Hc', Hb. by rewrite <- !app_assoc.
Qed.

Lemma remove_at_index_text (i : nat) (e : Editor) :
  m_buffer (remove_at_index i e) = delete i (m_buffer e) ∧
  m_cursor (remove_at_index i e) = m_cursor e.
Proof.
  unfold remove_at_index. cbv zeta.
  forget_relocation_by readjust_anchored_styles_frame. cbn.
  by case_decide.
Qed.

Lemma do_backspace_cursor_in_bounds (e : Editor) :
  cursor_in_bounds e → cursor_in_bounds (do_backspace e).
Proof.
  unfold do_backspace, cursor_in_bounds. intros Hc.
  destruct (m_is_searching e); [done|].
  destruct (Nat.eqb_spec (m_cursor e) 0); [done|]. cbn.
  destruct (remove_at_index_text (m_cursor e - 1) e) as [-> ->].
  rewrite length_delete; [lia|]. apply lookup_lt_is_Some. lia.
Qed.

Lemma do_delete_cursor_in_bounds (e : Editor) :
  cursor_in_bounds e → cursor_in_bounds (do_delete e).
Proof.
  unfold do_delete, cursor_in_bounds. intros Hc.
  destruct (Nat.eqb_spec (m_cursor e) (length (m_buffer e))); [done|]. cbn.
  destruct (remove_at_index_text (m_cursor e) e) as [-> ->].
  rewrite length_delete; [lia|]. apply lookup_lt_is_Some. lia.
Qed.

Lemma do_backspace_same_session (e : Editor) :
  m_state (do_backspace e) = m_state e ∧ m_termios (do_backspace e) = m_termios e ∧
  m_finish (do_backspace e) = m_finish e.
Proof.
  unfold do_backspace. destruct (m_is_searching e); [done|].
  destruct (_ =? _)%nat; [done|]. cbn.
  destruct (remove_at_index_same_session (m_cursor e - 1) e) as (?&?&?&?&?). done.
Qed.

Lemma search_cursor_in_bounds (phrase : list Z) (allow_empty from_beginning : bool)
    (e : Editor) :
  cursor_in_bounds (search utf8_encode utf8_decode phrase allow_empty from_beginning e).2.
Proof.
  unfold search.
  destruct (if allow_empty || (0 <? length phrase)%nat then _ else _) as [last e1].
  cbn [snd]. destruct (0 <=? last).
  - change (cursor_in_bounds
              (insert_string utf8_encode utf8_decode
                 (default [] (m_history e1 !! Z.to_nat last))
                 (set_m_cursor 0 (set_m_buffer [] e1)))).
    apply insert_string_cursor_in_bounds. unfold cursor_in_bounds. cbn. lia.
  - unfold cursor_in_bounds. cbn. lia.
Qed.

Lemma do_search_backwards_cursor_in_bounds (e : Editor) :
  cursor_in_bounds (do_search_backwards utf8_encode utf8_decode e).
Proof.
  unfold do_search_backwards. cbv zeta.
  match goal with
  | |- context [search ?enc ?dec ?p ?a ?f ?e0] =>
      pose proof (search_cursor_in_bounds p a f e0) as Hs;
      destruct (search enc dec p a f e0) as [found e2]
  end.
  cbn [snd] in Hs. destruct found.
  - exact Hs.
  - by apply (insert_string_cursor_in_bounds _ e2).
Qed.

Lemma do_search_forwards_cursor_in_bounds (e : Editor) :
  cursor_in_bounds (do_search_forwards utf8_encode utf8_decode e).
Proof.
  unfold do_search_forwards. cbv zeta.
  destruct (0 <? m_search_offset (set_m_searching_backwards false e)).
  - match goal with
    | |- context [search ?enc ?dec ?p ?a ?f ?e0] =>
        pose proof (search_cursor_in_bounds p a f e0) as Hs;
        destruct (search enc dec p a f e0) as [found e2]
    end.
    cbn [snd] in Hs. destruct found.
    + exact Hs.
    + by apply (insert_string_cursor_in_bounds _ e2).
  - match goal with
    | |- context [insert_string ?enc ?dec ?p ?e0] =>
        pose proof (insert_string_cursor_in_bounds p e0) as Hs
    end.
    apply Hs. unfold cursor_in_bounds. cbn. lia.
Qed.

Lemma do_cursor_left_cursor_in_bounds (amount : Amount) (e e' : Editor) :
  do_cursor_left amount e = Some e' → cursor_in_bounds e → cursor_in_bounds e'.
Proof.
  unfold do_cursor_left, cursor_in_bounds. destruct amount; [|done].
  intros [= <-] Hc. destruct (0 <? m_cursor e)%nat; cbn; lia.
Qed.

Lemma do_cursor_right_cursor_in_bounds (amount : Amount) (e e' : Editor) :
  do_cursor_right amount e = Some e' → cursor_in_bounds e → cursor_in_bounds e'.
Proof.
  unfold do_cursor_right, cursor_in_bounds. destruct amount; [|done].
  intros [= <-] Hc. destruct (Nat.ltb_spec (m_cursor e) (length (m_buffer e))); cbn; lia.
Qed.

(** The loop of ^K keeps the cursor in place and stops with the cursor
    at the end of the buffer: the turns granted suffice. *)
Lemma delete_to_end_spec (turns : nat) (e : Editor) :
  cursor_in_bounds e → (length (m_buffer e) - m_cursor e <= turns)%nat →
  m_cursor (delete_to_end turns e) = m_cursor e ∧
  length (m_buffer (delete_to_end turns e)) = m_cursor e.
Proof.
  revert e. induction turns as [|turns IH]; intros e Hc Hturns; unfold cursor_in_bounds in *.
  - cbn. lia.
  - cbn [delete_to_end].
    destruct (Nat.ltb_spec (m_cursor e) (length (m_buffer e))); [|lia].
    assert (Hd : m_cursor (do_delete e) = m_cursor e ∧
                 length (m_buffer (do_delete e)) = (length (m_buffer e) - 1)%nat).
    { unfold do_delete.
      destruct (Nat.eqb_spec (m_cursor e) (length (m_buffer e))); [lia|]. cbn.
      destruct (remove_at_index_text (m_cursor e) e) as [-> ->].
      rewrite length_delete; [done|]. apply lookup_lt_is_Some. lia. }
    destruct Hd as [Hd1 Hd2].
    destruct (IH (do_delete e)) as [H1 H2]; unfold cursor_in_bounds; [lia..|].
    rewrite H1, H2. lia.
Qed.

Lemma swap_at_length (i j : nat) (buffer : list Z) :
  length (swap_at i j buffer) = length buffer.
Proof.
  unfold swap_at. destruct (buffer !! i), (buffer !! j); try done.
  by rewrite !length_insert.
Qed.

(** Whatever code point arrives in whatever state, if it is handled
    within the model the cursor stays within the buffer. *)
Lemma dispatch_state_cursor_in_bounds (cp : Z) (l l' : Locals) (e e' : Editor)
    (proceed : bool) :
  dispatch_state utf8_encode utf8_decode cp l e = Some (proceed, l', e') →
  cursor_in_bounds e → cursor_in_bounds e'.
Proof.
  unfold dispatch_state. intros H Hc.
  destruct (m_state e);
    repeat match type of H with
    | context [if ?c then _ else _] => destruct c eqn:?
    | context [?m ≫= _] => destruct m eqn:?; cbn [mbind option_bind] in H
    end;
    simplify_eq; strip_updates;
    eauto using do_search_backwards_cursor_in_bounds, do_search_forwards_cursor_in_bounds,
      do_cursor_left_cursor_in_bounds, do_cursor_right_cursor_in_bounds,
      do_delete_cursor_in_bounds;
    try (unfold cursor_in_bounds in *; cbn; lia).
Qed.

Lemma handle_key_cursor_in_bounds (cp : Z) (l l' : Locals) (e e' : Editor) :
  handle_key utf8_encode utf8_decode cp l e = Some (l', e') →
  cursor_in_bounds e → cursor_in_bounds e'.
Proof.
  unfold handle_key. intros H Hc.
  assert (Hc0 : cursor_in_bounds (set_m_search_offset 0 e)) by exact Hc.
  repeat match type of H with
  | context [if ?c then _ else _] => destruct c eqn:?
  | context [?m ≫= _] => destruct m eqn:?; cbn [mbind option_bind] in H
  end;
  simplify_eq; strip_updates;
  eauto using do_search_backwards_cursor_in_bounds, do_search_forwards_cursor_in_bounds,
    do_cursor_left_cursor_in_bounds, do_cursor_right_cursor_in_bounds,
    do_delete_cursor_in_bounds, do_backspace_cursor_in_bounds, insert_cursor_in_bounds;
  try (unfold cursor_in_bounds in *; cbn; lia).
  - unfold cursor_in_bounds.
    destruct (delete_to_end_spec (length (m_buffer (set_m_search_offset 0 e)))
                (set_m_search_offset 0 e)) as [H1 H2]; [exact Hc | lia |].
    rewrite H1, H2. done.
  - unfold cursor_in_bounds in *. cbn [m_cursor m_buffer set_m_buffer].
    rewrite swap_at_length.
    match goal with
    | H : (_ <? _)%nat = true |- _ => apply Nat.ltb_lt in H; cbn in H |- *; lia
    end.
  - unfold cursor_in_bounds in *. cbn [m_cursor m_buffer set_m_buffer].
    rewrite swap_at_length. exact Hc.
Qed.

Lemma handle_code_point_cursor_in_bounds (cp : Z) (l l' : Locals) (e e' : Editor) :
  handle_code_point utf8_encode utf8_decode cp l e = Some (l', e') →
  cursor_in_bounds e → cursor_in_bounds e'.
Proof.
  unfold handle_code_point. intros H Hc.
  destruct (cp =? 0); [by simplify_eq|].
  destruct (dispatch_state utf8_encode utf8_decode cp l e) as [[[proceed l1] e1]|] eqn:Hd;
    [|done].
  cbn [mbind option_bind] in H.
  pose proof (dispatch_state_cursor_in_bounds _ _ _ _ _ _ Hd Hc) as Hc1.
  destruct proceed; [by eapply handle_key_cursor_in_bounds|by simplify_eq].
Qed.

Lemma handle_code_points_cursor_in_bounds (input_view : list Z) (l l' : Locals)
    (e e' : Editor) :
  handle_code_points utf8_encode utf8_decode input_view l e = Some (l', e') →
  cursor_in_bounds e → cursor_in_bounds e'.
Proof.
  revert l e. induction input_view as [|cp input_view IH]; intros l e H Hc;
    cbn [handle_code_points] in H.
  - by simplify_eq.
  - destruct (m_finish e); [by simplify_eq|].
    destruct (handle_code_point utf8_encode utf8_decode cp l e) as [[l1 e1]|] eqn:Hcp;
      [|done].
    cbn [mbind option_bind] in H.
    eapply IH; [exact H|]. by eapply handle_code_point_cursor_in_bounds.
Qed.

(** The cursor invariant of the data model: a read event that stays
    within the model keeps the cursor within the buffer, whatever code
    points it carries. *)
Lemma handle_read_event_cursor_in_bounds (input_view : list Z) (e e' : Editor) :
  handle_read_event utf8_encode utf8_decode input_view e = Some e' →
  cursor_in_bounds e → cursor_in_bounds e'.
Proof.
  unfold handle_read_event. intros H Hc.
  destruct (handle_code_points _ _ _ _ _) as [[l1 e1]|] eqn:Hcps; [|done].
  cbn in H. simplify_eq. by eapply handle_code_points_cursor_in_bounds.
Qed.

(** What the read event of each key of C2 does to an editor in the free
    state. *)
Lemma handle_read_event_finished (input_view : list Z) (e : Editor) :
  m_finish e = true → handle_read_event utf8_encode utf8_decode input_view e = Some e.
Proof. intros H. unfold handle_read_event. destruct input_view; cbn; by rewrite ?H. Qed.

Lemma handle_read_event_printable (cp : Z) (e : Editor) :
  m_finish e = false → m_state e = InputState.Free →
  default_control_characters (m_termios e) →
  32 <= cp → cp ≠ 127 →
  handle_read_event utf8_encode utf8_decode [cp] e =
    Some (insert utf8_encode cp (set_m_search_offset 0 e)).
Proof.
  intros Hfin Hstate (Heof & Herase & Hwerase & Hkill) Hlo Hdel.
  unfold handle_read_event, handle_code_points, handle_code_point, dispatch_state.
  rewrite Hfin, Hstate.
  destruct (Z.eqb_spec cp 0); [lia|]. destruct (Z.eqb_spec cp 27); [lia|].
  cbn [mbind option_bind]. unfold handle_key.
  cbn [reverse_tab m_termios set_m_search_offset].
  rewrite Heof, Herase, Hwerase, Hkill.
  change (ctrl 78) with 14. change (ctrl 80) with 16. change (ctrl 65) with 1.
  change (ctrl 66) with 2. change (ctrl 68) with 4. change (ctrl 69) with 5.
  change (ctrl 70) with 6. change (ctrl 75) with 11. change (ctrl 76) with 12.
  change (ctrl 82) with 18. change (ctrl 84) with 20.
  repeat match goal with
  | |- context [cp =? ?k] => destruct (Z.eqb_spec cp k); [lia|]
  end.
  reflexivity.
Qed.

Lemma handle_read_event_backspace (e : Editor) :
  m_finish e = false → m_state e = InputState.Free →
  default_control_characters (m_termios e) →
  handle_read_event utf8_encode utf8_decode [127] e =
    Some (do_backspace (set_m_search_offset 0 e)).
Proof.
  intros Hfin Hstate (Heof & Herase & Hwerase & Hkill).
  unfold handle_read_event, handle_code_points, handle_code_point, dispatch_state.
  rewrite Hfin, Hstate. cbn [Z.eqb Pos.eqb mbind option_bind]. unfold handle_key.
  cbn [reverse_tab m_termios set_m_search_offset].
  rewrite Heof, Herase, Hwerase, Hkill. reflexivity.
Qed.

Lemma handle_read_event_arrow_left (e : Editor) :
  m_finish e = false → m_state e = InputState.Free →
  ∃ e', handle_read_event utf8_encode utf8_decode [27; 91; 68] e = Some e' ∧
        m_buffer e' = m_buffer e ∧ m_cursor e' = Nat.pred (m_cursor e) ∧
        m_state e' = InputState.Free ∧ m_termios e' = m_termios e.
Proof.
  intros Hfin Hstate.
  unfold handle_read_event, handle_code_points, handle_code_point, dispatch_state.
  rewrite Hfin, Hstate. cbn. rewrite Hfin. cbn.
  destruct (m_cursor e) eqn:Hc; cbn; eexists; (split; [reflexivity|]); cbn;
    repeat split; lia.
Qed.

Lemma handle_read_event_arrow_right (e : Editor) :
  m_finish e = false → m_state e = InputState.Free →
  ∃ e', handle_read_event utf8_encode utf8_decode [27; 91; 67] e = Some e' ∧
        m_buffer e' = m_buffer e ∧
        m_cursor e' =
          (if (m_cursor e <? length (m_buffer e))%nat then S (m_cursor e) else m_cursor e) ∧
        m_state e' = InputState.Free ∧ m_termios e' = m_termios e.
Proof.
  intros Hfin Hstate.
  unfold handle_read_event, handle_code_points, handle_code_point, dispatch_state.
  rewrite Hfin, Hstate. cbn -[Nat.ltb]. rewrite Hfin. cbn -[Nat.ltb].
  destruct (m_cursor e <? length (m_buffer e))%nat; cbn; eexists;
    (split; [reflexivity|]); cbn; done.
Qed.

(** One key keeps the cursor within the buffer and leaves the editor in
    the free state. *)
Lemma type_key_cursor_in_bounds (k : Key) (e : Editor) :
  cursor_in_bounds e → m_state e = InputState.Free →
  default_control_characters (m_termios e) → printable_key k →
  ∃ e', handle_read_event utf8_encode utf8_decode (key_code_points (m_termios e) k) e
          = Some e' ∧
        cursor_in_bounds e' ∧ m_state e' = InputState.Free ∧
        m_termios e' = m_termios e.
Proof.
  intros Hc Hstate Hdef Hk.
  destruct (m_finish e) eqn:Hfin.
  { exists e. by rewrite handle_read_event_finished. }
  destruct k as [cp| | |]; cbn [key_code_points].
  - destruct Hk as [Hlo Hdel]. rewrite handle_read_event_printable by done.
    eexists. split; [reflexivity|].
    destruct (insert_same_session cp (set_m_search_offset 0 e)) as (Hs & Ht & _).
    split; [by apply insert_cursor_in_bounds|]. by rewrite Hs, Ht.
  - destruct (handle_read_event_arrow_left e Hfin Hstate) as (e' & -> & Hb & Hcur & Hs & Ht).
    exists e'. split; [done|]. unfold cursor_in_bounds in *. rewrite Hb, Hcur.
    split; [lia|done].
  - destruct (handle_read_event_arrow_right e Hfin Hstate) as (e' & -> & Hb & Hcur & Hs & Ht).
    exists e'. split; [done|]. unfold cursor_in_bounds in *. rewrite Hb, Hcur.
    split; [|done]. destruct (Nat.ltb_spec (m_cursor e) (length (m_buffer e))); lia.
  - destruct Hdef as (Heof & Herase & Hwerase & Hkill). rewrite Herase.
    rewrite handle_read_event_backspace by done.
    eexists. split; [reflexivity|].
    destruct (do_backspace_same_session (set_m_search_offset 0 e)) as (Hs & Ht & _).
    split; [by apply do_backspace_cursor_in_bounds|]. by rewrite Hs, Ht.
Qed.

(** C2. From an editor in the free state whose cursor is within its
    buffer, every sequence of printable insertions, left and right arrows
    and backspaces is handled, and after each key the cursor offset lies
    between 0 and the length of the buffer. *)
Theorem cursor_stays_in_bounds (keys : list Key) (e : Editor) :
  cursor_in_bounds e → m_state e = InputState.Free →
  default_control_characters (m_termios e) →
  Forall printable_key keys →
  ∃ states, type_keys utf8_encode utf8_decode keys e = Some states ∧
            length states = length keys ∧
            Forall cursor_in_bounds states.
Proof.
  intros Hc Hstate Hdef Hkeys. revert e Hc Hstate Hdef.
  induction Hkeys as [|k keys Hk _ IH]; intros e Hc Hstate Hdef.
  - by exists [].
  - destruct (type_key_cursor_in_bounds k e Hc Hstate Hdef Hk) as (e' & He' & Hc' & Hs' & Ht').
    destruct (IH e' Hc' Hs') as (states & Hstates & Hlen & Hall).
    { by rewrite Ht'. }
    exists (e' :: states). cbn [type_keys]. rewrite He'. cbn. rewrite Hstates. cbn.
    split; [done|]. split; [by rewrite Hlen|]. by constructor.
Qed.

(** ** End of input *)

(** C5, amended. When the VEOF code point is processed in the free state
    on an empty buffer (and no earlier test of the key handling takes the
    code point, as is the case for the default ^D), the editor writes
    "<EOF>" and a newline; unless it refreshes eagerly
    ([m_always_refresh]) it records the error [Eof] and finishes, so that
    [get_line] returns [Eof]. An eagerly refreshing editor, such as the
    nested search editor, only writes the text and goes on editing. *)
Theorem VEOF_on_empty_buffer (cp : Z) (e : Editor) :
  m_finish e = false → m_state e = InputState.Free → m_buffer e = [] →
  cp = c_cc_VEOF (m_termios e) → reaches_VEOF_test (m_termios e) cp →
  ∃ e', handle_read_event utf8_encode utf8_decode [cp] e = Some e' ∧
        m_stderr e' = m_stderr e ++ bytes_of "<EOF>" ++ [10] ∧
        if m_always_refresh e
        then m_finish e' = false ∧ m_input_error e' = m_input_error e
        else m_finish e' = true ∧ m_input_error e' = Some Eof ∧
             ∀ rest, get_line_loop utf8_encode utf8_decode ([cp] :: rest) e =
                     Returned (inr Eof).
Proof.
  intros Hfin Hstate Hbuf Hcp (H0 & H27 & HN & HP & Htab & Hwerase & Hkill).
  assert (Hrun : handle_read_event utf8_encode utf8_decode [cp] e =
    Some (let e1 := fputs (bytes_of "<EOF>" ++ [10]) (set_m_search_offset 0 e) in
          if negb (m_always_refresh e1)
          then finish (set_m_input_error (Some Eof) e1) else e1)).
  { unfold handle_read_event, handle_code_points, handle_code_point, dispatch_state.
    rewrite Hfin, Hstate.
    destruct (Z.eqb_spec cp 0); [done|]. destruct (Z.eqb_spec cp 27); [done|].
    cbn [mbind option_bind]. unfold handle_key.
    destruct (Z.eqb_spec cp (ctrl 78)); [done|].
    destruct (Z.eqb_spec cp (ctrl 80)); [done|].
    cbn [reverse_tab m_termios m_buffer set_m_search_offset].
    destruct (Z.eqb_spec cp 9); [done|].
    destruct (Z.eqb_spec cp (c_cc_VWERASE (m_termios e))); [done|].
    destruct (Z.eqb_spec cp (c_cc_VKILL (m_termios e))); [done|].
    destruct (Z.eqb_spec cp (c_cc_VEOF (m_termios e))); [|done].
    rewrite bool_decide_eq_true_2 by done. cbv zeta.
    by destruct (negb _). }
  eexists. split; [exact Hrun|]. split; [cbn; by destruct (m_always_refresh e)|].
  destruct (m_always_refresh e) eqn:Hrefresh.
  - cbn. by rewrite Hrefresh.
  - split; [cbn; by rewrite Hrefresh|]. split; [cbn; by rewrite Hrefresh|].
    intros rest. cbn [get_line_loop]. rewrite Hrun. cbn. by rewrite Hrefresh.
Qed.

(** ** History search *)

Lemma matching_entries_succ (history : list (list Z)) (i : nat) (entry phrase : list Z)
    (from_beginning : bool) :
  history !! i = Some entry →
  matching_entries history (S i) phrase from_beginning =
    if (if from_beginning then starts_with entry phrase else contains entry phrase)
    then entry :: matching_entries history i phrase from_beginning
    else matching_entries history i phrase from_beginning.
Proof.
  intros H. unfold matching_entries.
  rewrite (take_S_r _ _ _ H), reverse_snoc. reflexivity.
Qed.

(** The scan settles on the match at position [search_offset] counted
    from the newest, or on the oldest match when there are fewer. *)
Lemma search_scan_selects (history : list (list Z)) (phrase : list Z)
    (from_beginning : bool) (i : nat) (search_offset last : Z) :
  (i <= length history)%nat → 0 <= search_offset →
  let matches := matching_entries history i phrase from_beginning in
  match matches with
  | [] => search_scan history phrase from_beginning i search_offset last = last
  | _ :: _ =>
      ∃ j, search_scan history phrase from_beginning i search_offset last = Z.of_nat j ∧
           history !! j = matches !! (Z.to_nat search_offset `min` (length matches - 1))%nat
  end.
Proof.
  revert search_offset last. induction i as [|i IH]; intros off last Hi Hoff.
  { reflexivity. }
  destruct (lookup_lt_is_Some_2 history i) as [entry Hentry]; [lia|].
  cbv zeta. rewrite (matching_entries_succ _ _ _ _ _ Hentry).
  cbn [search_scan]. rewrite Hentry.
  specialize (IH (off - 1) (Z.of_nat i)) as IHhit.
  specialize (IH off last) as IHmiss.
  destruct (if from_beginning then starts_with entry phrase else contains entry phrase).
  - destruct (Z.eqb_spec off 0) as [->|Hne].
    + exists i. by rewrite Hentry.
    + specialize (IHhit ltac:(lia) ltac:(lia)). cbv zeta in IHhit.
      destruct (matching_entries history i phrase from_beginning) as [|m ms].
      * exists i. rewrite IHhit, Hentry. cbn. by rewrite Nat.min_0_r.
      * destruct IHhit as (j & -> & Hj). exists j. split; [done|]. rewrite Hj.
        cbn [length].
        replace (Z.to_nat off `min` (S (S (length ms)) - 1))%nat
          with (S (Z.to_nat (off - 1) `min` (S (length ms) - 1)))%nat by lia.
        reflexivity.
  - apply IHmiss; lia.
Qed.

(** C3, amended. [search] scans the entries below the history cursor
    from newest to oldest, counting those that match the phrase (as a
    prefix when [from_beginning], as a substring otherwise), and selects
    the match at position [m_search_offset] counted from the newest, or
    the oldest match when fewer entries match. When the scan finds no
    match it rings the bell and leaves the buffer empty; on a hit the
    buffer is replaced with the selected entry. When the phrase is empty
    and [allow_empty] is false, nothing is scanned: the search fails
    without a bell. A refresh is forced in every case. *)
Theorem search_selects (phrase : list Z) (allow_empty from_beginning : bool) (e : Editor) :
  (m_history_cursor e <= length (m_history e))%nat → 0 <= m_search_offset e →
  let matches :=
    matching_entries (m_history e) (m_history_cursor e) phrase from_beginning in
  let found := (search utf8_encode utf8_decode phrase allow_empty from_beginning e).1 in
  let e' := (search utf8_encode utf8_decode phrase allow_empty from_beginning e).2 in
  m_refresh_needed e' = true ∧
  if allow_empty || (0 <? length phrase)%nat then
    match matches with
    | [] =>
        found = false ∧ m_stderr e' = m_stderr e ++ [BEL] ∧
        m_buffer e' = [] ∧ m_cursor e' = 0%nat
    | _ :: _ =>
        ∃ entry,
          matches !! (Z.to_nat (m_search_offset e) `min` (length matches - 1))%nat
            = Some entry ∧
          found = true ∧ m_stderr e' = m_stderr e ∧
          m_buffer e' = utf8_decode entry ∧ m_cursor e' = length (utf8_decode entry)
    end
  else
    found = false ∧ m_stderr e' = m_stderr e ∧ m_buffer e' = [] ∧ m_cursor e' = 0%nat.
Proof.
  intros Hcur Hoff. cbv zeta. unfold search.
  destruct (allow_empty || (0 <? length phrase)%nat); [|done].
  pose proof (search_scan_selects (m_history e) phrase from_beginning
                (m_history_cursor e) (m_search_offset e) (-1) Hcur Hoff) as Hscan.
  cbv zeta in Hscan.
  destruct (matching_entries (m_history e) (m_history_cursor e) phrase from_beginning)
    as [|m ms] eqn:Hmatches.
  - rewrite Hscan. done.
  - destruct Hscan as (j & -> & Hj).
    destruct (lookup_lt_is_Some_2 (m :: ms)
                (Z.to_nat (m_search_offset e) `min` (length (m :: ms) - 1))%nat)
      as [entry Hentry]; [cbn; lia|].
    rewrite Hentry in Hj.
    destruct (Z.eqb_spec (Z.of_nat j) (-1)); [lia|].
    destruct (Z.leb_spec 0 (Z.of_nat j)); [|lia].
    cbn [fst snd m_refresh_needed set_m_refresh_needed m_history set_m_cursor set_m_buffer].
    rewrite Nat2Z.id, Hj. cbn [default].
    split; [done|]. exists entry. split; [done|]. split; [done|].
    set (e3 := set_m_cursor 0%nat (set_m_buffer [] e)).
    destruct (insert_string_same_session entry e3) as (_ & _ & Hstderr & _).
    destruct (insert_string_at_end entry e3 eq_refl) as [Hb Hc].
    cbn [m_stderr m_buffer m_cursor set_m_refresh_needed]. unfold id.
    rewrite Hstderr, Hb, Hc. done.
Qed.

(** C9. Whenever [search] returns false the buffer is empty and the
    cursor is 0 afterwards, whatever the buffer held before: the search
    clears the buffer before it knows whether an entry matches, and a
    failed search does not restore it. *)
Theorem search_miss_leaves_buffer_empty (phrase : list Z)
    (allow_empty from_beginning : bool) (e : Editor) :
  (search utf8_encode utf8_decode phrase allow_empty from_beginning e).1 = false →
  m_buffer (search utf8_encode utf8_decode phrase allow_empty from_beginning e).2 = [] ∧
  m_cursor (search utf8_encode utf8_decode phrase allow_empty from_beginning e).2 = 0%nat.
Proof.
  unfold search.
  destruct (if allow_empty || (0 <? length phrase)%nat then _ else _) as [last e1].
  cbn [fst snd]. intros ->. done.
Qed.

End Editor_properties.

(** ** The statements at concrete inputs *)


Lemma cursor_stays_in_bounds_witness :
  let keys := [Printable 104; Printable 105; ArrowLeft; ArrowLeft; ArrowLeft;
               Backspace; ArrowRight; Backspace; ArrowRight; ArrowRight; Printable 33] in
  let e := session_start [] false in
  cursor_in_bounds e ∧ m_state e = InputState.Free ∧
  default_control_characters (m_termios e) ∧ Forall printable_key keys ∧
  ∃ states, type_keys standard_utf8_encode standard_utf8_decode keys e = Some states ∧
            length states = length keys ∧ Forall cursor_in_bounds states.
Proof.
  cbv zeta.
  assert (Hc : cursor_in_bounds (session_start [] false)) by (unfold cursor_in_bounds; cbn; lia).
  assert (Hd : default_control_characters (m_termios (session_start [] false)))
    by (repeat split; reflexivity).
  assert (Hk : Forall printable_key
            [Printable 104; Printable 105; ArrowLeft; ArrowLeft; ArrowLeft;
             Backspace; ArrowRight; Backspace; ArrowRight; ArrowRight; Printable 33])
    by (repeat constructor; cbn; lia).
  split; [exact Hc|]. split; [reflexivity|]. split; [exact Hd|]. split; [exact Hk|].
  exact (cursor_stays_in_bounds standard_utf8_encode standard_utf8_decode _ _
           Hc eq_refl Hd Hk).
Defined.

(** C5, as stated, fails: an editor that refreshes eagerly writes "<EOF>"
    on ^D with an empty buffer, but neither records an error nor
    finishes; its session does not end. *)
Lemma VEOF_with_eager_refresh_goes_on :
  let e := session_start [] true in
  m_state e = InputState.Free ∧ m_buffer e = [] ∧ c_cc_VEOF (m_termios e) = 4 ∧
  ∃ e', handle_read_event standard_utf8_encode standard_utf8_decode [4] e = Some e' ∧
        m_stderr e' = bytes_of "<EOF>" ++ [10] ∧
        m_finish e' = false ∧ m_input_error e' = None ∧
        get_line_loop standard_utf8_encode standard_utf8_decode [[4]] e = StillEditing e'.
Proof.
  cbv zeta. split; [reflexivity|]. split; [reflexivity|]. split; [reflexivity|].
  eexists. split; [vm_compute; reflexivity|]. repeat split; vm_compute; reflexivity.
Qed.

Lemma VEOF_on_empty_buffer_witness :
  let e := session_start [] false in
  m_finish e = false ∧ m_state e = InputState.Free ∧ m_buffer e = [] ∧
  4 = c_cc_VEOF (m_termios e) ∧ reaches_VEOF_test (m_termios e) 4 ∧
  ∃ e', handle_read_event standard_utf8_encode standard_utf8_decode [4] e = Some e' ∧
        m_stderr e' = m_stderr e ++ bytes_of "<EOF>" ++ [10] ∧
        m_finish e' = true ∧ m_input_error e' = Some Eof ∧
        ∀ rest, get_line_loop standard_utf8_encode standard_utf8_decode ([4] :: rest) e =
                Returned (inr Eof).
Proof.
  cbv zeta.
  assert (Hr : reaches_VEOF_test (m_termios (session_start [] false)) 4)
    by (repeat split; vm_compute; discriminate).
  split; [reflexivity|]. split; [reflexivity|]. split; [reflexivity|].
  split; [reflexivity|]. split; [exact Hr|].
  exact (VEOF_on_empty_buffer standard_utf8_encode standard_utf8_decode 4
           (session_start [] false) eq_refl eq_refl eq_refl eq_refl Hr).
Defined.

(** C3, as stated, fails in two places. With an empty phrase that is not
    allowed, nothing matches in an empty history and yet no bell rings;
    and with a search offset of 1 and a single matching entry there is no
    match at position 1, yet the search succeeds with that entry. *)
Lemma search_as_specified_fails :
  ¬ search_as_specified standard_utf8_encode standard_utf8_decode [] false true
      (session_start [] false) ∧
  ¬ search_as_specified standard_utf8_encode standard_utf8_decode (bytes_of "a") true true
      (set_m_search_offset 1 (session_start [bytes_of "a"] false)).
Proof.
  split.
  - intros [Hbell _]. specialize (Hbell eq_refl). vm_compute in Hbell. discriminate.
  - intros [_ Hsel]. vm_compute in Hsel. discriminate.
Qed.

Lemma search_selects_witness :
  let e := set_m_search_offset 1
             (session_start [bytes_of "ls /"; bytes_of "echo hi"] false) in
  let result := search standard_utf8_encode standard_utf8_decode [] true true e in
  (m_history_cursor e <= length (m_history e))%nat ∧ 0 <= m_search_offset e ∧
  matching_entries (m_history e) (m_history_cursor e) [] true =
    [bytes_of "echo hi"; bytes_of "ls /"] ∧
  m_refresh_needed result.2 = true ∧
  ∃ entry, [bytes_of "echo hi"; bytes_of "ls /"] !! 1%nat = Some entry ∧
           result.1 = true ∧ m_stderr result.2 = [] ∧
           m_buffer result.2 = standard_utf8_decode entry ∧
           m_cursor result.2 = length (standard_utf8_decode entry).
Proof.
  cbv zeta. split; [cbn; lia|]. split; [cbn; lia|]. split; [reflexivity|].
  exact (search_selects standard_utf8_encode standard_utf8_decode [] true true
           (set_m_search_offset 1
              (session_start [bytes_of "ls /"; bytes_of "echo hi"] false))
           ltac:(cbn; lia) ltac:(cbn; lia)).
Defined.

Lemma search_miss_leaves_buffer_empty_witness :
  let e := underlined 2 5 6 in
  let result := search standard_utf8_encode standard_utf8_decode (bytes_of "zzz") true false e in
  m_buffer e = bytes_of "abcdef" ∧ result.1 = false ∧
  m_buffer result.2 = [] ∧ m_cursor result.2 = 0%nat.
Proof.
  cbv zeta. split; [reflexivity|]. split; [reflexivity|].
  exact (search_miss_leaves_buffer_empty standard_utf8_encode standard_utf8_decode
           (bytes_of "zzz") true false (underlined 2 5 6) eq_refl).
Defined.

(** * Further properties *)

Section Editing_properties.

Variable utf8_encode : list Z -> list Z.
Variable utf8_decode : list Z -> list Z.

(** ** Typing, erasing and the line returned *)

(** In the free state a code point other than NUL and escape goes to the
    key handling. *)
Lemma handle_code_point_free (cp : Z) (l : Locals) (e : Editor) :
  m_state e = InputState.Free → cp ≠ 0 → cp ≠ 27 →
  handle_code_point utf8_encode utf8_decode cp l e =
    handle_key utf8_encode utf8_decode cp l e.
Proof.
  intros Hstate H0 H27. unfold handle_code_point, dispatch_state. rewrite Hstate.
  destruct (Z.eqb_spec cp 0); [done|]. by destruct (Z.eqb_spec cp 27).
Qed.




(** X2. Typing a code point and erasing it again gives back the buffer
    and the cursor. *)
Theorem backspace_undoes_insert (cp : Z) (e : Editor) :
  cursor_in_bounds e → m_is_searching e = false →
  m_buffer (do_backspace (insert utf8_encode cp e)) = m_buffer e ∧
  m_cursor (do_backspace (insert utf8_encode cp e)) = m_cursor e.
Proof.
  intros Hc Hsearch.
  destruct (insert_text utf8_encode cp e Hc) as [Hb Hcur].
  destruct (insert_same_session utf8_encode cp e) as (_ & _ & _ & _ & _ & _ & _ & _ & _ & Hs & _).
  unfold do_backspace. rewrite Hs, Hsearch, Hcur. cbn [Nat.eqb].
  cbn [m_buffer m_cursor set_m_refresh_needed set_m_inline_search_cursor set_m_cursor].
  destruct (remove_at_index_text (S (m_cursor e) - 1) (insert utf8_encode cp e)) as [-> ->].
  rewrite Hb, Hcur. replace (S (m_cursor e) - 1)%nat with (m_cursor e) by lia.
  split; [|lia].
  unfold cursor_in_bounds in Hc.
  rewrite <- (length_take_le (m_buffer e) (m_cursor e)) at 1 by lia.
  by rewrite delete_middle, take_drop.
Qed.

(** ** The killing and transposing keys *)

Lemma do_delete_text (e : Editor) :
  (m_cursor e < length (m_buffer e))%nat →
  m_buffer (do_delete e) = delete (m_cursor e) (m_buffer e) ∧
  m_cursor (do_delete e) = m_cursor e.
Proof.
  intros Hc. unfold do_delete.
  destruct (Nat.eqb_spec (m_cursor e) (length (m_buffer e))); [lia|]. cbn.
  apply remove_at_index_text.
Qed.

Lemma delete_to_end_text (turns : nat) (e : Editor) :
  cursor_in_bounds e → (length (m_buffer e) - m_cursor e <= turns)%nat →
  m_buffer (delete_to_end turns e) = take (m_cursor e) (m_buffer e) ∧
  m_cursor (delete_to_end turns e) = m_cursor e.
Proof.
  revert e. induction turns as [|turns IH]; intros e Hc Hturns;
    unfold cursor_in_bounds in *; cbn [delete_to_end].
  - split; [|done]. rewrite take_ge; [done|lia].
  - destruct (Nat.ltb_spec (m_cursor e) (length (m_buffer e))) as [Hlt|Hge].
    + destruct (do_delete_text e Hlt) as [Hb Hcur].
      assert (Hlen : length (m_buffer (do_delete e)) = (length (m_buffer e) - 1)%nat).
      { rewrite Hb. rewrite length_delete; [done|]. by apply lookup_lt_is_Some. }
      destruct (IH (do_delete e)) as [-> ->]; unfold cursor_in_bounds; [lia..|].
      split; [|done]. rewrite Hb, Hcur, delete_take_drop.
      by rewrite take_app_length' by (rewrite length_take; lia).
    + split; [|done]. rewrite take_ge; [done|lia].
Qed.

Lemma iter_remove_first_text (n : nat) (e : Editor) :
  m_buffer (Nat.iter n (remove_at_index 0) e) = drop n (m_buffer e) ∧
  m_cursor (Nat.iter n (remove_at_index 0) e) = m_cursor e.
Proof.
  induction n as [|n [IHb IHc]]; [done|]. rewrite Nat.iter_succ.
  destruct (remove_at_index_text 0 (Nat.iter n (remove_at_index 0) e)) as [-> ->].
  rewrite IHb, IHc. split; [|done].
  rewrite delete_take_drop, take_0, app_nil_l, drop_drop. f_equal. lia.
Qed.

(** X3. ^K deletes from the cursor to the end of the buffer and leaves
    the cursor where it is. *)
Theorem ctrl_K_kills_to_end (e : Editor) :
  m_finish e = false → m_state e = InputState.Free →
  default_control_characters (m_termios e) → cursor_in_bounds e →
  ∃ e', handle_read_event utf8_encode utf8_decode [11] e = Some e' ∧
        m_buffer e' = take (m_cursor e) (m_buffer e) ∧ m_cursor e' = m_cursor e.
Proof.
  intros Hfin Hstate Hdef Hc.
  exists (delete_to_end (length (m_buffer e)) (set_m_search_offset 0 e)). split.
  - unfold handle_read_event. cbn [handle_code_points]. rewrite Hfin.
    rewrite handle_code_point_free by done.
    destruct Hdef as (Heof & Herase & Hwerase & Hkill). unfold handle_key.
    cbn [reverse_tab m_termios set_m_search_offset].
    rewrite Heof, Herase, Hwerase, Hkill. reflexivity.
  - apply (delete_to_end_text _ (set_m_search_offset 0 e)); [exact Hc|cbn; lia].
Qed.

(** X4. The kill character (^U) deletes the text before the cursor and
    puts the cursor at 0; the text from the cursor on stays. *)
Theorem kill_character_deletes_to_start (e : Editor) :
  m_finish e = false → m_state e = InputState.Free →
  default_control_characters (m_termios e) → cursor_in_bounds e →
  ∃ e', handle_read_event utf8_encode utf8_decode [21] e = Some e' ∧
        m_buffer e' = drop (m_cursor e) (m_buffer e) ∧ m_cursor e' = 0%nat.
Proof.
  intros Hfin Hstate Hdef _.
  exists (set_m_refresh_needed true
            (set_m_cursor 0%nat
               (Nat.iter (m_cursor e) (remove_at_index 0) (set_m_search_offset 0 e)))).
  split.
  - unfold handle_read_event. cbn [handle_code_points]. rewrite Hfin.
    rewrite handle_code_point_free by done.
    destruct Hdef as (Heof & Herase & Hwerase & Hkill). unfold handle_key.
    cbn [reverse_tab m_termios set_m_search_offset].
    rewrite Heof, Herase, Hwerase, Hkill. reflexivity.
  - cbn [m_buffer m_cursor set_m_refresh_needed set_m_cursor].
    split; [|done].
    apply (iter_remove_first_text (m_cursor e) (set_m_search_offset 0 e)).
Qed.

Lemma swap_at_adjacent (pre post : list Z) (x y : Z) :
  swap_at (S (length pre)) (length pre) (pre ++ x :: y :: post) = pre ++ y :: x :: post.
Proof.
  unfold swap_at.
  rewrite (lookup_app_r pre) by lia. replace (S (length pre) - length pre)%nat with 1%nat by lia.
  rewrite list_lookup_middle by done. cbn [lookup list_lookup].
  rewrite (insert_app_r_alt pre _ (length pre)) by lia.
  rewrite Nat.sub_diag. cbn [insert list_insert].
  rewrite (insert_app_r_alt pre _ (S (length pre))) by lia.
  replace (S (length pre) - length pre)%nat with 1%nat by lia. reflexivity.
Qed.

(** X5. ^T swaps the code point before the cursor with the one at the
    cursor and moves the cursor past both; at the end of the buffer it
    swaps the last two code points. *)
Theorem ctrl_T_transposes (pre post : list Z) (x y : Z) (e : Editor) :
  m_finish e = false → m_state e = InputState.Free →
  default_control_characters (m_termios e) →
  m_buffer e = pre ++ x :: y :: post →
  m_cursor e = S (length pre) ∨ (m_cursor e = S (S (length pre)) ∧ post = []) →
  ∃ e', handle_read_event utf8_encode utf8_decode [20] e = Some e' ∧
        m_buffer e' = pre ++ y :: x :: post ∧ m_cursor e' = S (S (length pre)).
Proof.
  intros Hfin Hstate Hdef Hb Hc.
  assert (Hlen : length (m_buffer e) = (length pre + 2 + length post)%nat).
  { rewrite Hb, length_app. cbn. lia. }
  assert (Hrun : handle_read_event utf8_encode utf8_decode [20] e =
    Some (let e0 := set_m_search_offset 0 e in
          let e1 := if (m_cursor e0 <? length (m_buffer e0))%nat
                    then set_m_cursor (S (m_cursor e0)) e0 else e0 in
          set_m_refresh_needed true
            (set_m_buffer (swap_at (m_cursor e1 - 1) (m_cursor e1 - 2) (m_buffer e1)) e1))).
  { unfold handle_read_event. cbn [handle_code_points]. rewrite Hfin.
    rewrite handle_code_point_free by done.
    destruct Hdef as (Heof & Herase & Hwerase & Hkill). unfold handle_key.
    cbn [reverse_tab m_termios set_m_search_offset m_cursor m_buffer].
    rewrite Heof, Herase, Hwerase, Hkill.
    destruct (Nat.ltb_spec 0 (m_cursor e)); [|lia].
    destruct (Nat.leb_spec 2 (length (m_buffer e))); [|lia]. reflexivity. }
  eexists. split; [exact Hrun|]. cbv zeta.
  cbn [m_cursor m_buffer set_m_search_offset].
  destruct Hc as [Hc|[Hc ->]].
  - destruct (Nat.ltb_spec (m_cursor e) (length (m_buffer e))); [|lia].
    cbn [m_cursor m_buffer set_m_cursor set_m_buffer set_m_refresh_needed].
    change (m_buffer (set_m_search_offset 0 e)) with (m_buffer e).
    try change (m_cursor (set_m_search_offset 0 e)) with (m_cursor e).
    rewrite Hc, Hb. replace (S (S (length pre)) - 1)%nat with (S (length pre)) by lia.
    replace (S (S (length pre)) - 2)%nat with (length pre) by lia.
    by rewrite swap_at_adjacent.
  - destruct (Nat.ltb_spec (m_cursor e) (length (m_buffer e))); [cbn in Hlen; lia|].
    cbn [m_cursor m_buffer set_m_cursor set_m_buffer set_m_refresh_needed].
    change (m_buffer (set_m_search_offset 0 e)) with (m_buffer e).
    try change (m_cursor (set_m_search_offset 0 e)) with (m_cursor e).
    rewrite Hc, Hb. replace (S (S (length pre)) - 1)%nat with (S (length pre)) by lia.
    replace (S (S (length pre)) - 2)%nat with (length pre) by lia.
    by rewrite swap_at_adjacent.
Qed.

(** ** History recall *)

(** What [search] leaves behind when it scans: the history and the
    search offset are untouched; on a miss the bell rings and the buffer
    is empty; on a hit the buffer holds the entry selected. *)
Lemma search_outcome (phrase : list Z) (allow_empty from_beginning : bool) (e : Editor) :
  (m_history_cursor e <= length (m_history e))%nat → 0 <= m_search_offset e →
  allow_empty || (0 <? length phrase)%nat = true →
  let matches :=
    matching_entries (m_history e) (m_history_cursor e) phrase from_beginning in
  let r := search utf8_encode utf8_decode phrase allow_empty from_beginning e in
  (m_history r.2 = m_history e ∧ m_history_cursor r.2 = m_history_cursor e ∧
   m_search_offset r.2 = m_search_offset e) ∧
  match matches with
  | [] =>
      r.1 = false ∧ m_buffer r.2 = [] ∧ m_cursor r.2 = 0%nat ∧
      m_stderr r.2 = m_stderr e ++ [BEL]
  | _ :: _ =>
      ∃ entry,
        matches !! (Z.to_nat (m_search_offset e) `min` (length matches - 1))%nat
          = Some entry ∧
        r.1 = true ∧ m_buffer r.2 = utf8_decode entry ∧
        m_cursor r.2 = length (utf8_decode entry) ∧ m_stderr r.2 = m_stderr e
  end.
Proof.
  intros Hcur Hoff Hscan. cbv zeta. unfold search. rewrite Hscan.
  pose proof (search_scan_selects (m_history e) phrase from_beginning
                (m_history_cursor e) (m_search_offset e) (-1) Hcur Hoff) as Hsel.
  cbv zeta in Hsel.
  destruct (matching_entries (m_history e) (m_history_cursor e) phrase from_beginning)
    as [|m ms] eqn:Hmatches.
  - rewrite Hsel. done.
  - destruct Hsel as (j & -> & Hj).
    destruct (lookup_lt_is_Some_2 (m :: ms)
                (Z.to_nat (m_search_offset e) `min` (length (m :: ms) - 1))%nat)
      as [entry Hentry]; [cbn; lia|].
    rewrite Hentry in Hj.
    destruct (Z.eqb_spec (Z.of_nat j) (-1)); [lia|].
    destruct (Z.leb_spec 0 (Z.of_nat j)); [|lia].
    cbn [fst snd m_history set_m_cursor set_m_buffer].
    rewrite Nat2Z.id, Hj. cbn [default]. unfold id.
    set (e3 := set_m_cursor 0%nat (set_m_buffer [] e)).
    destruct (insert_string_same_session utf8_encode utf8_decode entry e3)
      as (_ & _ & Hstderr & _ & _ & Hh & Hhc & Hso & _).
    destruct (insert_string_at_end utf8_encode utf8_decode entry e3 eq_refl) as [Hb Hc].
    cbn [m_stderr m_buffer m_cursor m_history m_history_cursor m_search_offset
         set_m_refresh_needed].
    rewrite Hh, Hhc, Hso, Hstderr, Hb, Hc. split; [done|]. by exists entry.
Qed.

Lemma starts_with_nil (s : list Z) : starts_with s [] = true.
Proof. by destruct s. Qed.

Lemma matching_entries_empty_phrase (history : list (list Z)) (i : nat) :
  matching_entries history i [] true = reverse (take i history).
Proof.
  unfold matching_entries. induction (reverse (take i history)) as [|x l IH]; [done|].
  cbn. by rewrite starts_with_nil, IH.
Qed.

(** One arrow-up on a prompt whose search cursor is at 0: every entry
    matches the empty phrase and the entry at the search offset, or the
    oldest, is recalled. *)
Lemma do_search_backwards_recalls (e : Editor) :
  utf8_encode [] = [] →
  m_history_cursor e = length (m_history e) → m_history e ≠ [] →
  m_inline_search_cursor e = 0%nat → 0 <= m_search_offset e →
  let e' := do_search_backwards utf8_encode utf8_decode e in
  (m_history e' = m_history e ∧ m_history_cursor e' = m_history_cursor e ∧
   m_inline_search_cursor e' = 0%nat ∧
   m_search_offset e' = wrap32 (m_search_offset e + 1)) ∧
  ∃ entry,
    reverse (m_history e)
      !! (Z.to_nat (m_search_offset e) `min` (length (m_history e) - 1))%nat
      = Some entry ∧
    m_buffer e' = utf8_decode entry ∧ m_cursor e' = length (utf8_decode entry).
Proof.
  intros Henc Hhc Hne Hisc Hoff. cbv zeta. unfold do_search_backwards. cbv zeta.
  cbn [m_inline_search_cursor m_buffer set_m_searching_backwards].
  rewrite Hisc, take_0, Henc.
  pose proof (search_outcome [] true true (set_m_searching_backwards true e)) as Hs.
  cbn [m_history m_history_cursor m_search_offset m_stderr set_m_searching_backwards] in Hs.
  specialize (Hs ltac:(lia) Hoff eq_refl). cbv zeta in Hs.
  rewrite matching_entries_empty_phrase, Hhc, firstn_all in Hs.
  destruct (search utf8_encode utf8_decode [] true true
              (set_m_searching_backwards true e)) as [found e2].
  cbn [fst snd] in Hs. destruct Hs as [(Hh & Hc & Hso) Hs].
  destruct (reverse (m_history e)) as [|m ms] eqn:Hrev.
  { apply (f_equal length) in Hrev. rewrite length_reverse in Hrev.
    destruct (m_history e); [done|discriminate]. }
  destruct Hs as (entry & Hentry & -> & Hb & Hcur & _).
  cbn [m_history m_history_cursor m_inline_search_cursor m_search_offset m_buffer m_cursor
       set_m_inline_search_cursor set_m_search_offset].
  rewrite Hh, Hc, Hso. split; [done|]. exists entry.
  split; [|done]. rewrite <- Hentry. f_equal.
  apply (f_equal length) in Hrev. rewrite length_reverse in Hrev. rewrite Hrev. done.
Qed.

(** X6. On a prompt with nothing typed, pressing arrow-up [k + 1] times
    recalls the [(k + 1)]-th newest history entry, and stays on the oldest
    entry once the history is exhausted. *)
Theorem arrow_up_walks_history (k : nat) (e : Editor) :
  utf8_encode [] = [] →
  m_history_cursor e = length (m_history e) → m_history e ≠ [] →
  m_inline_search_cursor e = 0%nat → m_search_offset e = 0 →
  Z.of_nat k < 2 ^ 32 →
  ∃ entry,
    reverse (m_history e) !! (k `min` (length (m_history e) - 1))%nat = Some entry ∧
    m_buffer (Nat.iter (S k) (do_search_backwards utf8_encode utf8_decode) e)
      = utf8_decode entry ∧
    m_cursor (Nat.iter (S k) (do_search_backwards utf8_encode utf8_decode) e)
      = length (utf8_decode entry).
Proof.
  intros Henc Hhc Hne Hisc Hoff Hk.
  assert (Hinv : ∀ n, Z.of_nat n < 2 ^ 32 →
    let en := Nat.iter n (do_search_backwards utf8_encode utf8_decode) e in
    m_history en = m_history e ∧ m_history_cursor en = m_history_cursor e ∧
    m_inline_search_cursor en = 0%nat ∧ m_search_offset en = Z.of_nat n).
  { induction n as [|n IH]; intros Hn; cbv zeta.
    - cbn. by rewrite Hoff.
    - rewrite Nat.iter_succ.
      destruct (IH ltac:(lia)) as (Hh & Hc & Hi & Ho).
      destruct (do_search_backwards_recalls
                  (Nat.iter n (do_search_backwards utf8_encode utf8_decode) e))
        as [(Hh' & Hc' & Hi' & Ho') _]; try done.
      + by rewrite Hc, Hh.
      + by rewrite Hh.
      + rewrite Ho. lia.
      + rewrite Hh', Hc', Hi', Ho', Ho, Hh, Hc.
        rewrite wrap32_small by lia. repeat split; lia. }
  destruct (Hinv k Hk) as (Hh & Hc & Hi & Ho).
  rewrite Nat.iter_succ.
  destruct (do_search_backwards_recalls
              (Nat.iter k (do_search_backwards utf8_encode utf8_decode) e))
    as [_ (entry & Hentry & Hb & Hcur)]; try done.
  - by rewrite Hc, Hh.
  - by rewrite Hh.
  - rewrite Ho. lia.
  - exists entry. rewrite Hh, Ho, Nat2Z.id in Hentry. done.
Qed.


(** ** Span tables under [stylize], [strip_styles] and edits *)

(** X8. [stylize] with a style that is not empty records the code-point
    span with that style in the pair of tables the style selects
    (anchored or not), keyed by start and keyed by end, leaves every other
    span of that pair as it was and does not touch the other pair. *)
Theorem stylize_records_span (s0 e0 : Z) (style : Style) (ed : Editor) :
  is_empty style = false →
  let ed' := stylize (mkSpan s0 e0 CodepointOriented) style ed in
  let starting e := if is_anchored style then m_anchored_spans_starting e
                    else m_spans_starting e in
  let ending e := if is_anchored style then m_anchored_spans_ending e
                  else m_spans_ending e in
  let other_starting e := if is_anchored style then m_spans_starting e
                          else m_anchored_spans_starting e in
  let other_ending e := if is_anchored style then m_spans_ending e
                        else m_anchored_spans_ending e in
  span_style (starting ed') s0 e0 = Some style ∧
  span_style (ending ed') e0 s0 = Some style ∧
  (∀ s e, (s, e) ≠ (s0, e0) →
     span_style (starting ed') s e = span_style (starting ed) s e ∧
     span_style (ending ed') e s = span_style (ending ed) e s) ∧
  other_starting ed' = other_starting ed ∧ other_ending ed' = other_ending ed.
Proof.
  intros He. cbv zeta. unfold stylize. rewrite He.
  cbn [Span_mode beginning Span_end].
  destruct (is_anchored style);
    cbn [m_anchored_spans_starting m_anchored_spans_ending m_spans_starting m_spans_ending
         set_m_anchored_spans_starting set_m_anchored_spans_ending set_m_spans_starting
         set_m_spans_ending set_m_refresh_needed];
    rewrite !span_style_insert, !decide_True by done;
    (split; [done|]); (split; [done|]); (split; [|done]);
    intros s e Hne; rewrite !span_style_insert;
    rewrite !decide_False by (intros [-> ->]; done); done.
Qed.

Lemma stylize_keeps_mirror (span : Span) (style : Style) (e : Editor) :
  editor_tables_mirror e → editor_tables_mirror (stylize span style e).
Proof.
  intros [Hu Ha]. unfold stylize. destruct (is_empty style); [done|].
  destruct (match Span_mode span with
            | ByteOriented => _
            | CodepointOriented => _
            end) as [start end_].
  unfold editor_tables_mirror, tables_mirror in *.
  destruct (is_anchored style); cbn; split; try done;
    intros s en; rewrite !span_style_insert;
    (destruct (decide (s = start ∧ en = end_)) as [[-> ->]|Hne];
     [by rewrite decide_True|rewrite decide_False by tauto]); done.
Qed.

Lemma foldl_stylize_keeps_mirror (relocations : list Anchor) (e : Editor) :
  editor_tables_mirror e →
  editor_tables_mirror
    (foldl (fun ed relocation =>
              stylize (new_span relocation) (Anchor_style relocation) ed)
           e relocations).
Proof.
  revert e. induction relocations as [|x relocations IH]; intros e H; cbn; [done|].
  by apply IH, stylize_keeps_mirror.
Qed.

(** X9. The table keyed by start and the table keyed by end stay mirror
    images of each other, span by span and style by style, under
    [stylize] (whatever the span and the style), under [strip_styles] and
    under the relocation pass of an edit. *)
Theorem span_tables_stay_mirrored (e : Editor) :
  editor_tables_mirror e →
  (∀ span style, editor_tables_mirror (stylize span style e)) ∧
  (∀ strip_anchored, editor_tables_mirror (strip_styles strip_anchored e)) ∧
  (∀ h k, editor_tables_mirror (readjust_anchored_styles h k e)).
Proof.
  intros Hm. split; [|split].
  - intros span style. by apply stylize_keeps_mirror.
  - intros [|]; destruct Hm as [Hu Ha]; by split.
  - intros h k. unfold readjust_anchored_styles. apply foldl_stylize_keeps_mirror.
    destruct Hm as [Hu Ha]. by split.
Qed.

Lemma relocate_anchor_forced (h s e : Z) (style : Style) :
  relocate_anchor h ForcedOverlapRemoval s e style =
    (fun p : Z * Z =>
       mkAnchor (mkSpan s e CodepointOriented) (mkSpan p.1 p.2 CodepointOriented) style)
      <$> forced_relocated_span h s e.
Proof.
  unfold relocate_anchor, forced_relocated_span, index_shift.
  rewrite andb_false_r. cbn [andb].
  destruct (Z.leb_spec s h), (Z.ltb_spec h e), (Z.leb_spec h s); cbn [andb];
    repeat case_bool_decide; try lia; done.
Qed.

(** X10. [ForcedOverlapRemoval] at [h] drops exactly the anchored spans
    that contain [h]; of the others, those that start at or after [h] are
    shifted down by one, although no text is removed, and those that end
    at or before [h] stay. *)
Theorem forced_overlap_removal_spans (h : Z) (ed : Editor) (s' e' : Z) :
  anchored_table_ok (m_anchored_spans_starting ed) →
  has_span (m_anchored_spans_starting (readjust_anchored_styles h ForcedOverlapRemoval ed))
    s' e' ↔
  ∃ s e, has_span (m_anchored_spans_starting ed) s e ∧
         forced_relocated_span h s e = Some (s', e').
Proof.
  intros Hok. unfold readjust_anchored_styles.
  match goal with
  | |- context [foldl ?f ?e0 ?l] =>
      destruct (has_span_foldl_stylize l e0 s' e') as [H1 _]
  end.
  - apply Forall_forall. intros r Hr.
    apply list_elem_of_omap in Hr as ([[s e] st] & Hin & Hr).
    apply elem_of_anchored_entries in Hin.
    destruct (proj1 (anchored_table_ok_lookup _) Hok _ _ _ Hin) as [Ha He].
    rewrite relocate_anchor_forced in Hr.
    destruct (forced_relocated_span h s e) as [[s1 e1]|]; [|done].
    cbn in Hr. by simplify_eq.
  - cbv zeta in H1. rewrite H1. cbn. split.
    + intros [[st H]|(r & Hr & <- & <-)]; [done|].
      apply list_elem_of_omap in Hr as ([[s e] st] & Hin & Hr).
      apply elem_of_anchored_entries in Hin.
      rewrite relocate_anchor_forced in Hr.
      destruct (forced_relocated_span h s e) as [[s1 e1]|] eqn:Hrel; [|done].
      cbn in Hr. simplify_eq. exists s, e. split; [by eexists|done].
    + intros (s & e & [st Hst] & Hrel). right.
      eexists (mkAnchor _ (mkSpan s' e' CodepointOriented) st).
      split; [|done]. apply list_elem_of_omap. exists (s, e, st).
      split; [by apply elem_of_anchored_entries|].
      rewrite relocate_anchor_forced. by rewrite Hrel.
Qed.

Lemma remove_at_index_anchored_spans_starting (i : nat) (e : Editor) :
  m_anchored_spans_starting (remove_at_index i e) =
  m_anchored_spans_starting (readjust_anchored_styles (Z.of_nat i) Removal e).
Proof. unfold remove_at_index. cbv zeta. by case_decide. Qed.

Lemma do_backspace_anchored_spans_starting (e : Editor) :
  m_is_searching e = false → m_cursor e ≠ 0%nat →
  m_anchored_spans_starting (do_backspace e) =
  m_anchored_spans_starting
    (readjust_anchored_styles (Z.of_nat (m_cursor e - 1)) Removal e).
Proof.
  intros Hs Hc. unfold do_backspace. rewrite Hs.
  destruct (Nat.eqb_spec (m_cursor e) 0); [done|].
  cbn. apply remove_at_index_anchored_spans_starting.
Qed.

Lemma removal_undoes_insertion (c s e s1 e1 : Z) :
  0 <= c → 0 <= s < 2 ^ 32 - 1 → 0 <= e < 2 ^ 32 - 1 →
  relocated_span c Insertion s e = Some (s1, e1) →
  relocated_span c Removal s1 e1 = Some (s, e).
Proof.
  intros Hc Hs He. unfold relocated_span.
  rewrite bool_decide_eq_false_2 by (by intros [? _]).
  repeat case_bool_decide; intros; simplify_eq;
    rewrite ?wrap32_small in * by lia;
    try (destruct_and?; lia);
    rewrite ?wrap32_small by (rewrite ?wrap32_small by lia; lia);
    try (f_equal; f_equal; lia).
Qed.

(** X11. Typing a code point and erasing it again restores the anchored
    spans: the relocation of the removal undoes the relocation of the
    insertion, for offsets that the shift keeps within [u32]. *)
Theorem backspace_restores_anchored_spans (cp : Z) (ed : Editor) (s e : Z) :
  cursor_in_bounds ed → m_is_searching ed = false →
  anchored_table_ok (m_anchored_spans_starting ed) →
  offsets_in_range (m_anchored_spans_starting ed) →
  Z.of_nat (m_cursor ed) < 2 ^ 32 - 1 →
  has_span (m_anchored_spans_starting (do_backspace (insert utf8_encode cp ed))) s e ↔
  has_span (m_anchored_spans_starting ed) s e.
Proof.
  intros Hc Hsearch Hok Hrange Hcur.
  destruct (insert_text utf8_encode cp ed Hc) as [_ Hcur'].
  destruct (insert_same_session utf8_encode cp ed)
    as (_ & _ & _ & _ & _ & _ & _ & _ & _ & Hs & _).
  rewrite do_backspace_anchored_spans_starting by (rewrite ?Hs, ?Hcur'; done).
  rewrite Hcur'. replace (S (m_cursor ed) - 1)%nat with (m_cursor ed) by lia.
  destruct (anchored_spans_after_readjust (Z.of_nat (m_cursor ed)) Removal (insert utf8_encode cp ed) s e)
    as [-> _]; [done|lia| |].
  { rewrite insert_anchored_spans_starting. apply readjust_anchored_styles_table_ok. }
  assert (Hins : ∀ s1 e1,
    has_span (m_anchored_spans_starting (insert utf8_encode cp ed)) s1 e1 ↔
    ∃ s0 e0, has_span (m_anchored_spans_starting ed) s0 e0 ∧
             relocated_span (Z.of_nat (m_cursor ed)) Insertion s0 e0 = Some (s1, e1)).
  { intros s1 e1. rewrite insert_anchored_spans_starting.
    by destruct (anchored_spans_after_readjust (Z.of_nat (m_cursor ed)) Insertion
      (set_m_pending_chars (m_pending_chars ed ++ utf8_encode [cp]) ed) s1 e1)
      as [-> _]; [done|lia|done|]. }
  split.
  - intros (s1 & e1 & H1 & Hrem). apply Hins in H1 as (s0 & e0 & H0 & Hrel).
    destruct (Hrange _ _ H0) as [Hs0 He0].
    apply removal_undoes_insertion in Hrel; [|lia|done|done].
    rewrite Hrel in Hrem. by simplify_eq.
  - intros H0. destruct (Hrange _ _ H0) as [Hs0 He0].
    assert (∃ p, relocated_span (Z.of_nat (m_cursor ed)) Insertion s e = Some p) as [[s1 e1] Hrel].
    { unfold relocated_span. rewrite bool_decide_eq_false_2 by (by intros [? _]).
      repeat case_bool_decide; eauto. }
    exists s1, e1. split.
    + apply Hins. eauto.
    + apply removal_undoes_insertion in Hrel; [done|lia|done|done].
Qed.

(** X12. [insert] keeps the anchored spans within the buffer: when every
    span [[s, e)] satisfies [0 <= s < e <= size] before a code point is
    inserted at the cursor, every span does so for the longer buffer. *)
Theorem insert_keeps_spans_within (cp : Z) (ed : Editor) :
  cursor_in_bounds ed →
  anchored_table_ok (m_anchored_spans_starting ed) →
  Z.of_nat (length (m_buffer ed)) < 2 ^ 32 - 1 →
  spans_within (m_anchored_spans_starting ed) (Z.of_nat (length (m_buffer ed))) →
  spans_within (m_anchored_spans_starting (insert utf8_encode cp ed))
    (Z.of_nat (length (m_buffer (insert utf8_encode cp ed)))).
Proof.
  unfold cursor_in_bounds. intros Hc Hok Hsize Hw s' e' Hspan.
  destruct (insert_text utf8_encode cp ed Hc) as [-> _].
  rewrite length_app, length_take. cbn [length]. rewrite length_drop.
  rewrite insert_anchored_spans_starting in Hspan.
  apply (anchored_spans_after_readjust (Z.of_nat (m_cursor ed)) Insertion) in Hspan;
    [|done|lia|done].
  destruct Hspan as (s & e & Hse & Hrel). apply Hw in Hse.
  unfold relocated_span in Hrel.
  rewrite bool_decide_eq_false_2 in Hrel by (by intros [? _]).
  repeat case_bool_decide; simplify_eq; rewrite ?wrap32_small by lia; lia.
Qed.

(** X13. [remove_at_index] keeps the anchored spans within the buffer,
    unless the first code point is removed under a longer span that
    starts at 0 (the start of such a span wraps around). *)
Theorem remove_at_index_keeps_spans_within (i : nat) (ed : Editor) :
  (i < length (m_buffer ed))%nat →
  anchored_table_ok (m_anchored_spans_starting ed) →
  Z.of_nat (length (m_buffer ed)) < 2 ^ 32 - 1 →
  spans_within (m_anchored_spans_starting ed) (Z.of_nat (length (m_buffer ed))) →
  (i = 0%nat → ∀ e, has_span (m_anchored_spans_starting ed) 0 e → e = 1) →
  spans_within (m_anchored_spans_starting (remove_at_index i ed))
    (Z.of_nat (length (m_buffer (remove_at_index i ed)))).
Proof.
  intros Hi Hok Hsize Hw Hfirst s' e' Hspan.
  destruct (remove_at_index_text i ed) as [-> _].
  rewrite length_delete by (by apply lookup_lt_is_Some_2).
  rewrite remove_at_index_anchored_spans_starting in Hspan.
  apply (anchored_spans_after_readjust (Z.of_nat i) Removal) in Hspan;
    [|done|lia|done].
  destruct Hspan as (s & e & Hse & Hrel). pose proof (Hw _ _ Hse) as Hb.
  unfold relocated_span in Hrel.
  destruct (decide (s = 0 ∧ i = 0%nat)) as [[-> ->]|Hne].
  { rewrite (Hfirst eq_refl _ Hse) in Hrel.
    by rewrite bool_decide_eq_true_2 in Hrel. }
  repeat case_bool_decide; simplify_eq; rewrite ?wrap32_small by lia; lia.
Qed.

Lemma stylize_anchored_keeps_unanchored (span : Span) (style : Style) (e : Editor) :
  is_anchored style = true →
  m_spans_starting (stylize span style e) = m_spans_starting e ∧
  m_spans_ending (stylize span style e) = m_spans_ending e.
Proof.
  intros Ha. unfold stylize. destruct (is_empty style); [done|].
  destruct (match Span_mode span with
            | ByteOriented => _
            | CodepointOriented => _
            end) as [start end_].
  by rewrite Ha.
Qed.

Lemma foldl_stylize_anchored_keeps_unanchored (relocations : list Anchor) (e : Editor) :
  Forall (fun r => is_anchored (Anchor_style r) = true) relocations →
  let e' := foldl (fun ed relocation =>
                     stylize (new_span relocation) (Anchor_style relocation) ed)
                  e relocations in
  m_spans_starting e' = m_spans_starting e ∧ m_spans_ending e' = m_spans_ending e.
Proof.
  cbv zeta. revert e. induction relocations as [|x l IH]; intros e H; cbn; [done|].
  inversion H as [|?? Hx Hl]; subst.
  destruct (IH (stylize (new_span x) (Anchor_style x) e) Hl) as [-> ->].
  by apply stylize_anchored_keeps_unanchored.
Qed.

Lemma readjust_keeps_unanchored (h : Z) (k : ModificationKind) (e : Editor) :
  anchored_table_ok (m_anchored_spans_starting e) →
  m_spans_starting (readjust_anchored_styles h k e) = m_spans_starting e ∧
  m_spans_ending (readjust_anchored_styles h k e) = m_spans_ending e.
Proof.
  intros Hok. unfold readjust_anchored_styles.
  match goal with
  | |- context [foldl ?f ?e0 ?l] =>
      destruct (foldl_stylize_anchored_keeps_unanchored l e0) as [-> ->]; [|done]
  end.
  apply Forall_forall. intros r Hr.
  apply list_elem_of_omap in Hr as ([[s en] st] & Hin & Hr).
  apply elem_of_anchored_entries in Hin.
  destruct (proj1 (anchored_table_ok_lookup _) Hok _ _ _ Hin) as [Ha He].
  unfold relocate_anchor in Hr.
  repeat match type of Hr with
         | context [if ?c then _ else _] => destruct c
         end; by simplify_eq.
Qed.

(** X14. Edits leave the spans that are not anchored where they are:
    inserting a code point at the cursor and removing the code point at
    an index change neither of the two tables of unanchored spans,
    wherever in the buffer the edit takes place. *)
Theorem edits_keep_unanchored_spans (cp : Z) (i : nat) (ed : Editor) :
  anchored_table_ok (m_anchored_spans_starting ed) →
  cursor_in_bounds ed → (i < length (m_buffer ed))%nat →
  (m_spans_starting (insert utf8_encode cp ed) = m_spans_starting ed ∧
   m_spans_ending (insert utf8_encode cp ed) = m_spans_ending ed) ∧
  (m_spans_starting (remove_at_index i ed) = m_spans_starting ed ∧
   m_spans_ending (remove_at_index i ed) = m_spans_ending ed).
Proof.
  intros Hok _ _. split.
  - unfold insert. cbv zeta.
    destruct (readjust_keeps_unanchored (Z.of_nat (m_cursor ed)) Insertion
      (set_m_pending_chars (m_pending_chars ed ++ utf8_encode [cp]) ed) Hok) as [H1 H2].
    by destruct (_ =? _)%nat.
  - unfold remove_at_index. cbv zeta.
    destruct (readjust_keeps_unanchored (Z.of_nat i) Removal ed Hok) as [H1 H2].
    by case_decide.
Qed.

(** ** Styles applicable at an offset *)

Lemma unify_with_flags (a b : Style) (p : bool) :
  bold (unify_with a b p) = bold a || bold b ∧
  italic (unify_with a b p) = italic a || italic b ∧
  underline (unify_with a b p) = underline a || underline b.
Proof.
  unfold unify_with, bold, italic, underline.
  destruct (m_bold b), (m_italic b), (m_underline b); cbn;
    repeat match goal with
           | |- context [if ?c then _ else _] => destruct c
           end; cbn;
    rewrite ?orb_true_r, ?orb_false_r; done.
Qed.

Lemma unify_ends_flag (flag : Style → bool) (offset : Z) (ends : list (Z * Style))
    (style : Style) :
  (∀ a b p, flag (unify_with a b p) = flag a || flag b) →
  flag (unify_ends offset style ends) = true →
  flag style = true ∨
  ∃ en st, (en, st) ∈ ends ∧ offset < en ∧ flag st = true.
Proof.
  intros Hflag. revert style.
  induction ends as [|[en st] ends IH]; intros style H; cbn [unify_ends] in H; [by left|].
  destruct (Z.leb_spec en offset); [by left|].
  apply IH in H as [H|(en' & st' & Hin & Hlt & Hf)].
  - rewrite Hflag in H. apply orb_true_iff in H as [H|H]; [by left|].
    right. exists en, st. split; [apply list_elem_of_here|done].
  - right. exists en', st'. split; [by apply list_elem_of_further|done].
Qed.

Lemma foldl_unify_entry_flag (flag : Style → bool) (offset : Z)
    (table : gmap Z (gmap Z Style)) (style : Style) :
  (∀ a b p, flag (unify_with a b p) = flag a || flag b) →
  flag (foldl (unify_entry offset) style (map_to_list table)) = true →
  flag style = true ∨
  ∃ s en st, span_style table s en = Some st ∧ s < offset < en ∧ flag st = true.
Proof.
  intros Hflag.
  assert (Hin : ∀ entry, entry ∈ map_to_list table → table !! entry.1 = Some entry.2).
  { intros [s ends]. apply elem_of_map_to_list. }
  revert Hin style. generalize (map_to_list table).
  induction l as [|entry l IH]; intros Hin style H; cbn in H; [by left|].
  apply IH in H as [H|H]; [|by right|].
  - unfold unify_entry in H. destruct (Z.leb_spec offset entry.1); [by left|].
    apply (unify_ends_flag flag) in H as [H|(en & st & Hen & Hlt & Hf)]; [by left| |done].
    right. exists entry.1, en, st. split; [|done].
    unfold span_style. rewrite (Hin entry) by apply list_elem_of_here. cbn.
    by apply elem_of_map_to_list.
  - intros e' He'. apply Hin. by apply list_elem_of_further.
Qed.

(** X15. [find_applicable_style] raises the bold, the italic or the
    underline flag at an offset only if a span of the editor's tables that
    has the flag starts before the offset and ends after it; a span that
    starts or ends at the offset does not count. *)
Theorem find_applicable_style_sound (flag : Style → bool) (offset : Z) (e : Editor) :
  flag ∈ [bold; italic; underline] →
  flag (find_applicable_style offset e) = true → covering_style flag offset e.
Proof.
  intros Hin Hf.
  assert (Hflag : ∀ a b p, flag (unify_with a b p) = flag a || flag b).
  { intros a b p. destruct (unify_with_flags a b p) as (Hb & Hi & Hu).
    repeat (apply elem_of_cons in Hin as [->|Hin]; [done|]).
    by apply elem_of_nil in Hin. }
  assert (Hreset : flag reset_style = false).
  { repeat (apply elem_of_cons in Hin as [->|Hin]; [done|]).
    by apply elem_of_nil in Hin. }
  unfold find_applicable_style in Hf.
  apply foldl_unify_entry_flag in Hf as [Hf|(s & en & st & Hs & Hlt & Hst)]; [|by
    exists s, en, st; eauto|done].
  apply foldl_unify_entry_flag in Hf as [Hf|(s & en & st & Hs & Hlt & Hst)]; [|by
    exists s, en, st; eauto|done].
  congruence.
Qed.

(** ** Metrics of texts without escapes *)

Lemma rendered_length_loop_line (l rest : list Z) (metrics : StringMetrics) (n : nat) :
  plain_line l →
  rendered_length_loop (l ++ rest) metrics n VTState.Free =
  rendered_length_loop rest
    (mkStringMetrics (line_lengths metrics) (total_length metrics + length l)
       (max_line_length metrics))
    (n + length l) VTState.Free.
Proof.
  revert metrics n. induction l as [|c l IH]; intros metrics n (H27 & H13 & H10).
  - cbn. rewrite !Nat.add_0_r. by destruct metrics.
  - apply not_elem_of_cons in H27 as [? ?], H13 as [? ?], H10 as [? ?].
    cbn [app rendered_length_loop actual_rendered_string_length_step].
    destruct (Z.eqb_spec c 27); [done|]. destruct (Z.eqb_spec c 13); [done|].
    destruct (Z.eqb_spec c 10); [done|].
    rewrite IH by done. cbn [line_lengths total_length max_line_length length].
    f_equal; [f_equal|]; lia.
Qed.

Lemma last_cons_default {A} (l : list A) (a d : A) :
  List.last (a :: l) d = List.last l a.
Proof.
  revert a d. induction l as [|b l IH]; intros a d; [done|].
  change (List.last (a :: b :: l) d) with (List.last (b :: l) d).
  rewrite (IH b d). symmetry. apply IH.
Qed.

Lemma rendered_length_loop_lines (others : list (list Z)) (rest : list Z)
    (metrics : StringMetrics) (n : nat) :
  Forall plain_line others →
  rendered_length_loop (concat (cons 10 <$> others) ++ rest) metrics n VTState.Free =
  rendered_length_loop rest
    (mkStringMetrics
       (line_lengths metrics ++ removelast (n :: (length <$> others)))
       (total_length metrics + sum_list (length <$> others))
       (max_line_length metrics))
    (List.last (length <$> others) n) VTState.Free.
Proof.
  revert metrics n. induction others as [|o others IH]; intros metrics n Hp.
  - cbn. rewrite app_nil_r, Nat.add_0_r. by destruct metrics.
  - inversion Hp as [|?? Ho Hos]; subst.
    cbn [fmap list_fmap concat]. rewrite <- !app_assoc.
    cbn [app rendered_length_loop actual_rendered_string_length_step].
    change (10 =? 27) with false. change (10 =? 13) with false.
    change (10 =? 10) with true. cbn match.
    rewrite rendered_length_loop_line by done.
    rewrite IH by done. cbn [line_lengths total_length max_line_length].
    rewrite <- app_assoc. cbn [sum_list sum_list_with].
    change (0 + length o)%nat with (length o). unfold id.
    rewrite (last_cons_default (length <$> others) (length o) n).
    f_equal. f_equal. lia.
Qed.

Lemma rendered_length_loop_text (first : list Z) (others : list (list Z)) (rest : list Z)
    (metrics : StringMetrics) (n : nat) :
  plain_line first → Forall plain_line others →
  rendered_length_loop (text_of_lines first others ++ rest) metrics n VTState.Free =
  rendered_length_loop rest
    (mkStringMetrics
       (line_lengths metrics ++ removelast ((n + length first)%nat :: (length <$> others)))
       (total_length metrics + length first + sum_list (length <$> others))
       (max_line_length metrics))
    (List.last (length <$> others) (n + length first)%nat) VTState.Free.
Proof.
  intros Hf Ho. unfold text_of_lines. rewrite <- app_assoc.
  rewrite rendered_length_loop_line by done.
  by rewrite rendered_length_loop_lines by done.
Qed.

Lemma foldl_max_list (l : list nat) (acc : nat) :
  foldl (fun acc line => Nat.max line acc) acc l = Nat.max acc (max_list l).
Proof.
  revert acc. induction l as [|x l IH]; intros acc; cbn; [lia|]. rewrite IH. lia.
Qed.

Lemma removelast_last {A} (l : list A) (d : A) :
  l ≠ [] → removelast l ++ [List.last l d] = l.
Proof. intros H. symmetry. by apply app_removelast_last. Qed.

Lemma line_lengths_of_plain_lines (first : list Z) (others : list (list Z)) :
  plain_line first → Forall plain_line others →
  line_lengths (actual_rendered_string_metrics (text_of_lines first others)) =
    length first :: (length <$> others).
Proof.
  intros Hf Ho. unfold actual_rendered_string_metrics.
  rewrite <- (app_nil_r (text_of_lines first others)).
  rewrite rendered_length_loop_text by done.
  cbn [rendered_length_loop line_lengths app Nat.add].
  rewrite <- (last_cons_default (length <$> others) (length first) 0%nat).
  by rewrite removelast_last.
Qed.

(** X16. On a text without escape characters and carriage returns the
    metrics hold one length per line, in order; the total length is their
    sum and the maximal line length their maximum. *)
Theorem metrics_of_plain_lines (first : list Z) (others : list (list Z)) :
  plain_line first → Forall plain_line others →
  let metrics := actual_rendered_string_metrics (text_of_lines first others) in
  line_lengths metrics = length first :: (length <$> others) ∧
  total_length metrics = sum_list (line_lengths metrics) ∧
  max_line_length metrics = max_list (line_lengths metrics).
Proof.
  intros Hf Ho. cbv zeta. unfold actual_rendered_string_metrics.
  rewrite <- (app_nil_r (text_of_lines first others)).
  rewrite rendered_length_loop_text by done.
  cbn [rendered_length_loop line_lengths total_length max_line_length app Nat.add].
  rewrite <- (last_cons_default (length <$> others) (length first) 0%nat).
  rewrite removelast_last by done.
  rewrite foldl_max_list. split; [done|]. split; [done|]. lia.
Qed.

Lemma set_last_zero_removelast (l : list nat) :
  l ≠ [] → set_last_zero l = removelast l ++ [0%nat].
Proof.
  induction l as [|a l IH]; [done|]. intros _.
  destruct l as [|b l]; [done|].
  change (set_last_zero (a :: b :: l)) with (a :: set_last_zero (b :: l)).
  rewrite IH by done. done.
Qed.

Lemma removelast_snoc {A} (l : list A) (x : A) : removelast (l ++ [x]) = l.
Proof. by rewrite removelast_app, app_nil_r. Qed.

Lemma rendered_length_loop_line_end (l : list Z) (metrics : StringMetrics) (n : nat) :
  plain_line l →
  rendered_length_loop l metrics n VTState.Free =
    (mkStringMetrics (line_lengths metrics) (total_length metrics + length l)
       (max_line_length metrics), (n + length l)%nat).
Proof.
  intros Hl. pose proof (rendered_length_loop_line l [] metrics n Hl) as H.
  by rewrite app_nil_r in H.
Qed.

(** X17. A carriage return zeroes the length of the line before it as
    well as the running length of its own line: after the lines [first],
    [others], a line [cur], a carriage return and the text [rest], the
    last of the earlier lines counts 0 and the final line counts [rest];
    the total length still counts every code point of every line. *)
Theorem carriage_return_zeroes_previous_line (first : list Z) (others : list (list Z))
    (cur rest : list Z) :
  plain_line first → Forall plain_line others → plain_line cur → plain_line rest →
  let metrics :=
    actual_rendered_string_metrics
      (text_of_lines first (others ++ [cur]) ++ 13 :: rest) in
  line_lengths metrics =
    removelast (length first :: (length <$> others)) ++ [0%nat; length rest] ∧
  total_length metrics =
    (length first + sum_list (length <$> others) + length cur + length rest)%nat.
Proof.
  intros Hf Ho Hc Hr. cbv zeta. unfold actual_rendered_string_metrics.
  rewrite rendered_length_loop_text by (try apply Forall_app; auto).
  cbn [rendered_length_loop actual_rendered_string_length_step line_lengths total_length
       max_line_length app Nat.add].
  change (13 =? 27) with false. change (13 =? 13) with true. cbn match.
  cbn [line_lengths total_length max_line_length].
  rewrite (rendered_length_loop_line_end rest) by done.
  cbn [rendered_length_loop line_lengths total_length max_line_length app Nat.add].
  rewrite fmap_app. cbn [fmap list_fmap].
  rewrite app_comm_cons, removelast_snoc.
  rewrite set_last_zero_removelast by done. rewrite <- app_assoc.
  split; [done|]. rewrite sum_list_with_app. cbn. lia.
Qed.

Lemma foldl_rows (column_width : nat) (lengths : list nat) (lines : nat) :
  foldl (fun lines length => lines + (length + column_width) / column_width)%nat
    lines lengths = (lines + rows column_width lengths)%nat.
Proof.
  revert lines. unfold rows.
  induction lengths as [|x l IH]; intros lines; cbn; [lia|]. rewrite IH. lia.
Qed.

Lemma take_removelast {A} (l : list A) : take (length l - 1) l = removelast l.
Proof.
  induction l as [|a l IH]; [done|]. destruct l as [|b l]; [done|].
  change (removelast (a :: b :: l)) with (a :: removelast (b :: l)).
  rewrite <- IH. cbn [length].
  replace (S (S (length l)) - 1)%nat with (S (length l)) by lia.
  replace (S (length l) - 1)%nat with (length l) by lia. done.
Qed.

Lemma last_Some_last {A} (l : list A) (d : A) :
  l ≠ [] → last l = Some (List.last l d).
Proof.
  induction l as [|a l IH]; [done|]. intros _.
  destruct l as [|b l]; [done|].
  change (last (a :: b :: l)) with (last (b :: l)).
  change (List.last (a :: b :: l) d) with (List.last (b :: l) d).
  by apply IH.
Qed.

(** X18. [lines_with_addition] counts the rows of the concatenation: for
    two texts without escape characters and carriage returns and a width
    that is not 0, the rows of the first text with the second one added
    are the rows of the lines of the two texts put together, the last
    line of the first text being continued by the first line of the
    second. *)
Theorem lines_with_addition_concatenates (first1 first2 : list Z)
    (others1 others2 : list (list Z)) (column_width : nat) :
  column_width ≠ 0%nat →
  plain_line first1 → Forall plain_line others1 →
  plain_line first2 → Forall plain_line others2 →
  lines_with_addition
    (actual_rendered_string_metrics (text_of_lines first1 others1))
    (actual_rendered_string_metrics (text_of_lines first2 others2)) column_width =
  Some (rows column_width
          (line_lengths
             (actual_rendered_string_metrics
                (text_of_lines first1 others1 ++ text_of_lines first2 others2)))).
Proof.
  intros Hw Hf1 Ho1 Hf2 Ho2.
  pose proof (line_lengths_of_plain_lines first1 others1 Hf1 Ho1) as Hl1.
  pose proof (line_lengths_of_plain_lines first2 others2 Hf2 Ho2) as Hl2.
  unfold lines_with_addition. rewrite Hl1, Hl2.
  set (L1 := length first1 :: (length <$> others1)).
  rewrite (last_Some_last L1 0%nat) by done.
  destruct (Nat.eqb_spec column_width 0); [done|]. f_equal.
  rewrite take_removelast, !foldl_rows.
  unfold actual_rendered_string_metrics.
  rewrite <- (app_nil_r (text_of_lines first2 others2)).
  rewrite !rendered_length_loop_text by done.
  cbn [rendered_length_loop line_lengths app Nat.add].
  rewrite <- (last_cons_default (length <$> others1) (length first1) 0%nat).
  fold L1.
  rewrite <- (last_cons_default (length <$> others2)
                (List.last L1 0 + length first2) 0)%nat.
  rewrite <- app_assoc, removelast_last by done.
  unfold rows. rewrite fmap_app, sum_list_with_app. cbn. lia.
Qed.

(** ** Byte ranges, history and mode *)

Lemma code_point_length_in_utf8_pos (cp : Z) : 1 <= code_point_length_in_utf8 cp.
Proof.
  unfold code_point_length_in_utf8.
  repeat match goal with
         | |- context [if ?c then _ else _] => destruct c
         end; lia.
Qed.

Lemma utf8_length_cons (cp : Z) (l : list Z) :
  utf8_length (cp :: l) = code_point_length_in_utf8 cp + utf8_length l.
Proof. done. Qed.

Lemma utf8_length_nonneg (l : list Z) : 0 <= utf8_length l.
Proof.
  induction l as [|cp l IH]; [done|]. rewrite utf8_length_cons.
  pose proof (code_point_length_in_utf8_pos cp). lia.
Qed.

Lemma utf8_length_app (a b : list Z) :
  utf8_length (a ++ b) = utf8_length a + utf8_length b.
Proof.
  induction a as [|cp a IH]; [done|].
  rewrite <- app_comm_cons, !utf8_length_cons, IH. lia.
Qed.

Lemma byte_offset_scan_before (a l : list Z) (S E o r1 r2 : Z) :
  o + utf8_length a <= S → S <= E →
  byte_offset_scan (a ++ l) S E o (r1, r2) =
  byte_offset_scan l S E (o + utf8_length a)
    (r1 + Z.of_nat (length a), r2 + Z.of_nat (length a)).
Proof.
  revert o r1 r2. induction a as [|cp a IH]; intros o r1 r2 Ho HSE.
  - cbn. by rewrite !Z.add_0_r.
  - rewrite utf8_length_cons in Ho. rewrite utf8_length_cons.
    cbn [app byte_offset_scan length].
    pose proof (code_point_length_in_utf8_pos cp).
    pose proof (utf8_length_nonneg a).
    destruct (Z.ltb_spec E o); [lia|].
    destruct (Z.ltb_spec o S); [|lia]. cbn [fst snd].
    destruct (Z.ltb_spec o E); [|lia]. cbn [fst snd].
    rewrite IH by lia. f_equal; [lia|]. f_equal; lia.
Qed.

Lemma byte_offset_scan_inside (b l : list Z) (S E o r1 r2 : Z) :
  S <= o → o + utf8_length b <= E →
  byte_offset_scan (b ++ l) S E o (r1, r2) =
  byte_offset_scan l S E (o + utf8_length b) (r1, r2 + Z.of_nat (length b)).
Proof.
  revert o r2. induction b as [|cp b IH]; intros o r2 HS Ho.
  - cbn. by rewrite !Z.add_0_r.
  - rewrite utf8_length_cons in Ho. rewrite utf8_length_cons.
    cbn [app byte_offset_scan length].
    pose proof (code_point_length_in_utf8_pos cp).
    pose proof (utf8_length_nonneg b).
    destruct (Z.ltb_spec E o); [lia|].
    destruct (Z.ltb_spec o S); [lia|]. cbn [fst snd].
    destruct (Z.ltb_spec o E); [|lia]. cbn [fst snd].
    rewrite IH by lia. f_equal; [lia|]. f_equal; lia.
Qed.

Lemma byte_offset_scan_after (l : list Z) (S E o : Z) (r : Z * Z) :
  S <= o → E <= o → byte_offset_scan l S E o r = r.
Proof.
  revert o r. induction l as [|cp l IH]; intros o r HS HE; [done|].
  cbn [byte_offset_scan].
  pose proof (code_point_length_in_utf8_pos cp).
  destruct (Z.ltb_spec E o); [done|].
  destruct (Z.ltb_spec o S); [lia|].
  destruct (Z.ltb_spec o E); [lia|].
  apply IH; lia.
Qed.

(** X19. A byte range that starts and ends on code-point boundaries is
    converted to the code-point range of the same text: scanning from the
    end of [pre], the bytes of [b] after the bytes of [a] give the code
    points from the length of [a] to the length of [a ++ b], whatever
    follows. *)
Theorem byte_range_on_boundaries (pre a b post : list Z) :
  byte_offset_range_to_code_point_offset_range (pre ++ a ++ b ++ post)
    (utf8_length a) (utf8_length (a ++ b)) (length pre) =
  (Z.of_nat (length a), Z.of_nat (length (a ++ b))).
Proof.
  unfold byte_offset_range_to_code_point_offset_range.
  rewrite drop_app_length.
  pose proof (utf8_length_nonneg a). pose proof (utf8_length_nonneg b).
  rewrite utf8_length_app.
  rewrite byte_offset_scan_before by lia.
  rewrite byte_offset_scan_inside by lia.
  rewrite byte_offset_scan_after by lia.
  rewrite length_app. f_equal; lia.
Qed.

Lemma add_to_history_latest (m_history_capacity : nat) (line : list Z) (e : Editor) :
  (0 < m_history_capacity)%nat →
  (length (m_history e) <= m_history_capacity)%nat →
  line ≠ [] →
  ∃ e', add_to_history m_history_capacity line e = Some e' ∧
        m_history e' =
          drop (length (m_history e) + 1 - m_history_capacity) (m_history e ++ [line]).
Proof.
  intros Hcap Hlen Hline. unfold add_to_history.
  destruct line as [|c line]; [done|].
  destruct (Nat.ltb_spec m_history_capacity (length (m_history e) + 1)).
  - destruct (m_history e) as [|old rest] eqn:Hh; cbn [length] in *; [lia|].
    eexists. split; [done|]. cbn [m_history set_m_history].
    replace (S (length rest) + 1 - m_history_capacity)%nat with 1%nat by lia. done.
  - eexists. split; [done|]. cbn [m_history set_m_history].
    replace (length (m_history e) + 1 - m_history_capacity)%nat with 0%nat by lia. done.
Qed.

(** X20. The history keeps the latest lines up to its capacity: after
    lines are added one by one to a history within its capacity, empty
    lines being skipped, the history is the last [m_history_capacity]
    entries of the old history continued by the added lines. *)
Theorem add_to_history_keeps_latest (m_history_capacity : nat) (lines : list (list Z))
    (e : Editor) :
  (0 < m_history_capacity)%nat →
  (length (m_history e) <= m_history_capacity)%nat →
  let all := m_history e ++ filter (fun line => line ≠ []) lines in
  ∃ e', add_all_to_history m_history_capacity lines e = Some e' ∧
        m_history e' = drop (length all - m_history_capacity) all.
Proof.
  intros Hcap. cbv zeta. unfold add_all_to_history. revert e.
  induction lines as [|line lines IH]; intros e Hlen.
  - exists e. split; [done|]. rewrite filter_nil, app_nil_r.
    replace (length (m_history e) - m_history_capacity)%nat with 0%nat by lia. done.
  - cbn [foldl mbind option_bind].
    destruct (decide (line = [])) as [->|Hline].
    + rewrite filter_cons_False by (by intros H). by apply IH.
    + rewrite filter_cons_True by done.
      destruct (add_to_history_latest m_history_capacity line e Hcap Hlen Hline)
        as (e1 & -> & Hh1).
      assert (Hlen1 : (length (m_history e1) <= m_history_capacity)%nat).
      { rewrite Hh1, length_drop, length_app. cbn. lia. }
      destruct (IH e1 Hlen1) as (e' & He' & Hh').
      exists e'. split; [done|]. rewrite Hh', Hh1.
      set (rest := filter _ lines).
      set (A := m_history e ++ [line]).
      replace (m_history e ++ line :: rest) with (A ++ rest)
        by (unfold A; by rewrite <- app_assoc).
      assert (HA : length A = (length (m_history e) + 1)%nat).
      { unfold A. rewrite length_app. cbn. lia. }
      rewrite !length_app, length_drop, HA.
      destruct (decide (length (m_history e) + 1 <= m_history_capacity)%nat).
      * replace (length (m_history e) + 1 - m_history_capacity)%nat with 0%nat by lia.
        cbn [drop]. f_equal; lia.
      * replace (length (m_history e) + 1 - m_history_capacity)%nat with 1%nat by lia.
        rewrite <- (drop_app_le A rest 1) by lia. rewrite drop_drop.
        f_equal. lia.
Qed.

Lemma initialize_parts (env : Environment) (e : Editor) :
  m_initialized e = false →
  let e' := initialize env e in
  let mode' := operation_mode (m_configuration e') in
  m_configuration e' = Configuration_set mode' (m_configuration e) ∧
  (operation_mode (m_configuration e) ≠ Unset →
   mode' = operation_mode (m_configuration e)) ∧
  m_termios e' =
    match mode' with
    | Full =>
        mkTermios (Z.land (c_lflag (tcgetattr_0 env)) (Z.lnot (Z.lor ECHO ICANON)))
          (c_cc_VEOF (tcgetattr_0 env)) (c_cc_VERASE (tcgetattr_0 env))
          (c_cc_VWERASE (tcgetattr_0 env)) (c_cc_VKILL (tcgetattr_0 env))
    | _ => tcgetattr_0 env
    end ∧
  m_default_termios e' = tcgetattr_0 env ∧ m_initialized e' = true.
Proof.
  intros Hinit. cbv zeta. unfold initialize. rewrite Hinit.
  destruct (operation_mode (m_configuration e)) eqn:Hmode;
    [destruct (negb _); [|destruct (starts_with _ _)]| | |];
    cbn; rewrite ?Hmode; cbn; repeat split; try done;
    destruct (m_configuration e); cbn in *; by subst.
Qed.

(** X21. [initialize] acts once: on an editor that is not initialized it
    keeps the terminal's attributes as the default ones to restore, keeps
    the control characters, clears exactly the flags ECHO and ICANON when
    the resulting mode is [Full] and no flag otherwise, and keeps a mode
    that the configuration states; a second [initialize] changes nothing,
    whatever the environment has become. *)
Theorem initialize_line_discipline (env env' : Environment) (e : Editor) :
  m_initialized e = false →
  let e' := initialize env e in
  let termios := tcgetattr_0 env in
  m_default_termios e' = termios ∧
  (c_cc_VEOF (m_termios e'), c_cc_VERASE (m_termios e'),
   c_cc_VWERASE (m_termios e'), c_cc_VKILL (m_termios e')) =
  (c_cc_VEOF termios, c_cc_VERASE termios, c_cc_VWERASE termios, c_cc_VKILL termios) ∧
  (∀ i, 0 <= i →
     Z.testbit (c_lflag (m_termios e')) i =
       match operation_mode (m_configuration e') with
       | Full => Z.testbit (c_lflag termios) i && negb (i =? 1) && negb (i =? 3)
       | _ => Z.testbit (c_lflag termios) i
       end) ∧
  (operation_mode (m_configuration e) ≠ Unset →
   m_configuration e' = m_configuration e) ∧
  initialize env' e' = e'.
Proof.
  intros Hinit. cbv zeta.
  destruct (initialize_parts env e Hinit) as (Hconf & Hkeep & Hterm & Hdef & Hdone).
  cbv zeta in *.
  assert (Hbits : ∀ i, 0 <= i →
    Z.testbit (Z.land (c_lflag (tcgetattr_0 env)) (Z.lnot (Z.lor ECHO ICANON))) i =
    Z.testbit (c_lflag (tcgetattr_0 env)) i && negb (i =? 1) && negb (i =? 3)).
  { intros i Hi. rewrite Z.land_spec, Z.lnot_spec by done. rewrite <- andb_assoc. f_equal.
    change (Z.lor ECHO ICANON) with 10.
    destruct (Z.eqb_spec i 1) as [->|]; [done|].
    destruct (Z.eqb_spec i 3) as [->|]; [done|].
    destruct (decide (i = 0)) as [->|]; [done|].
    destruct (decide (i = 2)) as [->|]; [done|].
    rewrite (Z.bits_above_log2 10 i); [done|done|].
    change (Z.log2 10) with 3. lia. }
  split; [done|]. rewrite Hterm. split; [|split; [|split]].
  - by destruct (operation_mode (m_configuration (initialize env e))).
  - intros i Hi.
    destruct (operation_mode (m_configuration (initialize env e))); cbn; auto.
  - intros Hset. rewrite Hconf, (Hkeep Hset). by destruct (m_configuration e).
  - unfold initialize at 1. by rewrite Hdone.
Qed.

(** X22. The cursor stays within the buffer over a whole session: after
    any sequence of read events that the model handles, whatever code
    points they carry and whatever the input state, the cursor is at most
    the size of the buffer. *)
Theorem read_events_keep_cursor_in_bounds (events : list (list Z)) (e e' : Editor) :
  foldl (fun oe input_view => oe ≫= handle_read_event utf8_encode utf8_decode input_view)
    (Some e) events = Some e' →
  cursor_in_bounds e → cursor_in_bounds e'.
Proof.
  revert e. induction events as [|ev events IH]; intros e H Hc.
  - cbn in H. by simplify_eq.
  - cbn [foldl mbind option_bind] in H.
    destruct (handle_read_event utf8_encode utf8_decode ev e) as [e1|] eqn:He1.
    + eapply IH; [exact H|]. by eapply handle_read_event_cursor_in_bounds.
    + exfalso. clear -H. induction events as [|x l IHl]; [done|]. by apply IHl.
Qed.


End Editing_properties.

(** ** The further properties at concrete inputs *)

Lemma underlined_spans (s0 e0 : Z) (cursor : nat) (s e : Z) :
  has_span (m_anchored_spans_starting (underlined s0 e0 cursor)) s e ↔ s = s0 ∧ e = e0.
Proof.
  unfold has_span, underlined, stylize. cbn.
  rewrite span_style_insert. case_decide as H.
  - split; [done|]. by eexists.
  - split; [|done]. intros [st Hst]. unfold span_style in Hst.
    by rewrite lookup_empty in Hst.
Qed.

Lemma underlined_table_ok (s0 e0 : Z) (cursor : nat) :
  anchored_table_ok (m_anchored_spans_starting (underlined s0 e0 cursor)).
Proof.
  apply anchored_table_ok_lookup. intros s e st Hst.
  assert (Hspan : has_span (m_anchored_spans_starting (underlined s0 e0 cursor)) s e)
    by (by exists st).
  apply underlined_spans in Hspan as [-> ->].
  unfold underlined, stylize in Hst. cbn in Hst.
  rewrite span_style_insert, decide_True in Hst by done. by simplify_eq.
Qed.

Lemma underlined_tables_mirror (s0 e0 : Z) (cursor : nat) :
  editor_tables_mirror (underlined s0 e0 cursor).
Proof. apply stylize_keeps_mirror. by split. Qed.


Lemma backspace_undoes_insert_witness :
  let e := underlined 1 3 2 in
  cursor_in_bounds e ∧ m_is_searching e = false ∧
  m_buffer (do_backspace (insert standard_utf8_encode 120 e)) = m_buffer e ∧
  m_cursor (do_backspace (insert standard_utf8_encode 120 e)) = m_cursor e.
Proof.
  cbv zeta.
  assert (Hc : cursor_in_bounds (underlined 1 3 2)) by (unfold cursor_in_bounds; vm_compute; lia).
  split; [exact Hc|]. split; [reflexivity|].
  exact (backspace_undoes_insert standard_utf8_encode 120 (underlined 1 3 2) Hc eq_refl).
Defined.

Lemma ctrl_K_kills_to_end_witness :
  let e := underlined 1 3 2 in
  cursor_in_bounds e ∧
  ∃ e', handle_read_event standard_utf8_encode standard_utf8_decode [11] e = Some e' ∧
        m_buffer e' = take (m_cursor e) (m_buffer e) ∧ m_cursor e' = m_cursor e.
Proof.
  cbv zeta.
  assert (Hc : cursor_in_bounds (underlined 1 3 2)) by (unfold cursor_in_bounds; vm_compute; lia).
  split; [exact Hc|].
  exact (ctrl_K_kills_to_end standard_utf8_encode standard_utf8_decode (underlined 1 3 2)
           eq_refl eq_refl ltac:(repeat split; reflexivity) Hc).
Defined.

Lemma kill_character_deletes_to_start_witness :
  let e := underlined 1 3 2 in
  default_control_characters (m_termios e) ∧
  ∃ e', handle_read_event standard_utf8_encode standard_utf8_decode [21] e = Some e' ∧
        m_buffer e' = drop (m_cursor e) (m_buffer e) ∧ m_cursor e' = 0%nat.
Proof.
  cbv zeta.
  assert (Hd : default_control_characters (m_termios (underlined 1 3 2)))
    by (repeat split; reflexivity).
  split; [exact Hd|].
  exact (kill_character_deletes_to_start standard_utf8_encode standard_utf8_decode
           (underlined 1 3 2) eq_refl eq_refl Hd
           ltac:(unfold cursor_in_bounds; vm_compute; lia)).
Defined.

Lemma ctrl_T_transposes_witness :
  let e := underlined 1 3 3 in
  m_buffer e = bytes_of "ab" ++ 99 :: 100 :: bytes_of "ef" ∧
  ∃ e', handle_read_event standard_utf8_encode standard_utf8_decode [20] e = Some e' ∧
        m_buffer e' = bytes_of "ab" ++ 100 :: 99 :: bytes_of "ef" ∧
        m_cursor e' = S (S (length (bytes_of "ab"))).
Proof.
  cbv zeta. split; [reflexivity|].
  exact (ctrl_T_transposes standard_utf8_encode standard_utf8_decode
           (bytes_of "ab") (bytes_of "ef") 99 100 (underlined 1 3 3)
           eq_refl eq_refl ltac:(repeat split; reflexivity) eq_refl
           (or_introl eq_refl)).
Defined.

Lemma arrow_up_walks_history_witness :
  let e := session_start [bytes_of "ls /"; bytes_of "echo hi"] false in
  m_history e ≠ [] ∧
  ∃ entry,
    reverse (m_history e) !! (1 `min` (length (m_history e) - 1))%nat = Some entry ∧
    m_buffer (Nat.iter 2 (do_search_backwards standard_utf8_encode standard_utf8_decode) e)
      = standard_utf8_decode entry ∧
    m_cursor (Nat.iter 2 (do_search_backwards standard_utf8_encode standard_utf8_decode) e)
      = length (standard_utf8_decode entry).
Proof.
  cbv zeta. split; [discriminate|].
  exact (arrow_up_walks_history standard_utf8_encode standard_utf8_decode 1
           (session_start [bytes_of "ls /"; bytes_of "echo hi"] false)
           eq_refl eq_refl ltac:(discriminate) eq_refl eq_refl ltac:(vm_compute; reflexivity)).
Defined.


Lemma stylize_records_span_witness :
  let ed := stylize (mkSpan 0 2 CodepointOriented) anchored_underline (underlined 1 3 0) in
  span_style (m_anchored_spans_starting ed) 0 2 = Some anchored_underline ∧
  span_style (m_anchored_spans_ending ed) 2 0 = Some anchored_underline ∧
  span_style (m_anchored_spans_starting ed) 1 3 = Some anchored_underline.
Proof.
  cbv zeta.
  pose proof (stylize_records_span 0 2 anchored_underline (underlined 1 3 0) eq_refl) as H.
  cbv zeta in H. change (is_anchored anchored_underline) with true in H. cbv iota in H.
  destruct H as (H1 & H2 & H3 & _).
  split; [exact H1|]. split; [exact H2|].
  destruct (H3 1 3 ltac:(discriminate)) as [H4 _].
  exact (eq_trans H4 eq_refl).
Defined.

Lemma span_tables_stay_mirrored_witness :
  let e := underlined 1 3 3 in
  editor_tables_mirror e ∧
  editor_tables_mirror (stylize (mkSpan 0 8 ByteOriented) anchored_underline e) ∧
  editor_tables_mirror (strip_styles false e) ∧
  editor_tables_mirror (readjust_anchored_styles 2 Removal e).
Proof.
  cbv zeta.
  pose proof (span_tables_stay_mirrored (underlined 1 3 3) (underlined_tables_mirror 1 3 3))
    as (H1 & H2 & H3).
  split; [apply underlined_tables_mirror|].
  split; [apply H1|]. split; [apply H2|apply H3].
Defined.

Lemma forced_overlap_removal_spans_witness :
  let ed := underlined 4 6 0 in
  anchored_table_ok (m_anchored_spans_starting ed) ∧
  forced_relocated_span 2 4 6 = Some (3, 5) ∧
  (has_span (m_anchored_spans_starting (readjust_anchored_styles 2 ForcedOverlapRemoval ed))
     3 5 ↔
   ∃ s e, has_span (m_anchored_spans_starting ed) s e ∧
          forced_relocated_span 2 s e = Some (3, 5)).
Proof.
  cbv zeta. split; [apply underlined_table_ok|]. split; [reflexivity|].
  exact (forced_overlap_removal_spans 2 (underlined 4 6 0) 3 5 (underlined_table_ok 4 6 0)).
Defined.

Lemma underlined_offsets_in_range :
  offsets_in_range (m_anchored_spans_starting (underlined 1 3 2)).
Proof. intros s e H. apply underlined_spans in H as [-> ->]. lia. Qed.

Lemma underlined_spans_within (cursor : nat) :
  spans_within (m_anchored_spans_starting (underlined 1 3 cursor)) 6.
Proof. intros s e H. apply underlined_spans in H as [-> ->]. lia. Qed.

Lemma backspace_restores_anchored_spans_witness :
  let ed := underlined 1 3 2 in
  has_span (m_anchored_spans_starting ed) 1 3 ∧
  (has_span (m_anchored_spans_starting
               (do_backspace (insert standard_utf8_encode 120 ed))) 1 3 ↔
   has_span (m_anchored_spans_starting ed) 1 3).
Proof.
  cbv zeta. split; [by apply underlined_spans|].
  exact (backspace_restores_anchored_spans standard_utf8_encode 120 (underlined 1 3 2) 1 3
           ltac:(unfold cursor_in_bounds; vm_compute; lia) eq_refl (underlined_table_ok 1 3 2)
           underlined_offsets_in_range eq_refl).
Defined.

Lemma insert_keeps_spans_within_witness :
  let ed := underlined 1 3 2 in
  spans_within (m_anchored_spans_starting ed) (Z.of_nat (length (m_buffer ed))) ∧
  spans_within (m_anchored_spans_starting (insert standard_utf8_encode 120 ed))
    (Z.of_nat (length (m_buffer (insert standard_utf8_encode 120 ed)))).
Proof.
  cbv zeta. split; [apply underlined_spans_within|].
  exact (insert_keeps_spans_within standard_utf8_encode 120 (underlined 1 3 2)
           ltac:(unfold cursor_in_bounds; vm_compute; lia) (underlined_table_ok 1 3 2)
           eq_refl (underlined_spans_within 2)).
Defined.

Lemma remove_at_index_keeps_spans_within_witness :
  let ed := underlined 1 3 2 in
  spans_within (m_anchored_spans_starting ed) (Z.of_nat (length (m_buffer ed))) ∧
  spans_within (m_anchored_spans_starting (remove_at_index 1 ed))
    (Z.of_nat (length (m_buffer (remove_at_index 1 ed)))).
Proof.
  cbv zeta. split; [apply underlined_spans_within|].
  exact (remove_at_index_keeps_spans_within 1 (underlined 1 3 2)
           ltac:(vm_compute; lia) (underlined_table_ok 1 3 2)
           eq_refl (underlined_spans_within 2) ltac:(discriminate)).
Defined.

Lemma edits_keep_unanchored_spans_witness :
  let ed := stylize (mkSpan 0 2 CodepointOriented)
              (mkStyle false true false ColorDefault ColorDefault None false false)
              (underlined 1 3 2) in
  has_span (m_spans_starting ed) 0 2 ∧
  m_spans_starting (insert standard_utf8_encode 120 ed) = m_spans_starting ed ∧
  m_spans_starting (remove_at_index 0 ed) = m_spans_starting ed.
Proof.
  cbv zeta.
  pose proof (edits_keep_unanchored_spans standard_utf8_encode 120 0
                (stylize (mkSpan 0 2 CodepointOriented)
                   (mkStyle false true false ColorDefault ColorDefault None false false)
                   (underlined 1 3 2))
                (underlined_table_ok 1 3 2)
                ltac:(unfold cursor_in_bounds; vm_compute; lia)
                ltac:(vm_compute; lia)) as [[H1 _] [H2 _]].
  split; [by eexists|]. split; [exact H1|exact H2].
Defined.

Lemma find_applicable_style_sound_witness :
  underline (find_applicable_style 2 (underlined 1 3 0)) = true ∧
  covering_style underline 2 (underlined 1 3 0).
Proof.
  split; [reflexivity|].
  exact (find_applicable_style_sound underline 2 (underlined 1 3 0)
           ltac:(do 2 apply list_elem_of_further; apply list_elem_of_here) eq_refl).
Defined.

Lemma plain_line_evaluated (l : list Z) :
  forallb (fun c => negb ((c =? 27) || (c =? 13) || (c =? 10))) l = true → plain_line l.
Proof.
  intros H. rewrite forallb_forall in H.
  repeat split; intros Hin%list_elem_of_In%H; done.
Qed.

Lemma metrics_of_plain_lines_witness :
  let metrics :=
    actual_rendered_string_metrics
      (text_of_lines (bytes_of "$ ls") [bytes_of "Documents"; bytes_of "src"]) in
  line_lengths metrics = [4; 9; 3]%nat ∧
  total_length metrics = sum_list (line_lengths metrics) ∧
  max_line_length metrics = max_list (line_lengths metrics).
Proof.
  exact (metrics_of_plain_lines (bytes_of "$ ls") [bytes_of "Documents"; bytes_of "src"]
           ltac:(apply plain_line_evaluated; reflexivity)
           ltac:(repeat constructor; apply plain_line_evaluated; reflexivity)).
Defined.

Lemma carriage_return_zeroes_previous_line_witness :
  let metrics :=
    actual_rendered_string_metrics
      (text_of_lines (bytes_of "ab") ([bytes_of "cde"] ++ [bytes_of "fg"])
         ++ 13 :: bytes_of "h") in
  line_lengths metrics = removelast [2; 3]%nat ++ [0; 1]%nat ∧
  total_length metrics = 8%nat.
Proof.
  exact (carriage_return_zeroes_previous_line (bytes_of "ab") [bytes_of "cde"]
           (bytes_of "fg") (bytes_of "h")
           ltac:(apply plain_line_evaluated; reflexivity)
           ltac:(repeat constructor; apply plain_line_evaluated; reflexivity)
           ltac:(apply plain_line_evaluated; reflexivity) ltac:(apply plain_line_evaluated; reflexivity)).
Defined.

Lemma lines_with_addition_concatenates_witness :
  lines_with_addition
    (actual_rendered_string_metrics (text_of_lines (bytes_of "$ ") []))
    (actual_rendered_string_metrics (text_of_lines (bytes_of "echo") [bytes_of "hi"])) 4 =
  Some (rows 4
          (line_lengths
             (actual_rendered_string_metrics
                (text_of_lines (bytes_of "$ ") [] ++
                 text_of_lines (bytes_of "echo") [bytes_of "hi"])))).
Proof.
  exact (lines_with_addition_concatenates (bytes_of "$ ") (bytes_of "echo") []
           [bytes_of "hi"] 4 ltac:(discriminate)
           ltac:(apply plain_line_evaluated; reflexivity) ltac:(constructor)
           ltac:(apply plain_line_evaluated; reflexivity)
           ltac:(repeat constructor; apply plain_line_evaluated; reflexivity)).
Defined.

Lemma add_to_history_keeps_latest_witness :
  let e := session_start [bytes_of "a"; bytes_of "b"] false in
  ∃ e', add_all_to_history 3 [bytes_of "c"; []; bytes_of "d"] e = Some e' ∧
        m_history e' =
          drop (length (m_history e ++ [bytes_of "c"; bytes_of "d"]) - 3)
            (m_history e ++ filter (fun line => line ≠ []) [bytes_of "c"; []; bytes_of "d"]).
Proof.
  exact (add_to_history_keeps_latest 3 [bytes_of "c"; []; bytes_of "d"]
           (session_start [bytes_of "a"; bytes_of "b"] false)
           ltac:(lia) ltac:(vm_compute; lia)).
Defined.

Lemma initialize_line_discipline_witness :
  let env := mkEnvironment true true (Some (bytes_of "xterm-256color")) default_termios in
  let e := set_m_initialized false (session_start [] false) in
  let e' := initialize env e in
  m_initialized e = false ∧ m_default_termios e' = default_termios ∧
  c_lflag (m_termios e') = 0 ∧ initialize env e' = e'.
Proof.
  cbv zeta.
  pose proof (initialize_line_discipline
                (mkEnvironment true true (Some (bytes_of "xterm-256color")) default_termios)
                (mkEnvironment true true (Some (bytes_of "xterm-256color")) default_termios)
                (set_m_initialized false (session_start [] false)) eq_refl) as H.
  cbv zeta in H. destruct H as (H1 & _ & _ & _ & H5).
  split; [reflexivity|]. split; [exact H1|]. split; [reflexivity|exact H5].
Defined.

Lemma read_events_keep_cursor_in_bounds_witness :
  let e := underlined 1 3 2 in
  ∃ e', foldl (fun oe input_view =>
                 oe ≫= handle_read_event standard_utf8_encode standard_utf8_decode input_view)
          (Some e) [[20]; [27; 91; 68]; [11; 120]; [21]] = Some e' ∧
        cursor_in_bounds e'.
Proof.
  cbv zeta. eexists. split; [vm_compute; reflexivity|].
  eapply (read_events_keep_cursor_in_bounds standard_utf8_encode standard_utf8_decode
            [[20]; [27; 91; 68]; [11; 120]; [21]] (underlined 1 3 2));
    [vm_compute; reflexivity|unfold cursor_in_bounds; vm_compute; lia].
Defined.
